(** * WellDone backend: posts and comments controllers

    A shallow embedding of the request handlers of the blog backend
    (the posts controller with JWT ownership checks and the comments
    controller) together with the pieces of express-validator, validator.js
    and Mongoose they are written against.

    Conventions of the embedding.
    - Strings are sequences of ASCII characters.
    - A JavaScript number that holds an integer is a [Z]; the handlers only
      compare, decrement and multiply such numbers.
    - An [ObjectId] is kept in the textual form that [toString()] renders.
      The cast that Mongoose applies to a string coming from a request, and
      which [mongoose.Types.ObjectId.isValid] predicts, is the section
      variable [castObjectId].
    - The document store is a record of four collections, each a list in
      insertion order.  Handlers thread it explicitly.
    - Identifiers of new documents and the current date are drawn by the
      driver and the runtime; they are arguments of the handlers. *)

From Stdlib Require Import ZArith List String Ascii Bool Lia Sorted.
Import ListNotations.

Local Open Scope string_scope.
Local Open Scope list_scope.

(** ** validator.js: the sanitizers and validators the chains call *)

Definition is_whitespace (c : ascii) : bool :=
  let n := N_of_ascii c in
  (N.eqb n 32 || (N.leb 9 n && N.leb n 13))%bool.

(** [ltrim]: drop the leading whitespace. *)
Fixpoint ltrim (s : string) : string :=
  match s with
  | EmptyString => EmptyString
  | String c s' => if is_whitespace c then ltrim s' else s
  end.

(** [rtrim]: drop the trailing whitespace. *)
Fixpoint rtrim (s : string) : string :=
  match s with
  | EmptyString => EmptyString
  | String c s' =>
      match rtrim s' with
      | EmptyString => if is_whitespace c then EmptyString else String c EmptyString
      | r => String c r
      end
  end.

Definition trim (s : string) : string := rtrim (ltrim s).

(** [escape]: replace the HTML-significant characters by entities. *)
Definition escape_char (c : ascii) : string :=
  let n := N_of_ascii c in
  if N.eqb n 38 then "&amp;"
  else if N.eqb n 34 then "&quot;"
  else if N.eqb n 39 then "&#x27;"
  else if N.eqb n 60 then "&lt;"
  else if N.eqb n 62 then "&gt;"
  else if N.eqb n 47 then "&#x2F;"
  else if N.eqb n 92 then "&#x5C;"
  else if N.eqb n 96 then "&#96;"
  else String c EmptyString.

Fixpoint escape (s : string) : string :=
  match s with
  | EmptyString => EmptyString
  | String c s' => escape_char c ++ escape s'
  end.

(** [isLength(str, {min, max})]; [max] is [None] when the options carry no
    [max] key. *)
Definition isLength (min : N) (max : option N) (s : string) : bool :=
  let len := N.of_nat (String.length s) in
  (N.leb min len
   && match max with
      | None => true
      | Some m => N.leb len m
      end)%bool.

Definition digit_value (c : ascii) : option Z :=
  let n := Z.of_N (N_of_ascii c) in
  if (Z.leb 48 n && Z.leb n 57)%bool then Some (n - 48)%Z else None.

Fixpoint digits_value (acc : Z) (s : string) : option Z :=
  match s with
  | EmptyString => Some acc
  | String c s' =>
      match digit_value c with
      | Some d => digits_value (10 * acc + d)%Z s'
      | None => None
      end
  end.

Definition unsigned_value (s : string) : option Z :=
  match s with
  | EmptyString => None
  | _ => digits_value 0%Z s
  end.

(** [isInt(str)] with the default options accepts [^[-+]?[0-9]+$].  The
    result is the number JavaScript reads in an accepted string, [None] for a
    string that [isInt] refuses. *)
Definition isInt (s : string) : option Z :=
  match s with
  | String c s' =>
      if N.eqb (N_of_ascii c) 45 then option_map Z.opp (unsigned_value s')
      else if N.eqb (N_of_ascii c) 43 then unsigned_value s'
      else unsigned_value s
  | EmptyString => None
  end.

(** JavaScript truthiness of a value that is a string or [undefined]. *)
Definition truthy (v : option string) : bool :=
  match v with
  | Some s => negb (String.eqb s "")
  | None => false
  end.

(** [Math.ceil(a / b)] for a count [a] and a positive page size [b]. *)
Definition ceil_div (a b : Z) : Z := ((a + b - 1) / b)%Z.

(** ** Data model *)

Definition ObjectId := string.
Definition Date := Z.

(** Modelled from the spec: the Topic schema ([models/topic] is not among the
    sources): an identifier and a name. *)
Record Topic := mkTopic {
  topic_id : ObjectId;
  topic_name : string
}.

(** Modelled from the spec: the Post schema ([models/post] is not among the
    sources): identifier, author reference, title, body, topic reference,
    creation date and the ordered list of comment references. *)
Record Post := mkPost {
  post_id : ObjectId;
  post_author : ObjectId;
  post_title : string;
  post_body : string;
  post_topic : ObjectId;
  post_date : Date;
  post_comments : list ObjectId
}.

(** [CommentSchema]. *)
Record Comment := mkComment {
  cmt_id : ObjectId;
  cmt_post : ObjectId;
  cmt_email : string;
  cmt_title : string;
  cmt_body : string;
  cmt_date : Date
}.

(** Modelled from the spec: the User schema ([models/user] is not among the
    sources): identifier, username, email and the list of post references. *)
Record User := mkUser {
  user_id : ObjectId;
  user_username : string;
  user_email : string;
  user_posts : list ObjectId
}.

Record Store := mkStore {
  Posts : list Post;
  Comments : list Comment;
  Topics : list Topic;
  Users : list User
}.

Definition set_Posts (st : Store) (ps : list Post) : Store :=
  mkStore ps (Comments st) (Topics st) (Users st).
Definition set_Comments (st : Store) (cs : list Comment) : Store :=
  mkStore (Posts st) cs (Topics st) (Users st).
Definition set_Topics (st : Store) (ts : list Topic) : Store :=
  mkStore (Posts st) (Comments st) ts (Users st).
Definition set_Users (st : Store) (us : list User) : Store :=
  mkStore (Posts st) (Comments st) (Topics st) us.

(** ** Requests, responses, failures *)

(** The parts of an Express request the handlers read.  A query or body
    field is [None] when the request does not carry it.  [req_user] is what
    the passport JWT strategy resolved, [None] when it rejected the token. *)
Record Request := mkRequest {
  req_params_postid : string;
  req_params_commentid : string;
  req_query_limit : option string;
  req_query_page : option string;
  req_query_topic : option string;
  req_query_userid : option string;
  req_body_title : option string;
  req_body_body : option string;
  req_body_topic : option string;
  req_body_email : option string;
  req_user : option User
}.

(** An entry of [validationResult(req).array()]. *)
Record ValidationError := mkError {
  error_path : string;
  error_msg : string
}.

Inductive Json :=
| JErrors (errors : list ValidationError)
| JPost (p : Post)
| JPosts (ps : list Post)
| JComment (c : Comment)
| JComments (cs : list Comment)
| JDeleteResult (acknowledged : bool) (deletedCount : nat)
| JNull.

(** [res.status(code).json(body)] and [res.sendStatus(code)]. *)
Inductive Response :=
| status_json (code : nat) (body : Json)
| sendStatus (code : nat).

(** [res.json(body)] answers with status 200. *)
Definition json (body : Json) : Response := status_json 200 body.

Definition status_of (r : Response) : nat :=
  match r with
  | status_json code _ => code
  | sendStatus code => code
  end.

(** What escapes a handler or a validation chain as a rejected promise; the
    async wrapper hands it to Express's error handler. *)
Inductive Failure :=
| CastError (value : string)
| SanitizationError
| SchemaValidationError
| NegativeSkip
| DocumentNotFound.

Inductive Result (A : Type) :=
| Ok (a : A)
| Throw (e : Failure).
Arguments Ok {A} a.
Arguments Throw {A} e.

Inductive Outcome :=
| Responded (r : Response)
| Unhandled (e : Failure).

(** The documents a client reads in the body of an answer that lists posts
    or comments; any other answer lists none. *)
Definition listed_posts (o : Outcome) : list Post :=
  match o with
  | Responded (status_json _ (JPosts ps)) => ps
  | _ => []
  end.

Definition listed_comments (o : Outcome) : list Comment :=
  match o with
  | Responded (status_json _ (JComments cs)) => cs
  | _ => []
  end.

(** [validationResult(req)]: [isEmpty()] and [array()]. *)
Definition isEmpty (errors : list ValidationError) : bool :=
  match errors with
  | [] => true
  | _ :: _ => false
  end.

Definition array (errors : list ValidationError) : list ValidationError := errors.

(** JavaScript truthiness of an array: every array is an object, and every
    object is truthy, the empty array included. *)
Definition truthy_array {A : Type} (a : list A) : bool := true.

(** The string express-validator hands to a standard sanitizer or validator:
    [undefined] is rendered as the empty string. *)
Definition toString (v : option string) : string :=
  match v with
  | Some s => s
  | None => ""
  end.

(** One validator of a chain: an error entry when the test fails. *)
Definition check (ok : bool) (path msg : string) : list ValidationError :=
  if ok then [] else [mkError path msg].

(** ** Collections: the Mongoose operations the handlers call *)

Fixpoint update_first {A : Type} (f : A -> bool) (g : A -> A) (l : list A) : list A :=
  match l with
  | [] => []
  | x :: l' => if f x then g x :: l' else x :: update_first f g l'
  end.

Fixpoint remove_first {A : Type} (f : A -> bool) (l : list A) : list A :=
  match l with
  | [] => []
  | x :: l' => if f x then l' else x :: remove_first f l'
  end.

(** [.limit(n)]: MongoDB reads a limit of 0 as no limit, and a negative
    limit as its absolute value. *)
Definition apply_limit {A : Type} (limit : Z) (docs : list A) : list A :=
  if Z.eqb limit 0 then docs else firstn (Z.to_nat (Z.abs limit)) docs.

(** [.skip(n).limit(m)] on the documents a query matched; MongoDB rejects a
    negative skip. *)
Definition paginate {A : Type} (skip limit : Z) (docs : list A) : Result (list A) :=
  if Z.ltb skip 0 then Throw NegativeSkip
  else Ok (apply_limit limit (skipn (Z.to_nat skip) docs)).

(** [.sort({ date: -1 })]: newest first; documents of equal date are taken
    in insertion order. *)
Fixpoint insert_by_date (p : Post) (sorted : list Post) : list Post :=
  match sorted with
  | [] => [p]
  | q :: rest =>
      if Z.leb (post_date q) (post_date p) then p :: sorted
      else q :: insert_by_date p rest
  end.

Definition sort_date_desc (ps : list Post) : list Post :=
  fold_right insert_by_date [] ps.

Definition has_post_id (i : ObjectId) (p : Post) : bool := String.eqb (post_id p) i.
Definition has_comment_id (i : ObjectId) (c : Comment) : bool := String.eqb (cmt_id c) i.
Definition has_user_id (i : ObjectId) (u : User) : bool := String.eqb (user_id u) i.
Definition has_topic_id (i : ObjectId) (t : Topic) : bool := String.eqb (topic_id t) i.
Definition has_topic_name (n : string) (t : Topic) : bool := String.eqb (topic_name t) n.
Definition of_post (i : ObjectId) (c : Comment) : bool := String.eqb (cmt_post c) i.

(** The fields an update document carries; a key whose value is [undefined]
    is dropped from the update by Mongoose. *)
Definition apply_post_update (title body : option string) (topic : option ObjectId)
    (p : Post) : Post :=
  mkPost (post_id p) (post_author p)
    (match title with Some t => t | None => post_title p end)
    (match body with Some b => b | None => post_body p end)
    (match topic with Some t => t | None => post_topic p end)
    (post_date p) (post_comments p).

Definition apply_comment_update (email title body : option string) (c : Comment) : Comment :=
  mkComment (cmt_id c) (cmt_post c)
    (match email with Some e => e | None => cmt_email c end)
    (match title with Some t => t | None => cmt_title c end)
    (match body with Some b => b | None => cmt_body c end)
    (cmt_date c).

Definition push_comment (i : ObjectId) (p : Post) : Post :=
  mkPost (post_id p) (post_author p) (post_title p) (post_body p) (post_topic p)
    (post_date p) (post_comments p ++ [i]).

Definition push_user_post (i : ObjectId) (u : User) : User :=
  mkUser (user_id u) (user_username u) (user_email u) (user_posts u ++ [i]).

(** The validators of [CommentSchema], run by [save()]. *)
Definition CommentSchema_valid (c : Comment) : bool :=
  (isLength 3%N (Some 100%N) (cmt_email c)
   && isLength 3%N (Some 100%N) (cmt_title c)
   && isLength 10%N (Some 280%N) (cmt_body c))%bool.

Section Backend.

(** The configured page size, [process.env.MAX_DOCS_PER_FETCH]. *)
Variable MAX_DOCS_PER_FETCH : positive.

(** Mongoose's cast of a string to an ObjectId, [None] when it raises a
    CastError. *)
Variable castObjectId : string -> option ObjectId.

(** validator.js [isEmail]. *)
Variable isEmail : string -> bool.

(** [mongoose.Types.ObjectId.isValid]. *)
Definition isValid (value : string) : bool :=
  match castObjectId value with
  | Some _ => true
  | None => false
  end.

Definition Post_countDocuments (st : Store) : Z := Z.of_nat (List.length (Posts st)).

Definition Post_findById (id : string) (st : Store) : Result (option Post) :=
  match castObjectId id with
  | None => Throw (CastError id)
  | Some i => Ok (find (has_post_id i) (Posts st))
  end.

(** [queryOpts]: the filter of the post listing. *)
Record QueryOpts := mkQueryOpts {
  opts_topic : option string;
  opts_author : option string
}.

Definition cast_filter (v : option string) : Result (option ObjectId) :=
  match v with
  | None => Ok None
  | Some s =>
      match castObjectId s with
      | Some i => Ok (Some i)
      | None => Throw (CastError s)
      end
  end.

Definition matches_filter (topic author : option ObjectId) (p : Post) : bool :=
  (match topic with Some t => String.eqb (post_topic p) t | None => true end
   && match author with Some a => String.eqb (post_author p) a | None => true end)%bool.

(** [Post.find(queryOpts).skip(skip).limit(limit).populate(..).sort({date: -1})].
    The result lists the documents found; the references that [populate]
    expands are left as stored. *)
Definition Post_find (queryOpts : QueryOpts) (skip limit : Z) (st : Store)
  : Result (list Post) :=
  match cast_filter (opts_topic queryOpts) with
  | Throw e => Throw e
  | Ok topic =>
      match cast_filter (opts_author queryOpts) with
      | Throw e => Throw e
      | Ok author =>
          paginate skip limit
            (sort_date_desc (filter (matches_filter topic author) (Posts st)))
      end
  end.

(** [Post.findByIdAndUpdate(id, postDetail, { new: true, runValidators: true })].
    The validators of the Post schema are taken to accept what the chains of
    the request accepted. *)
Definition Post_findByIdAndUpdate (id : string) (title body topic : option string)
    (st : Store) : Result (option Post * Store) :=
  match castObjectId id with
  | None => Throw (CastError id)
  | Some i =>
      match cast_filter topic with
      | Throw e => Throw e
      | Ok t =>
          match find (has_post_id i) (Posts st) with
          | None => Ok (None, st)
          | Some p =>
              Ok (Some (apply_post_update title body t p),
                  set_Posts st
                    (update_first (has_post_id i) (apply_post_update title body t) (Posts st)))
          end
      end
  end.

Definition Topic_findOne_name (name : string) (st : Store) : option Topic :=
  find (has_topic_name name) (Topics st).

Definition Topic_findOne_id (id : string) (st : Store) : Result (option Topic) :=
  match castObjectId id with
  | None => Throw (CastError id)
  | Some i => Ok (find (has_topic_id i) (Topics st))
  end.

Definition Comment_countDocuments (post : string) (st : Store) : Result Z :=
  match castObjectId post with
  | None => Throw (CastError post)
  | Some i => Ok (Z.of_nat (List.length (filter (of_post i) (Comments st))))
  end.

(** [Comment.find({ post }).skip(skip).limit(limit)]. *)
Definition Comment_find (post : string) (skip limit : Z) (st : Store)
  : Result (list Comment) :=
  match castObjectId post with
  | None => Throw (CastError post)
  | Some i => paginate skip limit (filter (of_post i) (Comments st))
  end.

(** [Comment.findOneAndUpdate({ _id, post }, commentDetail, { new: true })]. *)
Definition Comment_findOneAndUpdate (id post : string) (email title body : option string)
    (st : Store) : Result (option Comment * Store) :=
  match castObjectId id with
  | None => Throw (CastError id)
  | Some i =>
      match castObjectId post with
      | None => Throw (CastError post)
      | Some p =>
          let selected c := (has_comment_id i c && of_post p c)%bool in
          match find selected (Comments st) with
          | None => Ok (None, st)
          | Some c =>
              Ok (Some (apply_comment_update email title body c),
                  set_Comments st
                    (update_first selected (apply_comment_update email title body)
                       (Comments st)))
          end
      end
  end.

(** ** Validation chains *)

(** [param(path, msg).trim().custom(ObjectId.isValid).escape()]: the value
    the handler reads in [req.params], and the errors of the chain. *)
Definition objectid_param (path msg raw : string) : string * list ValidationError :=
  let value := trim raw in
  (escape value, check (isValid value) path msg).

(** [body(path, msg).trim().isLength({ min, max })]. *)
Definition length_body (path msg : string) (min : N) (max : option N)
    (raw : option string) : option string * list ValidationError :=
  let value := trim (toString raw) in
  (Some value, check (isLength min max value) path msg).

(** [body(path, msg).optional().trim().isLength({ min, max })]: an absent
    field stops the chain. *)
Definition optional_length_body (path msg : string) (min : N) (max : option N)
    (raw : option string) : option string * list ValidationError :=
  match raw with
  | None => (None, [])
  | Some _ => length_body path msg min max raw
  end.

(** [body('email', msg).trim().isEmail().isLength({ min, max })]. *)
Definition email_body (msg : string) (min : N) (max : option N)
    (raw : option string) : option string * list ValidationError :=
  let value := trim (toString raw) in
  (Some value,
   check (isEmail value) "email" msg ++ check (isLength min max value) "email" msg).

Definition optional_email_body (msg : string) (min : N) (max : option N)
    (raw : option string) : option string * list ValidationError :=
  match raw with
  | None => (None, [])
  | Some _ => email_body msg min max raw
  end.

(** [query(path, msg).default(dflt).trim().isInt()]: the default replaces an
    absent or empty value.  The value is [None] for a string [isInt]
    refuses: its error is recorded and the handler answers 400 without
    reading it. *)
Definition int_query (path msg : string) (dflt : Z) (raw : option string)
  : option Z * list ValidationError :=
  let value :=
    match raw with
    | None => Some dflt
    | Some s => if String.eqb s "" then Some dflt else isInt (trim s)
    end in
  (value, check (match value with Some _ => true | None => false end) path msg).

(** [page * MAX_DOCS_PER_FETCH], the argument of [.skip]. *)
Definition skip_of (page : Z) : Z := (page * Z.pos MAX_DOCS_PER_FETCH)%Z.

(** A number handed to [.skip] or [.limit]; a value that is no number is
    refused by the cast. *)
Definition number_arg (name : string) (v : option Z) : Result Z :=
  match v with
  | Some z => Ok z
  | None => Throw (CastError name)
  end.

(** ** Posts controller *)

Definition posts_get_limit_sanitizer (value : Z) : Z :=
  if (Z.ltb value 0 || Z.gtb value 20)%bool then 0%Z else value.

Definition posts_get_page_sanitizer (value : Z) (st : Store) : Z :=
  let docCount := Post_countDocuments st in
  if (Z.ltb value 0 || Z.gtb value (ceil_div docCount (Z.pos MAX_DOCS_PER_FETCH)))%bool
  then 0%Z
  else (value - 1)%Z.

(** The sanitizer of [query('topic')]; [None] is [undefined], the value of a
    function that falls off its end. *)
Definition posts_get_topic_sanitizer (value : string) (st : Store) : option string :=
  match Topic_findOne_name value st with
  | Some topicByName => Some (topic_id topicByName)
  | None => if isValid value then Some value else None
  end.

(** [query('topic', msg).optional().trim().escape().customSanitizer(..)]. *)
Definition posts_get_topic (raw : option string) (st : Store) : option string :=
  match raw with
  | None => None
  | Some s => posts_get_topic_sanitizer (escape (trim s)) st
  end.

(** [queryOpts] as the handler fills it. *)
Definition posts_get_queryOpts (topic userid : option string) : QueryOpts :=
  mkQueryOpts (if truthy topic then topic else None)
              (if truthy userid then userid else None).

(** The chains of [query('limit')] and [query('page')], as both list
    endpoints declare them, before their custom sanitizers. *)
Definition limit_query (req : Request) : option Z * list ValidationError :=
  int_query "limit" "Limit query must have valid format"
    (Z.pos MAX_DOCS_PER_FETCH) (req_query_limit req).

Definition page_query (req : Request) : option Z * list ValidationError :=
  int_query "page" "Page query must have valid format" 1%Z (req_query_page req).

(** The errors the chains of [posts_get] record. *)
Definition posts_get_errors (req : Request) : list ValidationError :=
  snd (limit_query req) ++ snd (page_query req).

Definition posts_get (req : Request) (st : Store) : Outcome * Store :=
  let limit := option_map posts_get_limit_sanitizer (fst (limit_query req)) in
  let page :=
    option_map (fun value => posts_get_page_sanitizer value st) (fst (page_query req)) in
  let topic := posts_get_topic (req_query_topic req) st in
  let userid := req_query_userid req in
  let errors := posts_get_errors req in
  if negb (isEmpty errors) then
    (Responded (status_json 400 (JErrors (array errors))), st)
  else
    let queryOpts := posts_get_queryOpts topic userid in
    match number_arg "skip" (option_map skip_of page), number_arg "limit" limit with
    | Ok skip, Ok lim =>
        match Post_find queryOpts skip lim st with
        | Ok allPosts => (Responded (json (JPosts allPosts)), st)
        | Throw e => (Unhandled e, st)
        end
    | Throw e, _ => (Unhandled e, st)
    | _, Throw e => (Unhandled e, st)
    end.

(** The sanitizer of [body('topic')] in [post_post]: find the topic by name
    or create it.  [newId] is the identifier the driver gives a new Topic. *)
Definition post_post_topic_sanitizer (newId : ObjectId) (value : string) (st : Store)
  : ObjectId * Store :=
  match Topic_findOne_name value st with
  | None =>
      let savedTopic := mkTopic newId value in
      (topic_id savedTopic, set_Topics st (Topics st ++ [savedTopic]))
  | Some topic => (topic_id topic, st)
  end.

(** [topicId] and [postId] are the identifiers the driver gives a new Topic
    and the new Post, [now] the value of [new Date()].  The topic sanitizer
    runs with the chains, before the handler looks at the errors.  The
    validators of the Post schema are taken to accept what the chains of the
    request accepted. *)
Definition post_post (topicId postId : ObjectId) (now : Date) (req : Request) (st : Store)
  : Outcome * Store :=
  match req_user req with
  | None => (Responded (sendStatus 401), st)
  | Some user =>
      let '(title, e_title) :=
        length_body "title" "Title must have correct length" 3%N (Some 100%N)
          (req_body_title req) in
      let '(body, e_body) :=
        length_body "body" "Post body must have correct length" 100%N (Some 10000%N)
          (req_body_body req) in
      let '(topic_oid, st1) :=
        post_post_topic_sanitizer topicId (trim (toString (req_body_topic req))) st in
      let topic := escape topic_oid in
      let errors := e_title ++ e_body in
      if negb (isEmpty errors) then
        (Responded (status_json 400 (JErrors (array errors))), st1)
      else
        match castObjectId topic with
        | None => (Unhandled SchemaValidationError, st1)
        | Some t =>
            let savedPost :=
              mkPost postId (user_id user) (toString title) (toString body) t now [] in
            let st2 := set_Posts st1 (Posts st1 ++ [savedPost]) in
            match find (has_user_id (user_id user)) (Users st2) with
            | None => (Unhandled DocumentNotFound, st2)
            | Some _ =>
                (Responded (json (JPost savedPost)),
                 set_Users st2
                   (update_first (has_user_id (user_id user))
                      (push_user_post (post_id savedPost)) (Users st2)))
            end
        end
  end.

(** The custom validator of [body('topic')] in [post_put]: the identifier
    must be valid and must name a stored Topic.  What the validator throws
    is recorded as the error of the field. *)
Definition post_put_topic_validator (value : string) (st : Store) : list ValidationError :=
  if negb (isValid value) then [mkError "topic" "Invalid topic id"]
  else
    match Topic_findOne_id value st with
    | Ok (Some _) => []
    | Ok None => [mkError "topic" "Invalid topic"]
    | Throw _ => [mkError "topic" "Cast to ObjectId failed"]
    end.

(** [body('topic', msg).optional().trim().custom(..).escape()] of [post_put]. *)
Definition post_put_topic (raw : option string) (st : Store)
  : option string * list ValidationError :=
  match raw with
  | None => (None, [])
  | Some s =>
      let value := trim s in
      (Some (escape value), post_put_topic_validator value st)
  end.

(** The errors the chains of [post_put] record. *)
Definition post_put_errors (req : Request) (st : Store) : list ValidationError :=
  snd (objectid_param "postid" "Post id must be valid" (req_params_postid req))
  ++ snd (optional_length_body "title" "Title must have correct length" 3%N (Some 100%N)
            (req_body_title req))
  ++ snd (optional_length_body "body" "Post body must have correct length" 100%N (Some 10000%N)
            (req_body_body req))
  ++ snd (post_put_topic (req_body_topic req) st).

Definition post_put (req : Request) (st : Store) : Outcome * Store :=
  match req_user req with
  | None => (Responded (sendStatus 401), st)
  | Some user =>
      let postid :=
        fst (objectid_param "postid" "Post id must be valid" (req_params_postid req)) in
      let title :=
        fst (optional_length_body "title" "Title must have correct length" 3%N (Some 100%N)
               (req_body_title req)) in
      let body :=
        fst (optional_length_body "body" "Post body must have correct length" 100%N
               (Some 10000%N) (req_body_body req)) in
      let topic := fst (post_put_topic (req_body_topic req) st) in
      let errors := post_put_errors req st in
      if negb (isEmpty errors) then
        (Responded (status_json 400 (JErrors (array errors))), st)
      else
        match Post_findById postid st with
        | Throw e => (Unhandled e, st)
        | Ok None => (Responded (sendStatus 404), st)
        | Ok (Some postById) =>
            if negb (String.eqb (post_author postById) (user_id user)) then
              (Responded (sendStatus 403), st)
            else
              match Post_findByIdAndUpdate postid title body topic st with
              | Throw e => (Unhandled e, st)
              | Ok (Some updatedPost, st') => (Responded (json (JPost updatedPost)), st')
              | Ok (None, st') => (Responded (json JNull), st')
              end
        end
  end.

Definition post_delete_errors (req : Request) : list ValidationError :=
  snd (objectid_param "postid" "Post id must be valid" (req_params_postid req)).

(** [postById.deleteOne()] removes the document it was called on and, in
    Mongoose 8, resolves to the result of the delete, [{ acknowledged: true,
    deletedCount: 1 }]; that result, not the post, is what the handler
    answers with. *)
Definition post_delete (req : Request) (st : Store) : Outcome * Store :=
  match req_user req with
  | None => (Responded (sendStatus 401), st)
  | Some user =>
      let postid :=
        fst (objectid_param "postid" "Post id must be valid" (req_params_postid req)) in
      let errors := post_delete_errors req in
      if negb (isEmpty errors) then
        (Responded (status_json 400 (JErrors (array errors))), st)
      else
        match Post_findById postid st with
        | Throw e => (Unhandled e, st)
        | Ok None => (Responded (sendStatus 404), st)
        | Ok (Some postById) =>
            if negb (String.eqb (post_author postById) (user_id user)) then
              (Responded (sendStatus 403), st)
            else
              (Responded (json (JDeleteResult true 1)),
               set_Posts st (remove_first (has_post_id (post_id postById)) (Posts st)))
        end
  end.

(** ** Comments controller *)

Definition comments_get_limit_sanitizer (value : Z) : Z :=
  if (Z.ltb value 0 || Z.gtb value 20)%bool then 0%Z else value.

(** The sanitizer of [query('page')] in [comments_get].  [errors] are the
    errors the earlier chains recorded; [value] is [None] for a string
    [isInt] refused, which leaves the two failures of the sanitizer as they
    are. *)
Definition comments_get_page_sanitizer (errors : list ValidationError) (postid : string)
    (value : option Z) (st : Store) : Result (option Z) :=
  if negb (isEmpty errors) then Throw SanitizationError
  else
    match Comment_countDocuments postid st with
    | Throw e => Throw e
    | Ok docCount =>
        Ok (option_map
              (fun value =>
                 if (Z.ltb value 0
                     || Z.gtb value (ceil_div docCount (Z.pos MAX_DOCS_PER_FETCH)))%bool
                 then 0%Z
                 else (value - 1)%Z)
              value)
    end.

(** The errors the chains of [comments_get] record. *)
Definition comments_get_errors (req : Request) : list ValidationError :=
  snd (objectid_param "postid" "Post id must be valid" (req_params_postid req))
  ++ snd (limit_query req)
  ++ snd (page_query req).

(** A query that resolves yields an array, never [undefined]: the 404
    branch of the handler has no input that reaches it. *)
Definition comments_get (req : Request) (st : Store) : Outcome * Store :=
  let '(postid, e_postid) :=
    objectid_param "postid" "Post id must be valid" (req_params_postid req) in
  let limit := option_map comments_get_limit_sanitizer (fst (limit_query req)) in
  match
    comments_get_page_sanitizer (e_postid ++ snd (limit_query req)) postid
      (fst (page_query req)) st
  with
  | Throw e => (Unhandled e, st)
  | Ok page =>
      let errors := comments_get_errors req in
      if negb (isEmpty errors) then
        (Responded (status_json 400 (JErrors (array errors))), st)
      else
        match number_arg "skip" (option_map skip_of page), number_arg "limit" limit with
        | Ok skip, Ok lim =>
            match Comment_find postid skip lim st with
            | Ok allCommentsByPost => (Responded (json (JComments allCommentsByPost)), st)
            | Throw e => (Unhandled e, st)
            end
        | Throw e, _ => (Unhandled e, st)
        | _, Throw e => (Unhandled e, st)
        end
  end.

(** The errors the chains of [comment_post] record. *)
Definition comment_post_errors (req : Request) : list ValidationError :=
  snd (objectid_param "postid" "Post id must be valid" (req_params_postid req))
  ++ snd (email_body "Email must have correct format" 3%N (Some 100%N) (req_body_email req))
  ++ snd (length_body "title" "Title must have correct length" 3%N (Some 100%N)
            (req_body_title req))
  ++ snd (length_body "body" "Comment body must have correct length" 10%N None
            (req_body_body req)).

(** [newId] is the identifier the driver gives the new Comment, [now] the
    value of [new Date()]. *)
Definition comment_post (newId : ObjectId) (now : Date) (req : Request) (st : Store)
  : Outcome * Store :=
  let postid :=
    fst (objectid_param "postid" "Post id must be valid" (req_params_postid req)) in
  let email :=
    fst (email_body "Email must have correct format" 3%N (Some 100%N) (req_body_email req)) in
  let title :=
    fst (length_body "title" "Title must have correct length" 3%N (Some 100%N)
           (req_body_title req)) in
  let body :=
    fst (length_body "body" "Comment body must have correct length" 10%N None
           (req_body_body req)) in
  let errors := comment_post_errors req in
  if negb (isEmpty errors) then
    (Responded (status_json 400 (JErrors (array errors))), st)
  else
    match Post_findById postid st with
    | Throw e => (Unhandled e, st)
    | Ok None => (Responded (sendStatus 404), st)
    | Ok (Some post) =>
        match castObjectId postid with
        | None => (Unhandled SchemaValidationError, st)
        | Some post_ref =>
            let newComment :=
              mkComment newId post_ref (toString email) (toString title) (toString body)
                now in
            if negb (CommentSchema_valid newComment) then
              (Unhandled SchemaValidationError, st)
            else
              let savedComment := newComment in
              let st1 := set_Comments st (Comments st ++ [savedComment]) in
              (Responded (json (JComment savedComment)),
               set_Posts st1
                 (update_first (has_post_id (post_id post))
                    (push_comment (cmt_id savedComment)) (Posts st1)))
        end
    end.

(** The errors the chains of [comment_put] record. *)
Definition comment_put_errors (req : Request) : list ValidationError :=
  snd (objectid_param "postid" "Post id must be valid" (req_params_postid req))
  ++ snd (objectid_param "commentid" "Comment id must be valid" (req_params_commentid req))
  ++ snd (optional_email_body "Email must have correct format" 3%N (Some 10%N)
            (req_body_email req))
  ++ snd (optional_length_body "title" "Title must have correct length" 3%N (Some 100%N)
            (req_body_title req))
  ++ snd (optional_length_body "body" "Comment body must have correct length" 10%N None
            (req_body_body req)).

Definition comment_put (req : Request) (st : Store) : Outcome * Store :=
  let postid :=
    fst (objectid_param "postid" "Post id must be valid" (req_params_postid req)) in
  let commentid :=
    fst (objectid_param "commentid" "Comment id must be valid" (req_params_commentid req)) in
  let email :=
    fst (optional_email_body "Email must have correct format" 3%N (Some 10%N)
           (req_body_email req)) in
  let title :=
    fst (optional_length_body "title" "Title must have correct length" 3%N (Some 100%N)
           (req_body_title req)) in
  let body :=
    fst (optional_length_body "body" "Comment body must have correct length" 10%N None
           (req_body_body req)) in
  let errors := comment_put_errors req in
  if negb (truthy_array (array errors)) then
    (Responded (status_json 400 (JErrors (array errors))), st)
  else
    match Comment_findOneAndUpdate commentid postid email title body st with
    | Throw e => (Unhandled e, st)
    | Ok (None, st') => (Responded (sendStatus 404), st')
    | Ok (Some updatedComment, st') => (Responded (json (JComment updatedComment)), st')
    end.

(** [Comment.findOne({ _id, post })]. *)
Definition Comment_findOne (id post : string) (st : Store) : Result (option Comment) :=
  match castObjectId id with
  | None => Throw (CastError id)
  | Some i =>
      match castObjectId post with
      | None => Throw (CastError post)
      | Some p => Ok (find (fun c => (has_comment_id i c && of_post p c)%bool) (Comments st))
      end
  end.

(** The errors the chains of [comment_get] record. *)
Definition comment_get_errors (req : Request) : list ValidationError :=
  snd (objectid_param "postid" "Post id must be valid" (req_params_postid req))
  ++ snd (objectid_param "commentid" "Comment id must be valid" (req_params_commentid req)).

Definition comment_get (req : Request) (st : Store) : Outcome * Store :=
  let postid :=
    fst (objectid_param "postid" "Post id must be valid" (req_params_postid req)) in
  let commentid :=
    fst (objectid_param "commentid" "Comment id must be valid" (req_params_commentid req)) in
  let errors := comment_get_errors req in
  if negb (isEmpty errors) then
    (Responded (status_json 400 (JErrors (array errors))), st)
  else
    match Comment_findOne commentid postid st with
    | Throw e => (Unhandled e, st)
    | Ok None => (Responded (sendStatus 404), st)
    | Ok (Some comment) => (Responded (json (JComment comment)), st)
    end.

(** The errors the chains of [post_post] record; the topic chain records
    none. *)
Definition post_post_errors (req : Request) : list ValidationError :=
  snd (length_body "title" "Title must have correct length" 3%N (Some 100%N)
         (req_body_title req))
  ++ snd (length_body "body" "Post body must have correct length" 100%N (Some 10000%N)
            (req_body_body req)).

End Backend.

(** ** The first posts controller, [controllers/postController.js]

    The controller as it stood before authentication: no principal, no
    ownership, no pagination.  Its update and delete go through
    [findByIdAndUpdate] and [findByIdAndDelete] alone. *)

Module postController.

Section Handlers.

Variable castObjectId : string -> option ObjectId.

(** [Post.findByIdAndDelete(id)]. *)
Definition Post_findByIdAndDelete (id : string) (st : Store) : Result (option Post * Store) :=
  match castObjectId id with
  | None => Throw (CastError id)
  | Some i =>
      match find (has_post_id i) (Posts st) with
      | None => Ok (None, st)
      | Some p => Ok (Some p, set_Posts st (remove_first (has_post_id i) (Posts st)))
      end
  end.

(** [body(path, msg).optional().trim().isLength({ min, max }).escape()]. *)
Definition optional_length_escape_body (path msg : string) (min : N) (max : option N)
    (raw : option string) : option string * list ValidationError :=
  match raw with
  | None => (None, [])
  | Some s =>
      let value := trim s in
      (Some (escape value), check (isLength min max value) path msg)
  end.

Definition posts_get (req : Request) (st : Store) : Outcome * Store :=
  let allPosts := Posts st in
  (Responded (json (JPosts allPosts)), st).

Definition post_get_errors (req : Request) : list ValidationError :=
  snd (objectid_param castObjectId "postid" "Post id must be valid" (req_params_postid req)).

Definition post_get (req : Request) (st : Store) : Outcome * Store :=
  let postid :=
    fst (objectid_param castObjectId "postid" "Post id must be valid"
           (req_params_postid req)) in
  let errors := post_get_errors req in
  if negb (isEmpty errors) then
    (Responded (status_json 400 (JErrors (array errors))), st)
  else
    match Post_findById castObjectId postid st with
    | Throw e => (Unhandled e, st)
    | Ok None => (Responded (sendStatus 404), st)
    | Ok (Some post) => (Responded (json (JPost post)), st)
    end.

Definition post_put_errors (req : Request) : list ValidationError :=
  snd (objectid_param castObjectId "postid" "Post id must be valid" (req_params_postid req))
  ++ snd (optional_length_escape_body "title" "Title must have correct length" 3%N
            (Some 100%N) (req_body_title req))
  ++ snd (optional_length_escape_body "body" "Post body must have correct length" 3%N
            (Some 100%N) (req_body_body req)).

Definition post_put (req : Request) (st : Store) : Outcome * Store :=
  let postid :=
    fst (objectid_param castObjectId "postid" "Post id must be valid"
           (req_params_postid req)) in
  let title :=
    fst (optional_length_escape_body "title" "Title must have correct length" 3%N
           (Some 100%N) (req_body_title req)) in
  let body :=
    fst (optional_length_escape_body "body" "Post body must have correct length" 3%N
           (Some 100%N) (req_body_body req)) in
  let errors := post_put_errors req in
  if negb (isEmpty errors) then
    (Responded (status_json 400 (JErrors (array errors))), st)
  else
    match Post_findByIdAndUpdate castObjectId postid title body None st with
    | Throw e => (Unhandled e, st)
    | Ok (None, st') => (Responded (sendStatus 404), st')
    | Ok (Some updatedPost, st') => (Responded (json (JPost updatedPost)), st')
    end.

Definition post_delete_errors (req : Request) : list ValidationError :=
  snd (objectid_param castObjectId "postid" "Post id must be valid" (req_params_postid req)).

Definition post_delete (req : Request) (st : Store) : Outcome * Store :=
  let postid :=
    fst (objectid_param castObjectId "postid" "Post id must be valid"
           (req_params_postid req)) in
  let errors := post_delete_errors req in
  if negb (isEmpty errors) then
    (Responded (status_json 400 (JErrors (array errors))), st)
  else
    match Post_findByIdAndDelete postid st with
    | Throw e => (Unhandled e, st)
    | Ok (None, st') => (Responded (sendStatus 404), st')
    | Ok (Some deletedPost, st') => (Responded (json (JPost deletedPost)), st')
    end.

End Handlers.

End postController.

(** ** A concrete deployment, for the examples *)

(** A cast that accepts the strings of 24 characters. *)
Definition example_cast (s : string) : option ObjectId :=
  if Nat.eqb (String.length s) 24 then Some s else None.

(** An address test that asks for an at sign. *)
Definition example_isEmail (s : string) : bool :=
  existsb (fun c => N.eqb (N_of_ascii c) 64) (list_ascii_of_string s).

Definition alice_id : ObjectId := "65c20bf87454d893cab48638".
Definition bob_id : ObjectId := "65c20bf87454d893cab48639".
Definition news_id : ObjectId := "65c20bf87454d893cab4863a".
Definition post1_id : ObjectId := "65c20bf87454d893cab4863b".
Definition post2_id : ObjectId := "65c20bf87454d893cab4863c".
Definition post3_id : ObjectId := "65c20bf87454d893cab4863d".
Definition comment1_id : ObjectId := "65c20bf87454d893cab4863e".

Definition alice : User := mkUser alice_id "alice" "alice@example.org" [post1_id; post2_id; post3_id].
Definition bob : User := mkUser bob_id "bob" "bob@example.org" [].

Definition post1 : Post := mkPost post1_id alice_id "Hello World" "first body" news_id 100%Z [comment1_id].
Definition post2 : Post := mkPost post2_id alice_id "Second post" "second body" news_id 200%Z [].
Definition post3 : Post := mkPost post3_id alice_id "Third post" "third body" news_id 300%Z [].

Definition comment1 : Comment :=
  mkComment comment1_id post1_id "bob@example.org" "First comment" "a comment on the post" 150%Z.

(** Three posts by alice, one comment by bob on the first. *)
Definition blog : Store :=
  mkStore [post1; post2; post3] [comment1] [mkTopic news_id "news"] [alice; bob].

Definition empty_request : Request :=
  mkRequest "" "" None None None None None None None None None.

Definition with_postid (i : string) (r : Request) : Request :=
  mkRequest i (req_params_commentid r) (req_query_limit r) (req_query_page r)
    (req_query_topic r) (req_query_userid r) (req_body_title r) (req_body_body r)
    (req_body_topic r) (req_body_email r) (req_user r).
Definition with_commentid (i : string) (r : Request) : Request :=
  mkRequest (req_params_postid r) i (req_query_limit r) (req_query_page r)
    (req_query_topic r) (req_query_userid r) (req_body_title r) (req_body_body r)
    (req_body_topic r) (req_body_email r) (req_user r).
Definition with_limit (v : option string) (r : Request) : Request :=
  mkRequest (req_params_postid r) (req_params_commentid r) v (req_query_page r)
    (req_query_topic r) (req_query_userid r) (req_body_title r) (req_body_body r)
    (req_body_topic r) (req_body_email r) (req_user r).
Definition with_page (v : option string) (r : Request) : Request :=
  mkRequest (req_params_postid r) (req_params_commentid r) (req_query_limit r) v
    (req_query_topic r) (req_query_userid r) (req_body_title r) (req_body_body r)
    (req_body_topic r) (req_body_email r) (req_user r).
Definition with_topic (v : option string) (r : Request) : Request :=
  mkRequest (req_params_postid r) (req_params_commentid r) (req_query_limit r)
    (req_query_page r) v (req_query_userid r) (req_body_title r) (req_body_body r)
    (req_body_topic r) (req_body_email r) (req_user r).
Definition with_title (v : option string) (r : Request) : Request :=
  mkRequest (req_params_postid r) (req_params_commentid r) (req_query_limit r)
    (req_query_page r) (req_query_topic r) (req_query_userid r) v (req_body_body r)
    (req_body_topic r) (req_body_email r) (req_user r).
Definition with_body (v : option string) (r : Request) : Request :=
  mkRequest (req_params_postid r) (req_params_commentid r) (req_query_limit r)
    (req_query_page r) (req_query_topic r) (req_query_userid r) (req_body_title r) v
    (req_body_topic r) (req_body_email r) (req_user r).
Definition with_email (v : option string) (r : Request) : Request :=
  mkRequest (req_params_postid r) (req_params_commentid r) (req_query_limit r)
    (req_query_page r) (req_query_topic r) (req_query_userid r) (req_body_title r)
    (req_body_body r) (req_body_topic r) v (req_user r).
Definition with_user (v : option User) (r : Request) : Request :=
  mkRequest (req_params_postid r) (req_params_commentid r) (req_query_limit r)
    (req_query_page r) (req_query_topic r) (req_query_userid r) (req_body_title r)
    (req_body_body r) (req_body_topic r) (req_body_email r) v.

Definition empty_store : Store := mkStore [] [] [] [].

(** [PUT /posts/post1/comments/comment1] with a title of two characters. *)
Definition short_title_put : Request :=
  with_title (Some "ab") (with_commentid comment1_id (with_postid post1_id empty_request)).

(** [POST /posts/post2/comments] with a title of two characters. *)
Definition short_title_post : Request :=
  with_email (Some "eve@example.org")
    (with_title (Some "ab")
       (with_body (Some "I liked this post") (with_postid post2_id empty_request))).

(** bob, who wrote no post, sends [PUT /posts/post1] with a new title, and
    the same for an identifier that names no post. *)
Definition bob_puts_post1 : Request :=
  with_user (Some bob) (with_title (Some "New title") (with_postid post1_id empty_request)).
Definition bob_puts_missing : Request :=
  with_user (Some bob) (with_title (Some "New title") (with_postid comment1_id empty_request)).

(** alice deletes her first post. *)
Definition alice_deletes_post1 : Request :=
  with_user (Some alice) (with_postid post1_id empty_request).

(** The store after that deletion: the comment on the first post stays. *)
Definition blog_without_post1 : Store :=
  mkStore [post2; post3] [comment1] [mkTopic news_id "news"] [alice; bob].

(** A comment sent to the second post. *)
Definition comment2_id : ObjectId := "65c20bf87454d893cab4863f".
Definition eve_comments_post2 : Request :=
  with_email (Some "eve@example.org")
    (with_title (Some "Nice")
       (with_body (Some "I liked this post") (with_postid post2_id empty_request))).
Definition comment2 : Comment :=
  mkComment comment2_id post2_id "eve@example.org" "Nice" "I liked this post" 400%Z.

(** The blog after a discussion: three comments on the first post, and one
    on the second that was stored between them. *)
Definition comment3_id : ObjectId := "65c20bf87454d893cab48640".
Definition comment4_id : ObjectId := "65c20bf87454d893cab48641".
Definition comment3 : Comment :=
  mkComment comment3_id post1_id "eve@example.org" "Second comment" "another comment on it"
    410%Z.
Definition comment4 : Comment :=
  mkComment comment4_id post1_id "bob@example.org" "Third comment" "and a last comment on it"
    420%Z.
Definition discussion : Store :=
  mkStore [post1; post2; post3] [comment1; comment2; comment3; comment4]
    [mkTopic news_id "news"] [alice; bob].

(** The requests for the pages 1 and 2 of a listing, with the default
    limit: [request] with [?page=1] for 1 and with [?page=2] otherwise. *)
Definition page_1_or_2 (request : Request) (k : nat) : Request :=
  with_page (Some (if Nat.eqb k 1 then "1" else "2")) request.

(** The page resolution in the words of the specification:
    [effectivePage = page - 1] if [0 <= page - 1 <= totalPages], else [0].
    It is compared below with the sanitizers of the two list endpoints. *)
Definition spec_effectivePage (page totalPages : Z) : Z :=
  if (Z.leb 0 (page - 1) && Z.leb (page - 1) totalPages)%bool then (page - 1)%Z else 0%Z.

(** [req.params.postid] and [req.params.commentid] as the handlers read
    them, after the chains of the parameters ran. *)
Definition params_postid (req : Request) : string := escape (trim (req_params_postid req)).
Definition params_commentid (req : Request) : string :=
  escape (trim (req_params_commentid req)).

(** Every stored Comment refers to a stored Post. *)
Definition comments_reference_posts (st : Store) : Prop :=
  forall c, In c (Comments st) -> exists p, In p (Posts st) /\ post_id p = cmt_post c.

(** ** Predicates of the further properties *)

(** The characters [escape] replaces, the ampersand apart. *)
Definition html_significant (c : ascii) : bool :=
  let n := N_of_ascii c in
  (N.eqb n 34 || N.eqb n 39 || N.eqb n 60 || N.eqb n 62 || N.eqb n 47 || N.eqb n 92
   || N.eqb n 96)%bool.

(** A string without any of them. *)
Definition plain (s : string) : Prop :=
  forall c, In c (list_ascii_of_string s) -> html_significant c = false.

(** What an update of a post or of a comment has no key for. *)
Definition post_frame (p : Post) : ObjectId * ObjectId * Date * list ObjectId :=
  (post_id p, post_author p, post_date p, post_comments p).
Definition comment_frame (c : Comment) : ObjectId * ObjectId * Date :=
  (cmt_id c, cmt_post c, cmt_date c).

Definition unique_topic_names (st : Store) : Prop := NoDup (map topic_name (Topics st)).
Definition unique_post_ids (st : Store) : Prop := NoDup (map post_id (Posts st)).

(** Newest first. *)
Definition newest_first (ps : list Post) : Prop :=
  StronglySorted (fun p q => (post_date q <= post_date p)%Z) ps.

(** Every stored comment passes the validators of [CommentSchema]. *)
Definition comments_valid (st : Store) : Prop :=
  forall c, In c (Comments st) -> CommentSchema_valid c = true.

(** Further requests on the concrete deployment. *)
Definition with_body_topic (v : option string) (r : Request) : Request :=
  mkRequest (req_params_postid r) (req_params_commentid r) (req_query_limit r)
    (req_query_page r) (req_query_topic r) (req_query_userid r) (req_body_title r)
    (req_body_body r) v (req_body_email r) (req_user r).
Definition with_userid (v : option string) (r : Request) : Request :=
  mkRequest (req_params_postid r) (req_params_commentid r) (req_query_limit r)
    (req_query_page r) (req_query_topic r) v (req_body_title r)
    (req_body_body r) (req_body_topic r) (req_body_email r) (req_user r).

Definition long_body : string :=
  "0123456789012345678901234567890123456789012345678901234567890123456789012345678901234567890123456789".
Definition post4_id : ObjectId := "65c20bf87454d893cab48640".
Definition sports_id : ObjectId := "65c20bf87454d893cab48641".

(** bob posts on the new topic [sports]; the same with a title too short. *)
Definition bob_posts : Request :=
  with_user (Some bob)
    (with_title (Some " Match report ")
       (with_body (Some long_body) (with_body_topic (Some "sports") empty_request))).
Definition bob_posts_short_title : Request := with_title (Some "ab") bob_posts.

(** alice renames her first post. *)
Definition alice_puts_post1 : Request :=
  with_user (Some alice) (with_title (Some "New title") (with_postid post1_id empty_request)).

(** A comment body of 300 characters, and the comment of eve with it. *)
Definition long_comment_body : string := long_body ++ long_body ++ long_body.
Definition eve_comments_at_length : Request :=
  with_body (Some long_comment_body) eve_comments_post2.

(** [GET /posts/post1/comments/comment1], and the same comment asked for
    under the second post. *)
Definition get_comment1 : Request :=
  with_commentid comment1_id (with_postid post1_id empty_request).
Definition get_comment1_under_post2 : Request :=
  with_commentid comment1_id (with_postid post2_id empty_request).
Definition get_comment2 : Request :=
  with_commentid comment2_id (with_postid post2_id empty_request).

(** A title with markup sent to the first controller, and a topic that is
    a name, not an identifier, sent to [post_put]. *)
Definition put_markup_title : Request :=
  with_title (Some "<b>Hi</b>") (with_postid post1_id empty_request).
Definition alice_puts_topic_name : Request :=
  with_user (Some alice)
    (with_body_topic (Some "sports") (with_postid post1_id empty_request)).

(** ** Lists and collections *)

Lemma In_firstn {A : Type} (n : nat) (l : list A) (x : A) : In x (firstn n l) -> In x l.
Proof.
  revert l. induction n as [|n IH]; intros [|y l]; cbn; try tauto.
  intros [H | H]; [left; exact H | right; apply IH; exact H].
Qed.

Lemma In_skipn {A : Type} (n : nat) (l : list A) (x : A) : In x (skipn n l) -> In x l.
Proof.
  revert l. induction n as [|n IH]; intros [|y l]; cbn; try tauto.
  intros H. right. apply IH. exact H.
Qed.

Lemma In_apply_limit {A : Type} (limit : Z) (l : list A) (x : A) :
  In x (apply_limit limit l) -> In x l.
Proof.
  unfold apply_limit. destruct (Z.eqb limit 0); [tauto | apply In_firstn].
Qed.

Lemma apply_limit_nonempty {A : Type} (limit : Z) (l : list A) :
  l <> [] -> apply_limit limit l <> [].
Proof.
  unfold apply_limit. destruct (Z.eqb limit 0) eqn:E; [tauto|].
  apply Z.eqb_neq in E. intros Hl.
  destruct (Z.to_nat (Z.abs limit)) as [|n] eqn:En; [lia|].
  destruct l as [|x l]; [contradiction | discriminate].
Qed.

Lemma skipn_nonempty {A : Type} (n : nat) (l : list A) :
  (n < List.length l)%nat -> skipn n l <> [].
Proof.
  intros H E. pose proof (length_skipn n l) as Hlen.
  rewrite E in Hlen. cbn in Hlen. lia.
Qed.

Lemma paginate_nonneg {A : Type} (skip limit : Z) (docs : list A) :
  (0 <= skip)%Z ->
  paginate skip limit docs = Ok (apply_limit limit (skipn (Z.to_nat skip) docs)).
Proof.
  intros Hs. unfold paginate.
  destruct (Z.ltb skip 0) eqn:E; [lia | reflexivity].
Qed.

Lemma filter_all {A : Type} (f : A -> bool) (l : list A) :
  (forall x, f x = true) -> filter f l = l.
Proof.
  intros Hf. induction l as [|x l IH]; cbn; [reflexivity|].
  rewrite Hf, IH. reflexivity.
Qed.

Lemma find_app_none {A : Type} (f : A -> bool) (l l' : list A) :
  find f l = None -> find f (l ++ l') = find f l'.
Proof.
  induction l as [|x l IH]; cbn; [reflexivity|].
  destruct (f x); [discriminate | exact IH].
Qed.

(** Updating the first match keeps every document that was there, up to the
    update. *)
Lemma update_first_In {A : Type} (f : A -> bool) (g : A -> A) (l : list A) (x : A) :
  In x l -> In x (update_first f g l) \/ In (g x) (update_first f g l).
Proof.
  induction l as [|y l IH]; cbn; [tauto|].
  intros [-> | H].
  - destruct (f x); cbn; auto.
  - destruct (f y); cbn; [auto|]. destruct (IH H); auto.
Qed.

Lemma find_update_first {A : Type} (f : A -> bool) (g : A -> A) (l : list A) (x : A) :
  (forall y, f (g y) = f y) ->
  find f l = Some x -> find f (update_first f g l) = Some (g x).
Proof.
  intros Hg. induction l as [|y l IH]; cbn; [discriminate|].
  destruct (f y) eqn:E.
  - intros H. inversion H; subst y. cbn. rewrite Hg, E. reflexivity.
  - intros H. cbn. rewrite E. apply IH, H.
Qed.

(** Updating the first match leaves every document that does not match
    where it was, and keeps the number of documents. *)
Lemma In_update_first_other {A : Type} (f : A -> bool) (g : A -> A) (l : list A) (x : A) :
  In x l -> f x = false -> In x (update_first f g l).
Proof.
  induction l as [|y l IH]; cbn; [tauto|].
  intros [-> | H] Hx.
  - rewrite Hx. left. reflexivity.
  - destruct (f y); cbn; auto.
Qed.

Lemma update_first_length {A : Type} (f : A -> bool) (g : A -> A) (l : list A) :
  List.length (update_first f g l) = List.length l.
Proof.
  induction l as [|y l IH]; cbn; [reflexivity|].
  destruct (f y); cbn; [reflexivity | rewrite IH; reflexivity].
Qed.

(** ** Pagination arithmetic *)

Section PaginationArithmetic.

Local Open Scope Z_scope.

Variable MAX_DOCS_PER_FETCH : positive.
Variable castObjectId : string -> option ObjectId.

Local Abbreviation pageSize := (Z.pos MAX_DOCS_PER_FETCH).

Lemma ceil_div_nonneg (docCount : Z) :
  0 <= docCount -> 0 <= ceil_div docCount pageSize.
Proof.
  intros Hc. unfold ceil_div.
  apply Z.div_pos; lia.
Qed.

(** The pages before the last one are full: [totalPages - 1] pages hold
    fewer documents than there are. *)
Lemma ceil_div_upper (docCount : Z) :
  ceil_div docCount pageSize * pageSize < docCount + pageSize.
Proof.
  unfold ceil_div.
  pose proof (Z.mul_div_le (docCount + pageSize - 1) pageSize ltac:(lia)).
  lia.
Qed.

Lemma Post_countDocuments_nonneg (st : Store) : 0 <= Post_countDocuments st.
Proof. unfold Post_countDocuments. lia. Qed.

Lemma Comment_countDocuments_nonneg (postid : string) (st : Store) (docCount : Z) :
  Comment_countDocuments castObjectId postid st = Ok docCount -> 0 <= docCount.
Proof.
  unfold Comment_countDocuments.
  destruct (castObjectId postid); intros H; inversion H; lia.
Qed.

(** The arithmetic both page sanitizers share, on a count [docCount]. *)
Lemma resolved_page_cases (docCount page : Z) :
  0 <= docCount ->
  page <> 0 ->
  let resolved :=
    if (page <? 0) || (page >? ceil_div docCount pageSize) then 0 else page - 1 in
  resolved = (if (1 <=? page) && (page <=? ceil_div docCount pageSize) then page - 1 else 0)
  /\ 0 <= resolved < Z.max 1 (ceil_div docCount pageSize).
Proof.
  intros Hc Hp resolved. subst resolved.
  pose proof (ceil_div_nonneg docCount Hc) as Ht.
  destruct (page <? 0) eqn:E1; destruct (page >? ceil_div docCount pageSize) eqn:E2;
    destruct (1 <=? page) eqn:E3; destruct (page <=? ceil_div docCount pageSize) eqn:E4;
    cbn [orb andb]; lia.
Qed.

Lemma resolved_skip_bound (docCount page : Z) :
  0 <= docCount ->
  1 <= page ->
  let resolved :=
    if (page <? 0) || (page >? ceil_div docCount pageSize) then 0 else page - 1 in
  0 <= resolved * pageSize < docCount + pageSize.
Proof.
  intros Hc Hp resolved. subst resolved.
  pose proof (ceil_div_upper docCount) as Hu.
  destruct (page <? 0) eqn:E1; destruct (page >? ceil_div docCount pageSize) eqn:E2;
    cbn [orb]; try lia.
  split; [nia|].
  assert ((page - 1) * pageSize <= (ceil_div docCount pageSize - 1) * pageSize) by nia.
  lia.
Qed.

End PaginationArithmetic.

(** ** The list endpoints *)

Section ListEndpoints.

Local Open Scope Z_scope.

Variable MAX_DOCS_PER_FETCH : positive.
Variable castObjectId : string -> option ObjectId.

Local Abbreviation pageSize := (Z.pos MAX_DOCS_PER_FETCH).

Lemma int_query_valid (path msg : string) (dflt : Z) (raw : option string) :
  snd (int_query path msg dflt raw) = [] ->
  exists value, fst (int_query path msg dflt raw) = Some value.
Proof.
  unfold int_query. cbn [fst snd].
  match goal with
  | |- check (match ?v with _ => _ end) _ _ = _ -> _ => destruct v as [value|]
  end.
  - intros _. exists value. reflexivity.
  - discriminate.
Qed.

Lemma int_query_some (path msg : string) (dflt : Z) (raw : option string) (value : Z) :
  fst (int_query path msg dflt raw) = Some value ->
  snd (int_query path msg dflt raw) = [].
Proof.
  unfold int_query. cbn [fst snd]. intros ->. reflexivity.
Qed.

Lemma page_query_some (req : Request) (page : Z) :
  fst (page_query req) = Some page -> snd (page_query req) = [].
Proof. apply int_query_some. Qed.

Lemma limit_query_some (req : Request) (limit : Z) :
  fst (limit_query MAX_DOCS_PER_FETCH req) = Some limit ->
  snd (limit_query MAX_DOCS_PER_FETCH req) = [].
Proof. apply int_query_some. Qed.

Lemma limit_query_int (req : Request) (raw : string) (limit : Z) :
  req_query_limit req = Some raw ->
  isInt (trim raw) = Some limit ->
  limit_query MAX_DOCS_PER_FETCH req = (Some limit, []).
Proof.
  intros Hraw Hint. unfold limit_query, int_query. rewrite Hraw.
  destruct (String.eqb raw "") eqn:E.
  - apply String.eqb_eq in E. subst raw. discriminate Hint.
  - rewrite Hint. reflexivity.
Qed.

Lemma limit_query_with_limit (v : option string) (req : Request) :
  limit_query MAX_DOCS_PER_FETCH (with_limit v req)
  = int_query "limit" "Limit query must have valid format" pageSize v.
Proof. reflexivity. Qed.

(** What [posts_get] does with a page and a limit that are integers. *)
Lemma posts_get_guarded (req : Request) (st : Store) (page limit : Z) :
  fst (page_query req) = Some page ->
  fst (limit_query MAX_DOCS_PER_FETCH req) = Some limit ->
  posts_get MAX_DOCS_PER_FETCH castObjectId req st
  = match
      Post_find castObjectId
        (posts_get_queryOpts (posts_get_topic castObjectId (req_query_topic req) st)
           (req_query_userid req))
        (skip_of MAX_DOCS_PER_FETCH (posts_get_page_sanitizer MAX_DOCS_PER_FETCH page st))
        (posts_get_limit_sanitizer limit) st
    with
    | Ok allPosts => (Responded (json (JPosts allPosts)), st)
    | Throw e => (Unhandled e, st)
    end.
Proof.
  intros Hpage Hlimit. unfold posts_get, posts_get_errors.
  rewrite (page_query_some _ _ Hpage), (limit_query_some _ _ Hlimit).
  rewrite Hpage, Hlimit. reflexivity.
Qed.

Lemma posts_get_errors_nil (req : Request) :
  posts_get_errors MAX_DOCS_PER_FETCH req = [] ->
  (exists page, fst (page_query req) = Some page)
  /\ exists limit, fst (limit_query MAX_DOCS_PER_FETCH req) = Some limit.
Proof.
  unfold posts_get_errors. intros He.
  apply app_eq_nil in He. destruct He as [Hlimit Hpage].
  split; eapply int_query_valid; eassumption.
Qed.

(** What [comments_get] does with a well-formed post identifier, a page and
    a limit that are integers, and a count that the store returned. *)
Lemma comments_get_guarded (req : Request) (st : Store) (page limit docCount : Z) :
  isValid castObjectId (trim (req_params_postid req)) = true ->
  fst (page_query req) = Some page ->
  fst (limit_query MAX_DOCS_PER_FETCH req) = Some limit ->
  Comment_countDocuments castObjectId (params_postid req) st = Ok docCount ->
  comments_get_page_sanitizer MAX_DOCS_PER_FETCH castObjectId [] (params_postid req)
    (Some page) st
  = Ok (Some (if (page <? 0) || (page >? ceil_div docCount pageSize) then 0 else page - 1))
  /\ comments_get MAX_DOCS_PER_FETCH castObjectId req st
     = match
         Comment_find castObjectId (params_postid req)
           (skip_of MAX_DOCS_PER_FETCH
              (if (page <? 0) || (page >? ceil_div docCount pageSize) then 0 else page - 1))
           (comments_get_limit_sanitizer limit) st
       with
       | Ok allCommentsByPost => (Responded (json (JComments allCommentsByPost)), st)
       | Throw e => (Unhandled e, st)
       end.
Proof.
  intros Hid Hpage Hlimit Hcount.
  assert (comments_get_page_sanitizer MAX_DOCS_PER_FETCH castObjectId []
            (params_postid req) (Some page) st
          = Ok (Some (if (page <? 0) || (page >? ceil_div docCount pageSize)
                      then 0 else page - 1))) as Hsan.
  { unfold comments_get_page_sanitizer. cbn [isEmpty negb]. rewrite Hcount. reflexivity. }
  split; [exact Hsan|].
  unfold comments_get, comments_get_errors, objectid_param. cbn [fst snd].
  rewrite Hid, (page_query_some _ _ Hpage), (limit_query_some _ _ Hlimit).
  rewrite Hpage, Hlimit. cbn [check app].
  fold (params_postid req). rewrite Hsan. reflexivity.
Qed.

Lemma comments_get_errors_nil (req : Request) :
  comments_get_errors MAX_DOCS_PER_FETCH castObjectId req = [] ->
  isValid castObjectId (trim (req_params_postid req)) = true
  /\ (exists page, fst (page_query req) = Some page)
  /\ exists limit, fst (limit_query MAX_DOCS_PER_FETCH req) = Some limit.
Proof.
  unfold comments_get_errors, objectid_param. cbn [snd]. intros He.
  apply app_eq_nil in He. destruct He as [Hid He].
  apply app_eq_nil in He. destruct He as [Hlimit Hpage].
  split; [|split; eapply int_query_valid; eassumption].
  unfold check in Hid.
  destruct (isValid castObjectId (trim (req_params_postid req))); [reflexivity | discriminate].
Qed.

Lemma comments_get_not_404 (req : Request) (st : Store) :
  fst (comments_get MAX_DOCS_PER_FETCH castObjectId req st) <> Responded (sendStatus 404).
Proof.
  unfold comments_get.
  destruct (objectid_param castObjectId "postid" "Post id must be valid"
              (req_params_postid req)) as [postid e_postid].
  destruct (comments_get_page_sanitizer _ _ _ _ _ _) as [page|e]; [|discriminate].
  destruct (negb (isEmpty _)); [discriminate|].
  destruct (number_arg "skip" _) as [skip|e]; [|discriminate].
  destruct (number_arg "limit" _) as [lim|e]; [|discriminate].
  destruct (Comment_find _ _ _ _ _); discriminate.
Qed.

Lemma limit_sanitizer_range (limit : Z) : 0 <= posts_get_limit_sanitizer limit <= 20.
Proof.
  unfold posts_get_limit_sanitizer.
  destruct (limit <? 0) eqn:E1; destruct (limit >? 20) eqn:E2; cbn [orb]; lia.
Qed.

Lemma limit_sanitizer_out_of_range (limit : Z) :
  (limit <? 0) || (limit >? 20) = true -> posts_get_limit_sanitizer limit = 0.
Proof. intros H. unfold posts_get_limit_sanitizer. rewrite H. reflexivity. Qed.

(** From page 1 on, a page is out of range only above the last page. *)
Lemma resolved_from_page_1 (docCount page : Z) :
  1 <= page ->
  (if (page <? 0) || (page >? ceil_div docCount pageSize) then 0 else page - 1)
  = (if page <=? ceil_div docCount pageSize then page - 1 else 0).
Proof.
  intros Hp.
  destruct (page <? 0) eqn:E1; destruct (page >? ceil_div docCount pageSize) eqn:E2;
    destruct (page <=? ceil_div docCount pageSize) eqn:E3; cbn [orb]; lia.
Qed.

(** The answer of [posts_get] to a request whose page and limit are integers
    and whose filter the store casts: the matching posts, newest first, from
    the skip offset on, cut at the limit. *)
Lemma posts_get_answer (req : Request) (st : Store) (page limit : Z)
    (topic author : option ObjectId) :
  fst (page_query req) = Some page ->
  fst (limit_query MAX_DOCS_PER_FETCH req) = Some limit ->
  page <> 0 ->
  cast_filter castObjectId
    (opts_topic (posts_get_queryOpts (posts_get_topic castObjectId (req_query_topic req) st)
                   (req_query_userid req))) = Ok topic ->
  cast_filter castObjectId
    (opts_author (posts_get_queryOpts (posts_get_topic castObjectId (req_query_topic req) st)
                    (req_query_userid req))) = Ok author ->
  posts_get MAX_DOCS_PER_FETCH castObjectId req st
  = (Responded
       (json (JPosts
                (apply_limit (posts_get_limit_sanitizer limit)
                   (skipn
                      (Z.to_nat
                         (skip_of MAX_DOCS_PER_FETCH
                            (posts_get_page_sanitizer MAX_DOCS_PER_FETCH page st)))
                      (sort_date_desc (filter (matches_filter topic author) (Posts st))))))),
     st).
Proof.
  intros Hpage Hlimit Hp Htopic Hauthor.
  rewrite (posts_get_guarded req st page limit Hpage Hlimit).
  unfold Post_find. rewrite Htopic, Hauthor.
  pose proof (resolved_page_cases MAX_DOCS_PER_FETCH _ page
                (Post_countDocuments_nonneg st) Hp) as [_ [Hge _]].
  cbv zeta in Hge.
  rewrite paginate_nonneg by (unfold skip_of, posts_get_page_sanitizer; nia).
  reflexivity.
Qed.

(** The answer of [comments_get] to a validated request: the stored comments
    of the requested identifier, in stored order, from the skip offset on,
    cut at the limit. *)
Lemma comments_get_answer (req : Request) (st : Store) (pid : ObjectId) (page limit : Z) :
  isValid castObjectId (trim (req_params_postid req)) = true ->
  castObjectId (params_postid req) = Some pid ->
  fst (page_query req) = Some page ->
  fst (limit_query MAX_DOCS_PER_FETCH req) = Some limit ->
  page <> 0 ->
  comments_get MAX_DOCS_PER_FETCH castObjectId req st
  = (Responded
       (json (JComments
                (apply_limit (comments_get_limit_sanitizer limit)
                   (skipn
                      (Z.to_nat
                         (skip_of MAX_DOCS_PER_FETCH
                            (if (1 <=? page)
                                && (page <=? ceil_div
                                               (Z.of_nat
                                                  (List.length
                                                     (filter (of_post pid) (Comments st))))
                                               pageSize)
                             then page - 1 else 0)))
                      (filter (of_post pid) (Comments st)))))),
     st).
Proof.
  intros Hid Hcast Hpage Hlimit Hp.
  assert (Comment_countDocuments castObjectId (params_postid req) st
          = Ok (Z.of_nat (List.length (filter (of_post pid) (Comments st))))) as Hcount
    by (unfold Comment_countDocuments; rewrite Hcast; reflexivity).
  destruct (comments_get_guarded req st page limit _ Hid Hpage Hlimit Hcount) as [_ Hrun].
  pose proof (resolved_page_cases MAX_DOCS_PER_FETCH _ page
                (Comment_countDocuments_nonneg _ _ _ _ Hcount) Hp) as [Heq [Hge _]].
  cbv zeta in Heq, Hge.
  rewrite Hrun. unfold Comment_find. rewrite Hcast.
  rewrite paginate_nonneg by (unfold skip_of; nia).
  rewrite Heq. reflexivity.
Qed.

(** A resolved page starts before the end of the documents it was resolved
    for, when there are any. *)
Lemma resolved_skip_inside (docCount page : Z) :
  0 < docCount ->
  page <> 0 ->
  0 <= skip_of MAX_DOCS_PER_FETCH
         (if (1 <=? page) && (page <=? ceil_div docCount pageSize) then page - 1 else 0)
    < docCount.
Proof.
  intros Hc Hp. unfold skip_of.
  pose proof (ceil_div_upper MAX_DOCS_PER_FETCH docCount) as Hu.
  destruct (1 <=? page) eqn:E1; destruct (page <=? ceil_div docCount pageSize) eqn:E2;
    cbn [andb]; try lia.
  split; [nia|].
  assert ((page - 1) * pageSize <= (ceil_div docCount pageSize - 1) * pageSize) by nia.
  lia.
Qed.

(** C2, as amended: for a page other than 0, both page sanitizers yield
    [page - 1] when [1 <= page <= totalPages] and [0] otherwise, where
    [totalPages = ceil(docCount / pageSize)] for the endpoint's own count;
    the resolved index is at least 0 and below [max 1 totalPages], and the
    skip computed from it is one the store accepts. *)
Theorem page_resolution (st : Store) (page : Z) :
  page <> 0 ->
  (posts_get_page_sanitizer MAX_DOCS_PER_FETCH page st
   = (if (1 <=? page) && (page <=? ceil_div (Post_countDocuments st) pageSize)
      then page - 1 else 0)
   /\ 0 <= posts_get_page_sanitizer MAX_DOCS_PER_FETCH page st
        < Z.max 1 (ceil_div (Post_countDocuments st) pageSize)
   /\ forall limit,
        paginate (skip_of MAX_DOCS_PER_FETCH
                    (posts_get_page_sanitizer MAX_DOCS_PER_FETCH page st)) limit (Posts st)
        <> Throw NegativeSkip)
  /\ forall postid docCount,
       Comment_countDocuments castObjectId postid st = Ok docCount ->
       exists resolved,
         comments_get_page_sanitizer MAX_DOCS_PER_FETCH castObjectId [] postid
           (Some page) st = Ok (Some resolved)
         /\ resolved
            = (if (1 <=? page) && (page <=? ceil_div docCount pageSize)
               then page - 1 else 0)
         /\ 0 <= resolved < Z.max 1 (ceil_div docCount pageSize)
         /\ forall limit,
              paginate (skip_of MAX_DOCS_PER_FETCH resolved) limit (Comments st)
              <> Throw NegativeSkip.
Proof.
  intros Hp. split.
  - pose proof (resolved_page_cases MAX_DOCS_PER_FETCH (Post_countDocuments st) page
                  (Post_countDocuments_nonneg st) Hp) as [Heq Hrange].
    unfold posts_get_page_sanitizer. cbv zeta in Heq, Hrange |- *.
    repeat split; try assumption; try lia.
    intros limit. rewrite paginate_nonneg; [discriminate|].
    unfold skip_of. nia.
  - intros postid docCount Hcount.
    pose proof (Comment_countDocuments_nonneg castObjectId postid st docCount Hcount) as Hc.
    pose proof (resolved_page_cases MAX_DOCS_PER_FETCH docCount page Hc Hp) as [Heq Hrange].
    cbv zeta in Heq, Hrange.
    eexists. unfold comments_get_page_sanitizer. cbn [isEmpty negb].
    rewrite Hcount. cbn [option_map].
    repeat split; try eassumption; try lia.
    intros limit. rewrite paginate_nonneg; [discriminate|].
    unfold skip_of. nia.
Qed.

(** C5: for a page of at least 1 and any integer limit, each list handler
    queries the store with the skip [resolved * pageSize], where [resolved]
    is what its page sanitizer yields: [page - 1] when the page is at most
    [ceil(docCount / pageSize)] for the endpoint's own count, and 0
    otherwise; that skip is at least 0 and below the document count plus
    the page size, and the limit handed over with it lies in [0, 20]. *)
Theorem skip_bounds (st : Store) (page : Z) :
  1 <= page ->
  (posts_get_page_sanitizer MAX_DOCS_PER_FETCH page st
   = (if page <=? ceil_div (Post_countDocuments st) pageSize then page - 1 else 0)
   /\ 0 <= skip_of MAX_DOCS_PER_FETCH (posts_get_page_sanitizer MAX_DOCS_PER_FETCH page st)
        < Post_countDocuments st + pageSize
   /\ forall req limit,
        fst (page_query req) = Some page ->
        fst (limit_query MAX_DOCS_PER_FETCH req) = Some limit ->
        0 <= posts_get_limit_sanitizer limit <= 20
        /\ posts_get MAX_DOCS_PER_FETCH castObjectId req st
           = match
               Post_find castObjectId
                 (posts_get_queryOpts
                    (posts_get_topic castObjectId (req_query_topic req) st)
                    (req_query_userid req))
                 (skip_of MAX_DOCS_PER_FETCH
                    (posts_get_page_sanitizer MAX_DOCS_PER_FETCH page st))
                 (posts_get_limit_sanitizer limit) st
             with
             | Ok allPosts => (Responded (json (JPosts allPosts)), st)
             | Throw e => (Unhandled e, st)
             end)
  /\ forall req limit docCount,
       isValid castObjectId (trim (req_params_postid req)) = true ->
       fst (page_query req) = Some page ->
       fst (limit_query MAX_DOCS_PER_FETCH req) = Some limit ->
       Comment_countDocuments castObjectId (params_postid req) st = Ok docCount ->
       comments_get_page_sanitizer MAX_DOCS_PER_FETCH castObjectId [] (params_postid req)
         (Some page) st
       = Ok (Some (if page <=? ceil_div docCount pageSize then page - 1 else 0))
       /\ 0 <= skip_of MAX_DOCS_PER_FETCH
                 (if page <=? ceil_div docCount pageSize then page - 1 else 0)
            < docCount + pageSize
       /\ 0 <= comments_get_limit_sanitizer limit <= 20
       /\ comments_get MAX_DOCS_PER_FETCH castObjectId req st
          = match
              Comment_find castObjectId (params_postid req)
                (skip_of MAX_DOCS_PER_FETCH
                   (if page <=? ceil_div docCount pageSize then page - 1 else 0))
                (comments_get_limit_sanitizer limit) st
            with
            | Ok allCommentsByPost =>
                (Responded (json (JComments allCommentsByPost)), st)
            | Throw e => (Unhandled e, st)
            end.
Proof.
  intros Hp.
  pose proof (resolved_skip_bound MAX_DOCS_PER_FETCH (Post_countDocuments st) page
                (Post_countDocuments_nonneg st) Hp) as Hposts.
  cbv zeta in Hposts.
  split; [split; [|split]|].
  - unfold posts_get_page_sanitizer. cbv zeta. apply resolved_from_page_1. exact Hp.
  - exact Hposts.
  - intros req limit Hpage Hlimit. split; [apply limit_sanitizer_range|].
    apply posts_get_guarded; assumption.
  - intros req limit docCount Hid Hpage Hlimit Hcount.
    destruct (comments_get_guarded req st page limit docCount Hid Hpage Hlimit Hcount)
      as [Hsan Hrun].
    pose proof (resolved_skip_bound MAX_DOCS_PER_FETCH docCount page
                  (Comment_countDocuments_nonneg _ _ _ _ Hcount) Hp) as Hbound.
    cbv zeta in Hbound.
    rewrite (resolved_from_page_1 docCount page Hp) in Hsan, Hrun, Hbound.
    split; [exact Hsan|]. split; [exact Hbound|].
    split; [apply limit_sanitizer_range | exact Hrun].
Qed.

(** C6, as amended: an integer limit outside [0, 20] is resolved to 0 by
    both list endpoints and one inside is kept; no validation error is
    recorded for it, and the request is answered as the same request with
    [limit=0] is; the store reads the limit 0 as no limit at all, so for a
    page other than 0 the answer is 200 with every matching document from
    the skip offset on: the matching posts, newest first, and the stored
    comments of the requested identifier. *)
Theorem limit_resolution (limit : Z) :
  posts_get_limit_sanitizer limit
  = (if (0 <=? limit) && (limit <=? 20) then limit else 0)
  /\ comments_get_limit_sanitizer limit = posts_get_limit_sanitizer limit
  /\ (forall (A : Type) (docs : list A), apply_limit 0 docs = docs)
  /\ forall req raw,
       req_query_limit req = Some raw ->
       isInt (trim raw) = Some limit ->
       limit_query MAX_DOCS_PER_FETCH req = (Some limit, [])
       /\ ((limit <? 0) || (limit >? 20) = true ->
           forall st,
             (posts_get MAX_DOCS_PER_FETCH castObjectId req st
              = posts_get MAX_DOCS_PER_FETCH castObjectId (with_limit (Some "0") req) st
              /\ comments_get MAX_DOCS_PER_FETCH castObjectId req st
                 = comments_get MAX_DOCS_PER_FETCH castObjectId (with_limit (Some "0") req)
                     st)
             /\ forall page,
                  fst (page_query req) = Some page ->
                  page <> 0 ->
                  (forall topic author,
                     cast_filter castObjectId
                       (opts_topic
                          (posts_get_queryOpts
                             (posts_get_topic castObjectId (req_query_topic req) st)
                             (req_query_userid req))) = Ok topic ->
                     cast_filter castObjectId
                       (opts_author
                          (posts_get_queryOpts
                             (posts_get_topic castObjectId (req_query_topic req) st)
                             (req_query_userid req))) = Ok author ->
                     posts_get MAX_DOCS_PER_FETCH castObjectId req st
                     = (Responded
                          (json (JPosts
                                   (skipn
                                      (Z.to_nat
                                         (skip_of MAX_DOCS_PER_FETCH
                                            (posts_get_page_sanitizer MAX_DOCS_PER_FETCH
                                               page st)))
                                      (sort_date_desc
                                         (filter (matches_filter topic author)
                                            (Posts st)))))),
                        st))
                  /\ forall pid,
                       isValid castObjectId (trim (req_params_postid req)) = true ->
                       castObjectId (params_postid req) = Some pid ->
                       comments_get MAX_DOCS_PER_FETCH castObjectId req st
                       = (Responded
                            (json (JComments
                                     (skipn
                                        (Z.to_nat
                                           (skip_of MAX_DOCS_PER_FETCH
                                              (if (1 <=? page)
                                                  && (page <=? ceil_div
                                                                 (Z.of_nat
                                                                    (List.length
                                                                       (filter (of_post pid)
                                                                          (Comments st))))
                                                                 pageSize)
                                               then page - 1 else 0)))
                                        (filter (of_post pid) (Comments st))))),
                          st)).
Proof.
  split; [|split; [reflexivity|split; [reflexivity|]]].
  - unfold posts_get_limit_sanitizer.
    destruct (limit <? 0) eqn:E1; destruct (limit >? 20) eqn:E2;
      destruct (0 <=? limit) eqn:E3; destruct (limit <=? 20) eqn:E4;
      cbn [orb andb]; lia.
  - intros req raw Hraw Hint.
    pose proof (limit_query_int req raw limit Hraw Hint) as Hquery.
    split; [exact Hquery|]. intros Hout st.
    assert (posts_get_limit_sanitizer limit = posts_get_limit_sanitizer 0) as Hl
      by (unfold posts_get_limit_sanitizer; rewrite Hout; reflexivity).
    assert (fst (limit_query MAX_DOCS_PER_FETCH req) = Some limit) as Hlimit
      by (rewrite Hquery; reflexivity).
    split; [split|].
    + unfold posts_get, posts_get_errors.
      rewrite limit_query_with_limit, Hquery.
      change (int_query "limit" "Limit query must have valid format" pageSize (Some "0"))
        with (Some 0, @nil ValidationError).
      cbn [fst snd option_map]. rewrite Hl. reflexivity.
    + unfold comments_get, comments_get_errors.
      rewrite limit_query_with_limit, Hquery.
      change (int_query "limit" "Limit query must have valid format" pageSize (Some "0"))
        with (Some 0, @nil ValidationError).
      cbn [fst snd option_map]. unfold comments_get_limit_sanitizer at 1.
      unfold posts_get_limit_sanitizer in Hl. rewrite Hout. reflexivity.
    + intros page Hpage Hp. split.
      * intros topic author Htopic Hauthor.
        rewrite (posts_get_answer req st page limit topic author Hpage Hlimit Hp
                   Htopic Hauthor).
        rewrite (limit_sanitizer_out_of_range limit Hout). reflexivity.
      * intros pid Hid Hcast.
        rewrite (comments_get_answer req st pid page limit Hid Hcast Hpage Hlimit Hp).
        change (comments_get_limit_sanitizer limit) with (posts_get_limit_sanitizer limit).
        rewrite (limit_sanitizer_out_of_range limit Hout). reflexivity.
Qed.

(** C8, as amended: the comment listing never answers 404; for a validated
    request with a page other than 0 it answers 200 with the stored comments
    whose post reference is the requested identifier, in stored order, from
    the skip offset on and cut at the limit, whether or not a post of that
    identifier exists; the list is empty exactly when no stored comment
    refers to the identifier. *)
Theorem comments_listing (req : Request) (st : Store) :
  fst (comments_get MAX_DOCS_PER_FETCH castObjectId req st) <> Responded (sendStatus 404)
  /\ forall pid page limit,
       comments_get_errors MAX_DOCS_PER_FETCH castObjectId req = [] ->
       castObjectId (params_postid req) = Some pid ->
       fst (page_query req) = Some page ->
       fst (limit_query MAX_DOCS_PER_FETCH req) = Some limit ->
       page <> 0 ->
       exists cs,
         cs = apply_limit (comments_get_limit_sanitizer limit)
                (skipn
                   (Z.to_nat
                      (skip_of MAX_DOCS_PER_FETCH
                         (if (1 <=? page)
                             && (page <=? ceil_div
                                            (Z.of_nat
                                               (List.length
                                                  (filter (of_post pid) (Comments st))))
                                            pageSize)
                          then page - 1 else 0)))
                   (filter (of_post pid) (Comments st)))
         /\ comments_get MAX_DOCS_PER_FETCH castObjectId req st
            = (Responded (json (JComments cs)), st)
         /\ (forall c, In c cs -> In c (Comments st) /\ cmt_post c = pid)
         /\ (cs = [] <-> filter (of_post pid) (Comments st) = []).
Proof.
  split; [apply comments_get_not_404|].
  intros pid page limit He Hcast Hpage Hlimit Hp.
  destruct (comments_get_errors_nil req He) as (Hid & _ & _).
  eexists. split; [reflexivity|]. split; [|split; [|split]].
  - exact (comments_get_answer req st pid page limit Hid Hcast Hpage Hlimit Hp).
  - intros c Hc. apply In_apply_limit, In_skipn in Hc.
    apply filter_In in Hc. destruct Hc as [Hin Hof].
    apply String.eqb_eq in Hof. auto.
  - intros Hnil.
    destruct (filter (of_post pid) (Comments st)) as [|c0 l] eqn:Hmatch; [reflexivity|].
    exfalso. revert Hnil. apply apply_limit_nonempty, skipn_nonempty.
    pose proof (resolved_skip_inside (Z.of_nat (List.length (c0 :: l))) page
                  ltac:(cbn [List.length]; lia) Hp) as Hin.
    apply Nat2Z.inj_lt. rewrite Z2Nat.id by lia. lia.
  - intros ->. rewrite skipn_nil. unfold apply_limit.
    destruct (Z.eqb _ 0); [reflexivity | apply firstn_nil].
Qed.

Lemma posts_get_with_topic (v : option string) (req : Request) (st : Store) :
  posts_get MAX_DOCS_PER_FETCH castObjectId (with_topic v req) st
  = let limit :=
      option_map posts_get_limit_sanitizer (fst (limit_query MAX_DOCS_PER_FETCH req)) in
    let page :=
      option_map (fun value => posts_get_page_sanitizer MAX_DOCS_PER_FETCH value st)
        (fst (page_query req)) in
    if negb (isEmpty (posts_get_errors MAX_DOCS_PER_FETCH req)) then
      (Responded (status_json 400 (JErrors (posts_get_errors MAX_DOCS_PER_FETCH req))), st)
    else
      match
        number_arg "skip" (option_map (skip_of MAX_DOCS_PER_FETCH) page),
        number_arg "limit" limit
      with
      | Ok skip, Ok lim =>
          match
            Post_find castObjectId
              (posts_get_queryOpts (posts_get_topic castObjectId v st)
                 (req_query_userid req)) skip lim st
          with
          | Ok allPosts => (Responded (json (JPosts allPosts)), st)
          | Throw e => (Unhandled e, st)
          end
      | Throw e, _ => (Unhandled e, st)
      | _, Throw e => (Unhandled e, st)
      end.
Proof. reflexivity. Qed.

Lemma with_topic_same (req : Request) : with_topic (req_query_topic req) req = req.
Proof. destruct req; reflexivity. Qed.

(** C10: when the trimmed and escaped [topic] of a post listing names no
    stored Topic and does not cast to an ObjectId, the sanitizer yields
    [undefined], the filter carries no topic, and the request is answered
    exactly as the same request without [topic]; when that request is valid,
    names no user and asks for a page other than 0, the answer is the list
    of all posts, newest first, cut by skip and limit. *)
Theorem unresolved_topic_is_dropped (req : Request) (st : Store) (value : string) :
  req_query_topic req = Some value ->
  Topic_findOne_name (escape (trim value)) st = None ->
  isValid castObjectId (escape (trim value)) = false ->
  posts_get_topic castObjectId (req_query_topic req) st = None
  /\ (forall userid,
        opts_topic
          (posts_get_queryOpts (posts_get_topic castObjectId (req_query_topic req) st) userid)
        = None)
  /\ posts_get MAX_DOCS_PER_FETCH castObjectId req st
     = posts_get MAX_DOCS_PER_FETCH castObjectId (with_topic None req) st
  /\ (posts_get_errors MAX_DOCS_PER_FETCH req = [] ->
      req_query_userid req = None ->
      forall page,
        fst (page_query req) = Some page ->
        page <> 0 ->
        exists skip lim,
          posts_get MAX_DOCS_PER_FETCH castObjectId req st
          = (Responded
               (json (JPosts (apply_limit lim (skipn skip (sort_date_desc (Posts st)))))),
             st)).
Proof.
  intros Htopic Hname Hvalid.
  assert (posts_get_topic castObjectId (req_query_topic req) st = None) as Hnone.
  { rewrite Htopic. unfold posts_get_topic, posts_get_topic_sanitizer.
    rewrite Hname, Hvalid. reflexivity. }
  split; [exact Hnone|]. split; [intros userid; rewrite Hnone; reflexivity|].
  split.
  - rewrite <- (with_topic_same req) at 1.
    rewrite !posts_get_with_topic, Hnone. reflexivity.
  - intros He Huser page Hpage Hp.
    destruct (posts_get_errors_nil req He) as [_ [limit Hlimit]].
    rewrite (posts_get_guarded req st page limit Hpage Hlimit), Hnone, Huser.
    unfold Post_find.
    change (posts_get_queryOpts None None) with (mkQueryOpts None None).
    cbn [opts_topic opts_author cast_filter].
    rewrite filter_all by reflexivity.
    pose proof (resolved_page_cases MAX_DOCS_PER_FETCH _ page
                  (Post_countDocuments_nonneg st) Hp) as [_ [Hge _]].
    cbv zeta in Hge.
    rewrite paginate_nonneg by (unfold skip_of, posts_get_page_sanitizer; nia).
    eexists _, _. reflexivity.
Qed.

End ListEndpoints.

(** ** The ownership guard of the posts controller *)

Section OwnershipGuard.

Variable castObjectId : string -> option ObjectId.

Lemma post_put_gate (req : Request) (st : Store) (user : User) :
  req_user req = Some user ->
  post_put_errors castObjectId req st <> [] ->
  post_put castObjectId req st
  = (Responded (status_json 400 (JErrors (post_put_errors castObjectId req st))), st).
Proof.
  intros Hu He. unfold post_put. rewrite Hu.
  destruct (post_put_errors castObjectId req st); [congruence | reflexivity].
Qed.

Lemma post_put_guarded (req : Request) (st : Store) (user : User) :
  req_user req = Some user ->
  post_put_errors castObjectId req st = [] ->
  post_put castObjectId req st
  = match Post_findById castObjectId (params_postid req) st with
    | Throw e => (Unhandled e, st)
    | Ok None => (Responded (sendStatus 404), st)
    | Ok (Some postById) =>
        if negb (String.eqb (post_author postById) (user_id user)) then
          (Responded (sendStatus 403), st)
        else
          match
            Post_findByIdAndUpdate castObjectId (params_postid req)
              (fst (optional_length_body "title" "Title must have correct length" 3%N
                      (Some 100%N) (req_body_title req)))
              (fst (optional_length_body "body" "Post body must have correct length" 100%N
                      (Some 10000%N) (req_body_body req)))
              (fst (post_put_topic castObjectId (req_body_topic req) st)) st
          with
          | Throw e => (Unhandled e, st)
          | Ok (Some updatedPost, st') => (Responded (json (JPost updatedPost)), st')
          | Ok (None, st') => (Responded (json JNull), st')
          end
    end.
Proof.
  intros Hu He. unfold post_put. rewrite Hu, He. reflexivity.
Qed.

Lemma post_delete_guarded (req : Request) (st : Store) (user : User) :
  req_user req = Some user ->
  post_delete_errors castObjectId req = [] ->
  post_delete castObjectId req st
  = match Post_findById castObjectId (params_postid req) st with
    | Throw e => (Unhandled e, st)
    | Ok None => (Responded (sendStatus 404), st)
    | Ok (Some postById) =>
        if negb (String.eqb (post_author postById) (user_id user)) then
          (Responded (sendStatus 403), st)
        else
          (Responded (json (JDeleteResult true 1)),
           set_Posts st (remove_first (has_post_id (post_id postById)) (Posts st)))
    end.
Proof.
  intros Hu He. unfold post_delete. rewrite Hu, He. reflexivity.
Qed.

Lemma not_owner (p : Post) (user : User) :
  post_author p <> user_id user ->
  negb (String.eqb (post_author p) (user_id user)) = true.
Proof.
  intros H. destruct (String.eqb_spec (post_author p) (user_id user)); [contradiction | reflexivity].
Qed.

(** C3: on a validated update or delete of a post by an authenticated
    principal, an identifier that names no post gives 404 whoever the
    principal is, and a post whose stored author differs from the principal
    gives 403; a missing post is never answered with 403. *)
Theorem existence_before_ownership (req : Request) (st : Store) (user : User) :
  req_user req = Some user ->
  (post_put_errors castObjectId req st = [] ->
   (Post_findById castObjectId (params_postid req) st = Ok None ->
    post_put castObjectId req st = (Responded (sendStatus 404), st))
   /\ (forall p,
         Post_findById castObjectId (params_postid req) st = Ok (Some p) ->
         post_author p <> user_id user ->
         post_put castObjectId req st = (Responded (sendStatus 403), st)))
  /\ (post_delete_errors castObjectId req = [] ->
      (Post_findById castObjectId (params_postid req) st = Ok None ->
       post_delete castObjectId req st = (Responded (sendStatus 404), st))
      /\ (forall p,
            Post_findById castObjectId (params_postid req) st = Ok (Some p) ->
            post_author p <> user_id user ->
            post_delete castObjectId req st = (Responded (sendStatus 403), st)))
  /\ (Post_findById castObjectId (params_postid req) st = Ok None ->
      fst (post_put castObjectId req st) <> Responded (sendStatus 403)
      /\ fst (post_delete castObjectId req st) <> Responded (sendStatus 403)).
Proof.
  intros Hu. split; [|split].
  - intros He. rewrite (post_put_guarded req st user Hu He). split.
    + intros ->. reflexivity.
    + intros p -> Hp. rewrite (not_owner p user Hp). reflexivity.
  - intros He. rewrite (post_delete_guarded req st user Hu He). split.
    + intros ->. reflexivity.
    + intros p -> Hp. rewrite (not_owner p user Hp). reflexivity.
  - intros Hnone. split.
    + destruct (post_put_errors castObjectId req st) as [|e es] eqn:He.
      * rewrite (post_put_guarded req st user Hu He), Hnone. discriminate.
      * rewrite (post_put_gate req st user Hu) by (rewrite He; discriminate).
        discriminate.
    + unfold post_delete. rewrite Hu.
      destruct (post_delete_errors castObjectId req); cbn [isEmpty negb].
      * change (fst (objectid_param castObjectId "postid" "Post id must be valid"
                       (req_params_postid req))) with (params_postid req).
        rewrite Hnone. discriminate.
      * discriminate.
Qed.

(** C4: a PUT on an existing post by an authenticated principal who is not
    its author changes nothing in the store, the post included, and is
    answered 403 once the request passed validation (400 otherwise). *)
Theorem rejected_put_leaves_post (req : Request) (st : Store) (user : User) (p : Post) :
  req_user req = Some user ->
  Post_findById castObjectId (params_postid req) st = Ok (Some p) ->
  post_author p <> user_id user ->
  snd (post_put castObjectId req st) = st
  /\ Post_findById castObjectId (params_postid req) (snd (post_put castObjectId req st))
     = Ok (Some p)
  /\ (post_put_errors castObjectId req st = [] ->
      fst (post_put castObjectId req st) = Responded (sendStatus 403))
  /\ (post_put_errors castObjectId req st <> [] ->
      fst (post_put castObjectId req st)
      = Responded (status_json 400 (JErrors (post_put_errors castObjectId req st)))).
Proof.
  intros Hu Hfind Hp.
  assert (snd (post_put castObjectId req st) = st) as Hst.
  { destruct (post_put_errors castObjectId req st) as [|e es] eqn:He.
    - rewrite (post_put_guarded req st user Hu He), Hfind, (not_owner p user Hp).
      reflexivity.
    - rewrite (post_put_gate req st user Hu) by (rewrite He; discriminate).
      reflexivity. }
  split; [exact Hst|]. split; [rewrite Hst; exact Hfind|]. split.
  - intros He.
    rewrite (post_put_guarded req st user Hu He), Hfind, (not_owner p user Hp).
    reflexivity.
  - intros He. rewrite (post_put_gate req st user Hu He). reflexivity.
Qed.

End OwnershipGuard.

(** ** The comments controller *)

Section CommentsController.

Variable castObjectId : string -> option ObjectId.
Variable isEmail : string -> bool.

Lemma Post_findById_Some (id : string) (st : Store) (post : Post) :
  Post_findById castObjectId id st = Ok (Some post) ->
  exists i,
    castObjectId id = Some i
    /\ find (has_post_id i) (Posts st) = Some post
    /\ In post (Posts st)
    /\ post_id post = i.
Proof.
  unfold Post_findById. destruct (castObjectId id) as [i|]; [|discriminate].
  intros H. inversion H as [Hfind]. exists i.
  destruct (find_some _ _ Hfind) as [Hin Hid].
  apply String.eqb_eq in Hid. auto.
Qed.

(** What [comment_post] does once the request passed validation. *)
Lemma comment_post_guarded (newId : ObjectId) (now : Date) (req : Request) (st : Store) :
  comment_post_errors castObjectId isEmail req = [] ->
  comment_post castObjectId isEmail newId now req st
  = match Post_findById castObjectId (params_postid req) st with
    | Throw e => (Unhandled e, st)
    | Ok None => (Responded (sendStatus 404), st)
    | Ok (Some post) =>
        match castObjectId (params_postid req) with
        | None => (Unhandled SchemaValidationError, st)
        | Some post_ref =>
            let newComment :=
              mkComment newId post_ref (trim (toString (req_body_email req)))
                (trim (toString (req_body_title req)))
                (trim (toString (req_body_body req))) now in
            if negb (CommentSchema_valid newComment) then
              (Unhandled SchemaValidationError, st)
            else
              (Responded (json (JComment newComment)),
               mkStore
                 (update_first (has_post_id (post_id post)) (push_comment newId) (Posts st))
                 (Comments st ++ [newComment]) (Topics st) (Users st))
        end
    end.
Proof.
  intros He. unfold comment_post. rewrite He. reflexivity.
Qed.

(** The outcomes of [comment_post]: either the store is left as it was, or a
    comment on a stored post is appended and its identifier pushed on the
    list of that post. *)
Lemma comment_post_outcomes (newId : ObjectId) (now : Date) (req : Request) (st : Store) :
  (snd (comment_post castObjectId isEmail newId now req st) = st
   /\ forall c,
        fst (comment_post castObjectId isEmail newId now req st)
        <> Responded (json (JComment c)))
  \/ exists post c,
       comment_post_errors castObjectId isEmail req = []
       /\ Post_findById castObjectId (params_postid req) st = Ok (Some post)
       /\ castObjectId (params_postid req) = Some (cmt_post c)
       /\ cmt_id c = newId
       /\ CommentSchema_valid c = true
       /\ comment_post castObjectId isEmail newId now req st
          = (Responded (json (JComment c)),
             mkStore
               (update_first (has_post_id (post_id post)) (push_comment newId) (Posts st))
               (Comments st ++ [c]) (Topics st) (Users st)).
Proof.
  destruct (comment_post_errors castObjectId isEmail req) as [|e es] eqn:He.
  - rewrite (comment_post_guarded newId now req st He).
    destruct (Post_findById castObjectId (params_postid req) st) as [[post|]|err] eqn:Hfind;
      try (left; split; [reflexivity | discriminate]).
    destruct (castObjectId (params_postid req)) as [post_ref|] eqn:Hcast;
      try (left; split; [reflexivity | discriminate]).
    cbv zeta.
    match goal with
    | |- context [CommentSchema_valid ?c] => destruct (CommentSchema_valid c) eqn:Hvalid
    end; cbn [negb];
      try (left; split; [reflexivity | discriminate]).
    right. eexists post, _. repeat split; try reflexivity; eassumption.
  - left. unfold comment_post. rewrite He. split; [reflexivity | discriminate].
Qed.

(** C9: on a validated request [comment_post] answers 404 and stores nothing
    when the referenced post does not exist; whenever it answers with a
    created comment, that comment refers to a stored post, is appended to the
    comments, and its identifier is appended to the comments list of that
    post; nothing is stored on any other outcome, and a store in which every
    comment refers to a stored post stays so. *)
Theorem comment_creation (newId : ObjectId) (now : Date) (req : Request) (st : Store) :
  (comment_post_errors castObjectId isEmail req = [] ->
   Post_findById castObjectId (params_postid req) st = Ok None ->
   comment_post castObjectId isEmail newId now req st = (Responded (sendStatus 404), st))
  /\ (forall c st',
        comment_post castObjectId isEmail newId now req st
        = (Responded (json (JComment c)), st') ->
        exists post,
          Post_findById castObjectId (params_postid req) st = Ok (Some post)
          /\ castObjectId (params_postid req) = Some (cmt_post c)
          /\ post_id post = cmt_post c
          /\ Comments st' = Comments st ++ [c]
          /\ find (has_post_id (cmt_post c)) (Posts st')
             = Some (mkPost (post_id post) (post_author post) (post_title post)
                       (post_body post) (post_topic post) (post_date post)
                       (post_comments post ++ [cmt_id c]))
          /\ (forall q, In q (Posts st) -> post_id q <> cmt_post c -> In q (Posts st'))
          /\ List.length (Posts st') = List.length (Posts st)
          /\ Topics st' = Topics st /\ Users st' = Users st)
  /\ (forall out st',
        comment_post castObjectId isEmail newId now req st = (out, st') ->
        (forall c, out <> Responded (json (JComment c))) ->
        st' = st)
  /\ (comments_reference_posts st ->
      comments_reference_posts (snd (comment_post castObjectId isEmail newId now req st))).
Proof.
  split; [|split; [|split]].
  - intros He Hnone. rewrite (comment_post_guarded newId now req st He), Hnone.
    reflexivity.
  - intros c st' Hrun.
    destruct (comment_post_outcomes newId now req st)
      as [[_ Hno] | (post & c0 & He & Hfind & Hcast & Hid & _ & Heq)].
    + exfalso. apply (Hno c). rewrite Hrun. reflexivity.
    + rewrite Heq in Hrun. inversion Hrun; subst c0 st'. clear Hrun.
      destruct (Post_findById_Some _ _ _ Hfind) as (i & Hcast' & Hfound & _ & Hpid).
      assert (i = cmt_post c) as -> by congruence.
      exists post. cbn [Posts Comments Topics Users].
      split; [assumption|]. split; [assumption|]. split; [assumption|].
      split; [reflexivity|]. split; [|split; [|split; [|split; reflexivity]]].
      * rewrite Hid. rewrite <- Hpid. rewrite <- Hpid in Hfound.
        exact (find_update_first (has_post_id (post_id post)) (push_comment newId)
                 (Posts st) post (fun _ => eq_refl) Hfound).
      * intros q Hq Hne. rewrite Hpid.
        apply In_update_first_other; [exact Hq|].
        unfold has_post_id. apply String.eqb_neq. exact Hne.
      * apply update_first_length.
  - intros out st' Hrun Hout.
    destruct (comment_post_outcomes newId now req st)
      as [[Hst _] | (post & c & _ & _ & _ & _ & _ & Heq)].
    + rewrite Hrun in Hst. exact Hst.
    + rewrite Heq in Hrun. inversion Hrun; subst out. exfalso. apply (Hout c). reflexivity.
  - intros Hinv.
    destruct (comment_post_outcomes newId now req st)
      as [[Hst _] | (post & c & _ & Hfind & Hcast & _ & _ & Heq)].
    + rewrite Hst. exact Hinv.
    + rewrite Heq. cbn [snd].
      destruct (Post_findById_Some _ _ _ Hfind) as (i & Hcast' & _ & Hin & Hpid).
      assert (i = cmt_post c) as -> by congruence.
      assert (forall p, In p (Posts st) ->
              exists p', In p' (update_first (has_post_id (post_id post))
                                  (push_comment newId) (Posts st))
                         /\ post_id p' = post_id p) as Hkeep.
      { intros p Hp.
        destruct (update_first_In (has_post_id (post_id post)) (push_comment newId)
                    (Posts st) p Hp) as [H | H]; eexists; split; try exact H; reflexivity. }
      intros c0 Hc0. cbn [Comments Posts] in *.
      apply in_app_or in Hc0. destruct Hc0 as [Hold | [<- | []]].
      * destruct (Hinv c0 Hold) as (p & Hp & Hpc).
        destruct (Hkeep p Hp) as (p' & Hp' & Hid'). exists p'. split; [exact Hp' | congruence].
      * destruct (Hkeep post Hin) as (p' & Hp' & Hid'). exists p'. split; [exact Hp' | congruence].
Qed.

(** The gate of [comment_put] tests an array for truthiness, so it never
    closes. *)
Lemma comment_put_ungated (req : Request) (st : Store) :
  comment_put castObjectId isEmail req st
  = match
      Comment_findOneAndUpdate castObjectId (params_commentid req) (params_postid req)
        (fst (optional_email_body isEmail "Email must have correct format" 3%N (Some 10%N)
                (req_body_email req)))
        (fst (optional_length_body "title" "Title must have correct length" 3%N
                (Some 100%N) (req_body_title req)))
        (fst (optional_length_body "body" "Comment body must have correct length" 10%N
                None (req_body_body req))) st
    with
    | Throw e => (Unhandled e, st)
    | Ok (None, st') => (Responded (sendStatus 404), st')
    | Ok (Some updatedComment, st') => (Responded (json (JComment updatedComment)), st')
    end.
Proof. reflexivity. Qed.

Lemma comment_put_never_400 (req : Request) (st : Store) (body : Json) :
  fst (comment_put castObjectId isEmail req st) <> Responded (status_json 400 body).
Proof.
  rewrite comment_put_ungated.
  destruct (Comment_findOneAndUpdate _ _ _ _ _ _ _) as [[[c|] st']|e]; discriminate.
Qed.

End CommentsController.

(** ** The topic resolver of [post_post] *)

(** C7: the topic resolver returns the identifier of the stored Topic of
    that exact name and creates nothing when there is one, creates a Topic
    of that name and returns its identifier otherwise, and a second call
    with the same name, on the store the first call left, returns the same
    identifier and leaves that store as it is. *)
Theorem topic_resolver_idempotent (newId newId' : ObjectId) (name : string) (st : Store) :
  (forall topic,
     Topic_findOne_name name st = Some topic ->
     post_post_topic_sanitizer newId name st = (topic_id topic, st)
     /\ topic_name topic = name /\ In topic (Topics st))
  /\ (Topic_findOne_name name st = None ->
      post_post_topic_sanitizer newId name st
      = (newId, set_Topics st (Topics st ++ [mkTopic newId name])))
  /\ post_post_topic_sanitizer newId' name (snd (post_post_topic_sanitizer newId name st))
     = post_post_topic_sanitizer newId name st.
Proof.
  unfold post_post_topic_sanitizer. split; [|split].
  - intros topic Hfind. rewrite Hfind. split; [reflexivity|].
    destruct (find_some _ _ Hfind) as [Hin Hname].
    apply String.eqb_eq in Hname. auto.
  - intros ->. reflexivity.
  - destruct (Topic_findOne_name name st) as [topic|] eqn:Hfind; cbn [snd].
    + rewrite Hfind. reflexivity.
    + unfold Topic_findOne_name in *. cbn [Topics set_Topics].
      rewrite (find_app_none _ _ _ Hfind). cbn [find].
      unfold has_topic_name at 1. cbn [topic_name].
      rewrite String.eqb_refl. reflexivity.
Qed.

(** ** The handlers on the concrete deployment *)

(** C1: [comment_put] runs its update although validation failed.  The PUT
    with the two-character title records a validation error, yet the handler
    answers 200 and the stored comment carries the refused title; no request
    at all is answered 400 by this handler.  Its siblings test
    [errors.isEmpty()], this one tests [errors.array()], and an array is
    always truthy: [comment_post] answers the same title with 400 and the
    error list, and stores nothing. *)
Theorem comment_put_skips_validation_gate :
  comment_put_errors example_cast example_isEmail short_title_put
  = [mkError "title" "Title must have correct length"]
  /\ comment_put example_cast example_isEmail short_title_put blog
     = (Responded
          (json (JComment (mkComment comment1_id post1_id "bob@example.org" "ab"
                             "a comment on the post" 150%Z))),
        set_Comments blog
          [mkComment comment1_id post1_id "bob@example.org" "ab"
             "a comment on the post" 150%Z])
  /\ (forall castObjectId isEmail req st body,
        fst (comment_put castObjectId isEmail req st) <> Responded (status_json 400 body))
  /\ comment_post example_cast example_isEmail comment2_id 400%Z short_title_post blog
     = (Responded
          (status_json 400 (JErrors [mkError "title" "Title must have correct length"])),
        blog).
Proof.
  split; [reflexivity|]. split; [reflexivity|]. split; [|reflexivity].
  intros castObjectId isEmail req st body. apply comment_put_never_400.
Qed.

(** C2, the claim as written fails: with three posts and a page size of 5
    there is one page, the specification's formula sends page 2 to index 1
    and the sanitizer sends it to 0; and with no post at all the resolved
    index 0 is not below the number of pages, which is 0. *)
Lemma page_formula_counterexample :
  posts_get_page_sanitizer 5 2%Z blog = 0%Z
  /\ spec_effectivePage 2%Z (ceil_div (Post_countDocuments blog) 5%Z) = 1%Z
  /\ posts_get_page_sanitizer 5 1%Z empty_store = 0%Z
  /\ ceil_div (Post_countDocuments empty_store) 5%Z = 0%Z.
Proof. repeat split. Qed.

Lemma page_resolution_witness :
  (99 <> 0)%Z
  /\ posts_get_page_sanitizer 5 99%Z blog = 0%Z
  /\ comments_get_page_sanitizer 5 example_cast [] post1_id (Some 99%Z) blog
     = Ok (Some 0%Z).
Proof.
  assert (99 <> 0)%Z as H by lia.
  destruct (page_resolution 5 example_cast blog 99%Z H) as [[Hposts _] Hcomments].
  split; [exact H|]. split; [exact Hposts|].
  destruct (Hcomments post1_id 1%Z eq_refl) as (resolved & Hsan & Heq & _).
  rewrite Hsan, Heq. reflexivity.
Defined.

Lemma skip_bounds_witness :
  (1 <= 2)%Z
  /\ posts_get_page_sanitizer 2 2%Z blog = 1%Z
  /\ (0 <= skip_of 2 (posts_get_page_sanitizer 2 2%Z blog) < 3 + 2)%Z
  /\ posts_get 2 example_cast
       (with_page (Some "2") (with_limit (Some "10") empty_request)) blog
     = (Responded (json (JPosts [post1])), blog)
  /\ comments_get_page_sanitizer 2 example_cast [] post1_id (Some 2%Z) discussion
     = Ok (Some 1%Z)
  /\ (0 <= skip_of 2 1 < 3 + 2)%Z
  /\ comments_get 2 example_cast (with_page (Some "2") (with_postid post1_id empty_request))
       discussion
     = (Responded (json (JComments [comment4])), discussion).
Proof.
  assert (1 <= 2)%Z as H by lia.
  split; [exact H|].
  destruct (skip_bounds 2 example_cast blog 2%Z H) as [(Hpage & Hskip & Hposts) _].
  destruct (skip_bounds 2 example_cast discussion 2%Z H) as [_ Hcomments].
  destruct (Hposts (with_page (Some "2") (with_limit (Some "10") empty_request)) 10%Z
              eq_refl eq_refl) as [_ Hrun].
  destruct (Hcomments (with_page (Some "2") (with_postid post1_id empty_request)) 2%Z 3%Z
              eq_refl eq_refl eq_refl eq_refl) as (Hsan & Hbound & _ & Hrun').
  split; [exact Hpage|]. split; [exact Hskip|]. split; [exact Hrun|].
  split; [exact Hsan|]. split; [exact Hbound | exact Hrun'].
Defined.

(** C6, the claim as written fails: [limit=25] is resolved to 0 without a
    validation error, and the listing then holds all three posts. *)
Lemma limit_zero_counterexample :
  posts_get_limit_sanitizer 25%Z = 0%Z
  /\ posts_get_errors 5 (with_limit (Some "25") empty_request) = []
  /\ posts_get 5 example_cast (with_limit (Some "25") empty_request) blog
     = (Responded (json (JPosts [post3; post2; post1])), blog).
Proof. repeat split. Qed.

Lemma limit_resolution_witness :
  req_query_limit (with_limit (Some "25") empty_request) = Some "25"
  /\ isInt (trim "25") = Some 25%Z
  /\ posts_get 5 example_cast (with_limit (Some "25") empty_request) blog
     = posts_get 5 example_cast (with_limit (Some "0") empty_request) blog
  /\ posts_get 5 example_cast (with_limit (Some "25") empty_request) blog
     = (Responded (json (JPosts [post3; post2; post1])), blog)
  /\ comments_get 2 example_cast
       (with_limit (Some "25") (with_postid post1_id empty_request)) discussion
     = (Responded (json (JComments [comment1; comment3; comment4])), discussion).
Proof.
  assert (1 <> 0)%Z as H by lia.
  split; [reflexivity|]. split; [reflexivity|].
  destruct (limit_resolution 5 example_cast 25%Z) as (_ & _ & _ & Hreq).
  destruct (Hreq (with_limit (Some "25") empty_request) "25" eq_refl eq_refl) as [_ Hout].
  destruct (Hout eq_refl blog) as [[Hsame _] Hanswer].
  destruct (limit_resolution 2 example_cast 25%Z) as (_ & _ & _ & Hreq').
  destruct (Hreq' (with_limit (Some "25") (with_postid post1_id empty_request)) "25"
              eq_refl eq_refl) as [_ Hout'].
  destruct (Hout' eq_refl discussion) as [_ Hanswer'].
  split; [exact Hsame|]. split.
  - exact (proj1 (Hanswer 1%Z eq_refl H) None None eq_refl eq_refl).
  - exact (proj2 (Hanswer' 1%Z eq_refl H) post1_id eq_refl eq_refl).
Defined.

Lemma existence_before_ownership_witness :
  req_user bob_puts_missing = Some bob
  /\ post_put_errors example_cast bob_puts_missing blog = []
  /\ Post_findById example_cast (params_postid bob_puts_missing) blog = Ok None
  /\ post_put example_cast bob_puts_missing blog = (Responded (sendStatus 404), blog)
  /\ post_put example_cast bob_puts_post1 blog = (Responded (sendStatus 403), blog)
  /\ post_delete example_cast bob_puts_post1 blog = (Responded (sendStatus 403), blog).
Proof.
  split; [reflexivity|]. split; [reflexivity|]. split; [reflexivity|].
  split; [|split].
  - exact (proj1 (proj1 (existence_before_ownership example_cast bob_puts_missing blog bob
                           eq_refl) eq_refl) eq_refl).
  - apply (proj2 (proj1 (existence_before_ownership example_cast bob_puts_post1 blog bob
                           eq_refl) eq_refl) post1 eq_refl).
    discriminate.
  - apply (proj2 (proj1 (proj2 (existence_before_ownership example_cast bob_puts_post1 blog
                                  bob eq_refl)) eq_refl) post1 eq_refl).
    discriminate.
Defined.

Lemma rejected_put_leaves_post_witness :
  req_user bob_puts_post1 = Some bob
  /\ Post_findById example_cast (params_postid bob_puts_post1) blog = Ok (Some post1)
  /\ post_author post1 <> user_id bob
  /\ post_put example_cast bob_puts_post1 blog = (Responded (sendStatus 403), blog).
Proof.
  assert (post_author post1 <> user_id bob) as Hp by discriminate.
  split; [reflexivity|]. split; [reflexivity|]. split; [exact Hp|].
  destruct (rejected_put_leaves_post example_cast bob_puts_post1 blog bob post1
              eq_refl eq_refl Hp) as (Hst & _ & Hout & _).
  rewrite (surjective_pairing (post_put example_cast bob_puts_post1 blog)).
  rewrite Hst, (Hout eq_refl). reflexivity.
Defined.

(** C8, the claim as written fails: once alice has deleted her first post,
    its identifier is well formed and names no post, and the comment
    listing for it answers 200 with the comment that was left behind. *)
Lemma orphaned_comments_counterexample :
  post_delete example_cast alice_deletes_post1 blog
  = (Responded (json (JDeleteResult true 1)), blog_without_post1)
  /\ comments_get_errors 5 example_cast (with_postid post1_id empty_request) = []
  /\ Post_findById example_cast post1_id blog_without_post1 = Ok None
  /\ comments_get 5 example_cast (with_postid post1_id empty_request) blog_without_post1
     = (Responded (json (JComments [comment1])), blog_without_post1).
Proof. repeat split. Qed.

Lemma comments_listing_witness :
  comments_get_errors 5 example_cast (with_postid post1_id empty_request) = []
  /\ example_cast (params_postid (with_postid post1_id empty_request)) = Some post1_id
  /\ fst (page_query (with_postid post1_id empty_request)) = Some 1%Z
  /\ (1 <> 0)%Z
  /\ Post_findById example_cast post1_id blog_without_post1 = Ok None
  /\ comments_get 5 example_cast (with_postid post1_id empty_request) blog_without_post1
     = (Responded (json (JComments [comment1])), blog_without_post1)
  /\ comments_get 2 example_cast (with_page (Some "2") (with_postid post1_id empty_request))
       discussion
     = (Responded (json (JComments [comment4])), discussion).
Proof.
  assert (1 <> 0)%Z as H by lia.
  assert (2 <> 0)%Z as H2 by lia.
  split; [reflexivity|]. split; [reflexivity|]. split; [reflexivity|].
  split; [exact H|]. split; [reflexivity|].
  destruct (proj2 (comments_listing 5 example_cast (with_postid post1_id empty_request)
                     blog_without_post1)
              post1_id 1%Z 5%Z eq_refl eq_refl eq_refl eq_refl H) as (cs & Hcs & Hrun & _).
  destruct (proj2 (comments_listing 2 example_cast
                     (with_page (Some "2") (with_postid post1_id empty_request)) discussion)
              post1_id 2%Z 2%Z eq_refl eq_refl eq_refl eq_refl H2)
    as (cs' & Hcs' & Hrun' & _).
  split.
  - rewrite Hrun, Hcs. reflexivity.
  - rewrite Hrun', Hcs'. reflexivity.
Defined.

Lemma comment_creation_witness :
  comment_post_errors example_cast example_isEmail
    (with_postid bob_id eve_comments_post2) = []
  /\ Post_findById example_cast (params_postid (with_postid bob_id eve_comments_post2)) blog
     = Ok None
  /\ comment_post example_cast example_isEmail comment2_id 400%Z
       (with_postid bob_id eve_comments_post2) blog
     = (Responded (sendStatus 404), blog)
  /\ Comments
       (snd (comment_post example_cast example_isEmail comment2_id 400%Z
               eve_comments_post2 blog))
     = [comment1; comment2]
  /\ option_map post_comments
       (find (has_post_id post2_id)
          (Posts (snd (comment_post example_cast example_isEmail comment2_id 400%Z
                         eve_comments_post2 blog))))
     = Some [comment2_id].
Proof.
  split; [reflexivity|]. split; [reflexivity|]. split; [|split].
  - exact (proj1 (comment_creation example_cast example_isEmail comment2_id 400%Z
                    (with_postid bob_id eve_comments_post2) blog) eq_refl eq_refl).
  - destruct (proj1 (proj2 (comment_creation example_cast example_isEmail comment2_id 400%Z
                              eve_comments_post2 blog)) comment2 _ eq_refl)
      as (post & _ & _ & _ & Hcomments & _).
    exact Hcomments.
  - destruct (proj1 (proj2 (comment_creation example_cast example_isEmail comment2_id 400%Z
                              eve_comments_post2 blog)) comment2 _ eq_refl)
      as (post & Hfind & _ & _ & _ & Hposts & _).
    assert (Ok (Some post2) = Ok (Some post)) as Hpost by exact Hfind.
    inversion Hpost; subst post.
    exact (f_equal (option_map post_comments) Hposts).
Defined.

Lemma unresolved_topic_is_dropped_witness :
  req_query_topic (with_topic (Some " sports ") empty_request) = Some " sports "
  /\ Topic_findOne_name (escape (trim " sports ")) blog = None
  /\ isValid example_cast (escape (trim " sports ")) = false
  /\ posts_get 5 example_cast (with_topic (Some " sports ") empty_request) blog
     = (Responded (json (JPosts [post3; post2; post1])), blog).
Proof.
  split; [reflexivity|]. split; [reflexivity|]. split; [reflexivity|].
  destruct (unresolved_topic_is_dropped 5 example_cast
              (with_topic (Some " sports ") empty_request) blog " sports "
              eq_refl eq_refl eq_refl) as (_ & _ & Hsame & _).
  rewrite Hsame. reflexivity.
Defined.

Lemma topic_resolver_idempotent_witness :
  Topic_findOne_name "news" blog = Some (mkTopic news_id "news")
  /\ post_post_topic_sanitizer post3_id "news" blog = (news_id, blog)
  /\ Topic_findOne_name "sports" blog = None
  /\ fst (post_post_topic_sanitizer comment2_id "sports"
            (snd (post_post_topic_sanitizer comment1_id "sports" blog)))
     = comment1_id.
Proof.
  split; [reflexivity|]. split; [|split; [reflexivity|]].
  - exact (proj1 (proj1 (topic_resolver_idempotent post3_id post3_id "news" blog)
                    (mkTopic news_id "news") eq_refl)).
  - rewrite (proj2 (proj2 (topic_resolver_idempotent comment1_id comment2_id "sports" blog))).
    reflexivity.
Defined.

(** ** Scenarios *)

(** [GET /posts?page=99&limit=10] with three posts: the first page, newest
    post first. *)
Example page_99_of_three_posts :
  posts_get 5 example_cast (with_page (Some "99") (with_limit (Some "10") empty_request)) blog
  = (Responded (json (JPosts [post3; post2; post1])), blog).
Proof. reflexivity. Qed.

(** [GET /posts?page=0]: the sanitizer lets page 0 through, decrements it,
    and the store refuses the negative skip. *)
Example page_0_of_three_posts :
  posts_get_page_sanitizer 5 0%Z blog = (-1)%Z
  /\ posts_get 5 example_cast (with_page (Some "0") empty_request) blog
     = (Unhandled NegativeSkip, blog).
Proof. split; reflexivity. Qed.

(** A listing with a malformed post identifier: the page sanitizer throws on
    the error already recorded, before the handler can answer 400. *)
Example comments_of_malformed_postid :
  comments_get 5 example_cast (with_postid "abc" empty_request) blog
  = (Unhandled SanitizationError, blog).
Proof. reflexivity. Qed.

(** Two posts on the topic [sports], which is new: the second reuses the
    Topic the first created. *)
Example second_post_reuses_topic :
  let first := post_post_topic_sanitizer comment1_id "sports" blog in
  let second := post_post_topic_sanitizer comment2_id "sports" (snd first) in
  fst first = comment1_id
  /\ fst second = comment1_id
  /\ Topics (snd second) = [mkTopic news_id "news"; mkTopic comment1_id "sports"].
Proof. repeat split. Qed.

(** ** Further properties: strings and lists *)

Lemma list_ascii_of_string_app (a b : string) :
  list_ascii_of_string (a ++ b) = (list_ascii_of_string a ++ list_ascii_of_string b)%list.
Proof.
  induction a as [|c a IH]; cbn; [reflexivity|]. rewrite IH. reflexivity.
Qed.

Lemma escape_char_plain (c : ascii) : plain (escape_char c).
Proof.
  unfold plain. intros x.
  destruct c as [[] [] [] [] [] [] [] []]; cbn; intuition (subst; reflexivity).
Qed.

(** Whatever went through [escape] holds none of the characters it
    replaces, the ampersand of the entities apart. *)
Lemma escape_plain (s : string) : plain (escape s).
Proof.
  induction s as [|c s IH]; intros x; cbn.
  - tauto.
  - rewrite list_ascii_of_string_app. intros H. apply in_app_or in H.
    destruct H as [H | H]; [exact (escape_char_plain c x H) | exact (IH x H)].
Qed.

Lemma update_first_same {A : Type} (f : A -> bool) (g : A -> A) (l : list A) :
  (forall x, g x = x) -> update_first f g l = l.
Proof.
  intros Hg. induction l as [|x l IH]; cbn; [reflexivity|].
  destruct (f x); [rewrite Hg | rewrite IH]; reflexivity.
Qed.

Lemma map_update_first {A B : Type} (h : A -> B) (f : A -> bool) (g : A -> A) (l : list A) :
  (forall x, h (g x) = h x) -> map h (update_first f g l) = map h l.
Proof.
  intros Hg. induction l as [|x l IH]; cbn; [reflexivity|].
  destruct (f x); cbn; [rewrite Hg | rewrite IH]; reflexivity.
Qed.

Lemma find_map_none {A : Type} (key : A -> string) (k : string) (l : list A) :
  find (fun x => String.eqb (key x) k) l = None <-> ~ In k (map key l).
Proof.
  induction l as [|x l IH]; cbn; [tauto|].
  destruct (String.eqb_spec (key x) k) as [E | E].
  - split; [discriminate | intros H; exfalso; apply H; left; exact E].
  - rewrite IH. tauto.
Qed.

Lemma NoDup_snoc {A : Type} (l : list A) (x : A) :
  NoDup l -> ~ In x l -> NoDup (l ++ [x]).
Proof.
  intros Hl Hx. induction Hl as [|y l Hy Hl IH]; cbn.
  - constructor; [tauto | constructor].
  - constructor.
    + intros H. apply in_app_or in H. destruct H as [H | [H | []]].
      * contradiction.
      * apply Hx. left. symmetry. exact H.
    + apply IH. intros H. apply Hx. right. exact H.
Qed.

(** With distinct keys, removing the first document of a key leaves none of
    that key. *)
Lemma find_remove_first {A : Type} (key : A -> string) (k : string) (l : list A) :
  NoDup (map key l) ->
  find (fun x => String.eqb (key x) k)
    (remove_first (fun x => String.eqb (key x) k) l) = None.
Proof.
  induction l as [|x l IH]; cbn; [reflexivity|].
  intros Hnd. inversion Hnd as [|? ? Hx Hl]; subst.
  destruct (String.eqb_spec (key x) k) as [E | E].
  - apply find_map_none. rewrite <- E. exact Hx.
  - cbn. destruct (String.eqb_spec (key x) k); [contradiction | apply IH, Hl].
Qed.

Lemma In_remove_first {A : Type} (f : A -> bool) (l : list A) (x : A) :
  In x l -> f x = false -> In x (remove_first f l).
Proof.
  induction l as [|y l IH]; cbn; [tauto|].
  intros [-> | H] Hf.
  - rewrite Hf. left. reflexivity.
  - destruct (f y); [exact H | right; apply IH; assumption].
Qed.

Lemma remove_first_In {A : Type} (f : A -> bool) (l : list A) (x : A) :
  In x (remove_first f l) -> In x l.
Proof.
  induction l as [|y l IH]; cbn; [tauto|].
  destruct (f y); cbn; intuition.
Qed.

(** ** Further properties: the posts controller *)

Section PostsController.

Variable castObjectId : string -> option ObjectId.

(** [post_post] for an authenticated principal, with the topic already
    resolved. *)
Lemma post_post_run (topicId postId : ObjectId) (now : Date) (req : Request) (st : Store)
    (user : User) :
  req_user req = Some user ->
  post_post castObjectId topicId postId now req st
  = let resolved :=
      post_post_topic_sanitizer topicId (trim (toString (req_body_topic req))) st in
    if negb (isEmpty (post_post_errors req)) then
      (Responded (status_json 400 (JErrors (post_post_errors req))), snd resolved)
    else
      match castObjectId (escape (fst resolved)) with
      | None => (Unhandled SchemaValidationError, snd resolved)
      | Some t =>
          let savedPost :=
            mkPost postId (user_id user) (trim (toString (req_body_title req)))
              (trim (toString (req_body_body req))) t now [] in
          match find (has_user_id (user_id user)) (Users (snd resolved)) with
          | None =>
              (Unhandled DocumentNotFound,
               set_Posts (snd resolved) (Posts (snd resolved) ++ [savedPost]))
          | Some _ =>
              (Responded (json (JPost savedPost)),
               mkStore (Posts (snd resolved) ++ [savedPost]) (Comments (snd resolved))
                 (Topics (snd resolved))
                 (update_first (has_user_id (user_id user)) (push_user_post postId)
                    (Users (snd resolved))))
          end
      end.
Proof.
  intros Hu. unfold post_post. rewrite Hu.
  destruct (post_post_topic_sanitizer topicId (trim (toString (req_body_topic req))) st)
    as [tid st1].
  reflexivity.
Qed.

Lemma post_post_topic_sanitizer_frame (newId : ObjectId) (name : string) (st : Store) :
  Posts (snd (post_post_topic_sanitizer newId name st)) = Posts st
  /\ Comments (snd (post_post_topic_sanitizer newId name st)) = Comments st
  /\ Users (snd (post_post_topic_sanitizer newId name st)) = Users st.
Proof.
  unfold post_post_topic_sanitizer.
  destruct (Topic_findOne_name name st); cbn; auto.
Qed.

Lemma post_post_topic_sanitizer_found (newId : ObjectId) (name : string) (st : Store) :
  exists topic,
    Topic_findOne_name name (snd (post_post_topic_sanitizer newId name st)) = Some topic
    /\ topic_id topic = fst (post_post_topic_sanitizer newId name st)
    /\ topic_name topic = name.
Proof.
  unfold post_post_topic_sanitizer.
  destruct (Topic_findOne_name name st) as [topic|] eqn:Hfind; cbn [fst snd].
  - exists topic. repeat split; [exact Hfind|].
    destruct (find_some _ _ Hfind) as [_ Hname]. apply String.eqb_eq in Hname. exact Hname.
  - exists (mkTopic newId name). repeat split.
    unfold Topic_findOne_name in *. cbn [Topics set_Topics].
    rewrite (find_app_none _ _ _ Hfind). cbn [find].
    unfold has_topic_name at 1. cbn [topic_name]. rewrite String.eqb_refl. reflexivity.
Qed.

(** X1: a valid [POST /posts] by a stored principal answers with the new
    post: its author is the principal, its title and body are the trimmed
    fields, its topic the Topic of the trimmed name (found or just created),
    its date the current one, its comments none; the post is appended to the
    posts and its identifier to the posts of the principal; no comment is
    touched. *)
Theorem post_post_creates (topicId postId : ObjectId) (now : Date) (req : Request)
    (st : Store) (user u : User) (t : ObjectId) :
  req_user req = Some user ->
  post_post_errors req = [] ->
  find (has_user_id (user_id user)) (Users st) = Some u ->
  castObjectId
    (escape (fst (post_post_topic_sanitizer topicId (trim (toString (req_body_topic req))) st)))
  = Some t ->
  exists savedPost st',
    post_post castObjectId topicId postId now req st = (Responded (json (JPost savedPost)), st')
    /\ post_id savedPost = postId
    /\ post_author savedPost = user_id user
    /\ post_title savedPost = trim (toString (req_body_title req))
    /\ post_body savedPost = trim (toString (req_body_body req))
    /\ post_topic savedPost = t
    /\ post_date savedPost = now
    /\ post_comments savedPost = []
    /\ Posts st' = Posts st ++ [savedPost]
    /\ find (has_user_id (user_id user)) (Users st')
       = Some (mkUser (user_id u) (user_username u) (user_email u)
                 (user_posts u ++ [postId]))
    /\ (forall v, In v (Users st) -> user_id v <> user_id user -> In v (Users st'))
    /\ List.length (Users st') = List.length (Users st)
    /\ Comments st' = Comments st
    /\ exists topic,
         Topic_findOne_name (trim (toString (req_body_topic req))) st' = Some topic
         /\ castObjectId (escape (topic_id topic)) = Some t.
Proof.
  intros Hu He Huser Ht.
  rewrite (post_post_run topicId postId now req st user Hu). cbv zeta.
  rewrite He, Ht. cbn [isEmpty negb].
  destruct (post_post_topic_sanitizer_frame topicId (trim (toString (req_body_topic req))) st)
    as (Hposts & Hcomments & Husers).
  destruct (post_post_topic_sanitizer_found topicId (trim (toString (req_body_topic req))) st)
    as (topic & Hfind & Hid & _).
  rewrite Husers, Huser, Hposts, Hcomments.
  eexists _, _. split; [reflexivity|]. cbn [post_id post_author post_title post_body
    post_topic post_date post_comments Posts Comments Users].
  repeat (split; [reflexivity|]).
  split; [exact (find_update_first (has_user_id (user_id user)) (push_user_post postId)
                   (Users st) u (fun _ => eq_refl) Huser)|].
  split; [intros v Hv Hne; apply In_update_first_other; [exact Hv|];
          unfold has_user_id; apply String.eqb_neq; exact Hne|].
  split; [apply update_first_length|].
  split; [reflexivity|].
  exists topic. split; [exact Hfind | rewrite Hid; exact Ht].
Qed.

(** X2: the topic sanitizer of [POST /posts] runs before the handler looks
    at the validation errors: a request by an authenticated principal that
    fails validation is answered 400 with the errors and stores no post, but
    a Topic of the trimmed name is created all the same when none existed;
    a request without a principal is answered 401 and creates nothing. *)
Theorem post_post_rejected (topicId postId : ObjectId) (now : Date) (req : Request)
    (st : Store) :
  (req_user req = None ->
   post_post castObjectId topicId postId now req st = (Responded (sendStatus 401), st))
  /\ forall user,
       req_user req = Some user ->
       post_post_errors req <> [] ->
       exists st',
         post_post castObjectId topicId postId now req st
         = (Responded (status_json 400 (JErrors (post_post_errors req))), st')
         /\ Posts st' = Posts st /\ Comments st' = Comments st /\ Users st' = Users st
         /\ (Topic_findOne_name (trim (toString (req_body_topic req))) st = None ->
             Topics st'
             = Topics st ++ [mkTopic topicId (trim (toString (req_body_topic req)))])
         /\ (Topic_findOne_name (trim (toString (req_body_topic req))) st <> None ->
             st' = st).
Proof.
  split.
  - intros Hu. unfold post_post. rewrite Hu. reflexivity.
  - intros user Hu He.
    rewrite (post_post_run topicId postId now req st user Hu). cbv zeta.
    destruct (post_post_errors req) as [|e es] eqn:Herr; [congruence|].
    cbn [isEmpty negb].
    destruct (post_post_topic_sanitizer_frame topicId
                (trim (toString (req_body_topic req))) st) as (Hposts & Hcomments & Husers).
    eexists. split; [reflexivity|].
    split; [exact Hposts|]. split; [exact Hcomments|]. split; [exact Husers|].
    unfold post_post_topic_sanitizer.
    destruct (Topic_findOne_name (trim (toString (req_body_topic req))) st);
      split; intros H; try reflexivity; congruence.
Qed.

(** X3: [POST /posts] keeps the names of the stored Topics distinct,
    whatever its outcome. *)
Theorem post_post_keeps_topic_names_unique (topicId postId : ObjectId) (now : Date)
    (req : Request) (st : Store) :
  unique_topic_names st ->
  unique_topic_names (snd (post_post castObjectId topicId postId now req st)).
Proof.
  intros Hu. unfold unique_topic_names in *.
  assert (NoDup (map topic_name
            (Topics (snd (post_post_topic_sanitizer topicId
                            (trim (toString (req_body_topic req))) st))))) as Hres.
  { unfold post_post_topic_sanitizer.
    destruct (Topic_findOne_name (trim (toString (req_body_topic req))) st) eqn:Hfind;
      cbn [snd]; [exact Hu|].
    cbn [Topics set_Topics]. rewrite map_app. cbn [map topic_name].
    apply NoDup_snoc; [exact Hu|].
    apply (find_map_none topic_name). exact Hfind. }
  destruct (req_user req) as [user|] eqn:Huser.
  - rewrite (post_post_run topicId postId now req st user Huser). cbv zeta.
    destruct (negb (isEmpty (post_post_errors req))); [exact Hres|].
    destruct (castObjectId _); [|exact Hres].
    destruct (find _ _); exact Hres.
  - unfold post_post. rewrite Huser. exact Hu.
Qed.

Lemma apply_post_update_frame (title body : option string) (topic : option ObjectId)
    (p : Post) :
  post_frame (apply_post_update title body topic p) = post_frame p.
Proof. reflexivity. Qed.

Lemma Post_findByIdAndUpdate_frame (id : string) (title body topic : option string)
    (st : Store) (r : option Post) (st' : Store) :
  Post_findByIdAndUpdate castObjectId id title body topic st = Ok (r, st') ->
  map post_frame (Posts st') = map post_frame (Posts st)
  /\ Comments st' = Comments st /\ Topics st' = Topics st /\ Users st' = Users st.
Proof.
  unfold Post_findByIdAndUpdate.
  destruct (castObjectId id) as [i|]; [|discriminate].
  destruct (cast_filter castObjectId topic) as [t|]; [|discriminate].
  destruct (find (has_post_id i) (Posts st)); intros H; inversion H; subst; cbn.
  - rewrite map_update_first by apply apply_post_update_frame. auto.
  - auto.
Qed.

(** X4: [PUT /posts/:postid] has no key for the author: whatever the request
    and its outcome, the posts keep their number, their order, and each its
    identifier, author, date and list of comments; comments, topics and
    users are left as they are. *)
Theorem post_put_frame (req : Request) (st : Store) :
  map post_frame (Posts (snd (post_put castObjectId req st))) = map post_frame (Posts st)
  /\ Comments (snd (post_put castObjectId req st)) = Comments st
  /\ Topics (snd (post_put castObjectId req st)) = Topics st
  /\ Users (snd (post_put castObjectId req st)) = Users st.
Proof.
  unfold post_put.
  destruct (req_user req) as [user|]; [|cbn; auto].
  destruct (negb (isEmpty (post_put_errors castObjectId req st))); [cbn; auto|].
  destruct (Post_findById castObjectId _ st) as [[postById|]|e]; try (cbn; auto; fail).
  destruct (negb (String.eqb (post_author postById) (user_id user))); [cbn; auto|].
  destruct (Post_findByIdAndUpdate castObjectId _ _ _ _ st) as [[[updated|] st']|e] eqn:Hup;
    try (cbn; auto; fail);
    exact (Post_findByIdAndUpdate_frame _ _ _ _ _ _ _ Hup).
Qed.

(** X5: a validated [PUT /posts/:postid] by the author of the post answers
    with the updated post and stores it under the same identifier: a field
    the body carries is replaced by its trimmed value (the topic by the
    identifier given), a field it does not carry is kept; a body without
    any of the three fields leaves the store as it was. *)
Theorem post_put_by_owner (req : Request) (st : Store) (user : User) (p : Post)
    (i : ObjectId) (topic : option ObjectId) :
  req_user req = Some user ->
  post_put_errors castObjectId req st = [] ->
  castObjectId (params_postid req) = Some i ->
  find (has_post_id i) (Posts st) = Some p ->
  post_author p = user_id user ->
  cast_filter castObjectId (fst (post_put_topic castObjectId (req_body_topic req) st))
  = Ok topic ->
  exists updated st',
    post_put castObjectId req st = (Responded (json (JPost updated)), st')
    /\ find (has_post_id i) (Posts st') = Some updated
    /\ post_title updated
       = match req_body_title req with Some s => trim s | None => post_title p end
    /\ post_body updated
       = match req_body_body req with Some s => trim s | None => post_body p end
    /\ post_topic updated = match topic with Some t => t | None => post_topic p end
    /\ post_frame updated = post_frame p
    /\ (req_body_title req = None -> req_body_body req = None ->
        req_body_topic req = None -> updated = p /\ st' = st).
Proof.
  intros Hu He Hcast Hfind Hauthor Htopic.
  rewrite (post_put_guarded castObjectId req st user Hu He).
  unfold Post_findById. rewrite Hcast, Hfind, Hauthor, String.eqb_refl. cbn [negb].
  unfold Post_findByIdAndUpdate. rewrite Hcast, Htopic, Hfind.
  eexists _, _. split; [reflexivity|]. cbn [Posts set_Posts].
  split; [apply find_update_first; [reflexivity | exact Hfind]|].
  split; [destruct (req_body_title req); reflexivity|].
  split; [destruct (req_body_body req); reflexivity|].
  split; [reflexivity|]. split; [reflexivity|].
  intros Ht Hb Hto. rewrite Hto in Htopic. cbn in Htopic. inversion Htopic; subst topic.
  rewrite Ht, Hb. cbn.
  assert (forall q, apply_post_update None None None q = q) as Hid
    by (intros [? ? ? ? ? ? ?]; reflexivity).
  rewrite Hid, (update_first_same _ _ _ Hid). split; [reflexivity|].
  destruct st; reflexivity.
Qed.

(** X6: a validated [DELETE /posts/:postid] by the author answers 200 with
    the result of the delete, one document deleted, and removes the post
    and nothing else: the other posts stay, and so do the comments on the
    post and its identifier in the posts of its author; with distinct post
    identifiers the post is then gone, and deleting it again is answered
    404. *)
Theorem post_delete_by_owner (req : Request) (st : Store) (user : User) (p : Post)
    (i : ObjectId) :
  req_user req = Some user ->
  post_delete_errors castObjectId req = [] ->
  castObjectId (params_postid req) = Some i ->
  find (has_post_id i) (Posts st) = Some p ->
  post_author p = user_id user ->
  unique_post_ids st ->
  exists st',
    post_delete castObjectId req st = (Responded (json (JDeleteResult true 1)), st')
    /\ Posts st' = remove_first (has_post_id i) (Posts st)
    /\ Post_findById castObjectId (params_postid req) st' = Ok None
    /\ post_delete castObjectId req st' = (Responded (sendStatus 404), st')
    /\ (forall q, In q (Posts st) -> post_id q <> i -> In q (Posts st'))
    /\ (forall q, In q (Posts st') -> In q (Posts st))
    /\ Comments st' = Comments st /\ Users st' = Users st /\ Topics st' = Topics st.
Proof.
  intros Hu He Hcast Hfind Hauthor Hnd.
  destruct (find_some _ _ Hfind) as [_ Hid]. apply String.eqb_eq in Hid.
  assert (Post_findById castObjectId (params_postid req)
            (set_Posts st (remove_first (has_post_id (post_id p)) (Posts st))) = Ok None)
    as Hgone.
  { unfold Post_findById. rewrite Hcast, Hid. cbn [Posts set_Posts].
    pose proof (find_remove_first post_id i (Posts st) Hnd) as Hr.
    change (find (has_post_id i) (remove_first (has_post_id i) (Posts st)) = None) in Hr.
    rewrite Hr. reflexivity. }
  eexists. split; [|split; [|split; [exact Hgone|split]]].
  - rewrite (post_delete_guarded castObjectId req st user Hu He).
    unfold Post_findById. rewrite Hcast, Hfind, Hauthor, String.eqb_refl. reflexivity.
  - cbn [Posts set_Posts]. rewrite Hid. reflexivity.
  - rewrite (post_delete_guarded castObjectId req _ user Hu He), Hgone. reflexivity.
  - cbn [Posts Comments Users Topics set_Posts]. rewrite Hid.
    split; [|split; [|auto]].
    + intros q Hq Hne. apply In_remove_first; [exact Hq|].
      unfold has_post_id. destruct (String.eqb_spec (post_id q) i); [contradiction|reflexivity].
    + intros q. apply remove_first_In.
Qed.

End PostsController.

(** ** Further properties: sorting and paging of a listing *)

Lemma In_insert_by_date (p x : Post) (l : list Post) :
  In x (insert_by_date p l) <-> x = p \/ In x l.
Proof.
  induction l as [|q l IH]; cbn.
  - intuition.
  - destruct (Z.leb (post_date q) (post_date p)); cbn; [intuition|].
    rewrite IH. intuition.
Qed.

Lemma In_sort_date_desc (x : Post) (l : list Post) : In x (sort_date_desc l) <-> In x l.
Proof.
  induction l as [|p l IH]; cbn; [tauto|].
  rewrite In_insert_by_date, IH. intuition.
Qed.

Lemma length_insert_by_date (p : Post) (l : list Post) :
  List.length (insert_by_date p l) = S (List.length l).
Proof.
  induction l as [|q l IH]; cbn; [reflexivity|].
  destruct (Z.leb (post_date q) (post_date p)); cbn; [reflexivity | rewrite IH; reflexivity].
Qed.

Lemma length_sort_date_desc (l : list Post) :
  List.length (sort_date_desc l) = List.length l.
Proof.
  unfold sort_date_desc. induction l as [|p l IH]; cbn; [reflexivity|].
  rewrite length_insert_by_date, IH. reflexivity.
Qed.

Lemma insert_by_date_sorted (p : Post) (l : list Post) :
  newest_first l -> newest_first (insert_by_date p l).
Proof.
  unfold newest_first. intros Hl. induction Hl as [|q l Hl IH Hq]; cbn.
  - constructor; constructor.
  - destruct (Z.leb (post_date q) (post_date p)) eqn:E.
    + apply Z.leb_le in E. constructor; [constructor; assumption|].
      constructor; [exact E|].
      rewrite Forall_forall in Hq |- *. intros x Hx. specialize (Hq x Hx). cbn in Hq. lia.
    + apply Z.leb_gt in E. constructor; [exact IH|].
      rewrite Forall_forall in Hq |- *. intros x Hx.
      apply In_insert_by_date in Hx. destruct Hx as [-> | Hx]; [lia | exact (Hq x Hx)].
Qed.

Lemma sort_date_desc_sorted (l : list Post) : newest_first (sort_date_desc l).
Proof.
  unfold sort_date_desc.
  induction l as [|p l IH]; cbn; [constructor | apply insert_by_date_sorted, IH].
Qed.

Lemma newest_first_skipn (n : nat) (l : list Post) :
  newest_first l -> newest_first (skipn n l).
Proof.
  unfold newest_first. revert l. induction n as [|n IH]; intros l Hl; [exact Hl|].
  destruct l as [|p l]; [exact Hl|]. cbn. apply IH. inversion Hl; assumption.
Qed.

Lemma newest_first_firstn (n : nat) (l : list Post) :
  newest_first l -> newest_first (firstn n l).
Proof.
  unfold newest_first. revert l. induction n as [|n IH]; intros l Hl; [constructor|].
  destruct l as [|p l]; [constructor|]. cbn. inversion Hl as [|? ? Hs Hf]; subst.
  constructor; [apply IH, Hs|].
  rewrite Forall_forall in Hf |- *. intros x Hx. apply Hf. eapply In_firstn, Hx.
Qed.

Lemma newest_first_apply_limit (limit : Z) (l : list Post) :
  newest_first l -> newest_first (apply_limit limit l).
Proof.
  unfold apply_limit. destruct (Z.eqb limit 0); [tauto | apply newest_first_firstn].
Qed.

Lemma length_apply_limit {A : Type} (limit : Z) (l : list A) :
  (1 <= limit)%Z -> (Z.of_nat (List.length (apply_limit limit l)) <= limit)%Z.
Proof.
  intros Hl. unfold apply_limit.
  destruct (Z.eqb limit 0) eqn:E; [lia|].
  pose proof (firstn_le_length (Z.to_nat (Z.abs limit)) l). lia.
Qed.

Lemma firstn_plus {A : Type} (a b : nat) (l : list A) :
  firstn (a + b) l = (firstn a l ++ firstn b (skipn a l))%list.
Proof.
  revert l. induction a as [|a IH]; intros l; [reflexivity|].
  destruct l as [|x l]; cbn; [rewrite firstn_nil; reflexivity|].
  rewrite IH. reflexivity.
Qed.

(** Cutting a list into [j] pages of [m] documents and putting them back
    together gives its first [j * m] documents. *)
Lemma pages_concat {A : Type} (m j : nat) (l : list A) :
  flat_map (fun i => firstn m (skipn (i * m) l)) (seq 0 j) = firstn (j * m) l.
Proof.
  induction j as [|j IH]; [reflexivity|].
  rewrite seq_S, flat_map_app, IH. cbn [flat_map plus].
  rewrite app_nil_r, <- firstn_plus. f_equal. lia.
Qed.

Lemma flat_map_ext_in {A B : Type} (f g : A -> list B) (l : list A) :
  (forall a, In a l -> f a = g a) -> flat_map f l = flat_map g l.
Proof.
  induction l as [|a l IH]; intros H; cbn; [reflexivity|].
  rewrite (H a (or_introl eq_refl)), IH; [reflexivity|].
  intros b Hb. apply H. right. exact Hb.
Qed.

Lemma pages_cover {A : Type} (m j : nat) (l : list A) :
  List.length l <= j * m ->
  flat_map (fun k => firstn m (skipn ((k - 1) * m) l)) (seq 1 j) = l.
Proof.
  intros Hlen. rewrite <- seq_shift, flat_map_concat_map, map_map, <- flat_map_concat_map.
  rewrite (flat_map_ext_in _ (fun i => firstn m (skipn (i * m) l))).
  - rewrite pages_concat. apply firstn_all2. exact Hlen.
  - intros i _. replace (S i - 1) with i by lia. reflexivity.
Qed.

(** ** Further properties: the post listing *)

Section PostsListingMore.

Local Open Scope Z_scope.

Variable MAX_DOCS_PER_FETCH : positive.
Variable castObjectId : string -> option ObjectId.

Local Abbreviation pageSize := (Z.pos MAX_DOCS_PER_FETCH).

Lemma truthy_Some (s : string) : s <> "" -> truthy (Some s) = true.
Proof.
  intros H. cbn. destruct (String.eqb_spec s ""); [contradiction | reflexivity].
Qed.

Lemma Post_find_Ok (queryOpts : QueryOpts) (skip limit : Z) (st : Store) (ps : list Post) :
  Post_find castObjectId queryOpts skip limit st = Ok ps ->
  exists topic author,
    cast_filter castObjectId (opts_topic queryOpts) = Ok topic
    /\ cast_filter castObjectId (opts_author queryOpts) = Ok author
    /\ 0 <= skip
    /\ ps = apply_limit limit
              (skipn (Z.to_nat skip)
                 (sort_date_desc (filter (matches_filter topic author) (Posts st)))).
Proof.
  unfold Post_find, paginate.
  destruct (cast_filter castObjectId (opts_topic queryOpts)) as [topic|]; [|discriminate].
  destruct (cast_filter castObjectId (opts_author queryOpts)) as [author|]; [|discriminate].
  destruct (skip <? 0) eqn:E; [discriminate|].
  intros H. inversion H. exists topic, author. repeat split. lia.
Qed.

(** X7: whenever [GET /posts] answers with a list, the store is untouched,
    every post of the list is a stored one, the list is newest first, it
    holds at most [limit] posts for a limit from 1 to 20, and each of its
    posts has the topic the topic sanitizer resolved and the author the
    [userid] of the query names. *)
Theorem posts_get_listing (req : Request) (st st' : Store) (ps : list Post) :
  posts_get MAX_DOCS_PER_FETCH castObjectId req st = (Responded (json (JPosts ps)), st') ->
  st' = st
  /\ (forall p, In p ps -> In p (Posts st))
  /\ newest_first ps
  /\ (forall limit,
        fst (limit_query MAX_DOCS_PER_FETCH req) = Some limit ->
        1 <= limit <= 20 -> Z.of_nat (List.length ps) <= limit)
  /\ (forall t,
        posts_get_topic castObjectId (req_query_topic req) st = Some t -> t <> "" ->
        forall p, In p ps -> castObjectId t = Some (post_topic p))
  /\ (forall u,
        req_query_userid req = Some u -> u <> "" ->
        forall p, In p ps -> castObjectId u = Some (post_author p)).
Proof.
  intros Hrun.
  destruct (posts_get_errors MAX_DOCS_PER_FETCH req) as [|e es] eqn:He.
  2:{ unfold posts_get in Hrun. rewrite He in Hrun. discriminate Hrun. }
  destruct (posts_get_errors_nil MAX_DOCS_PER_FETCH req He) as [[page Hpage] [limit Hlimit]].
  rewrite (posts_get_guarded MAX_DOCS_PER_FETCH castObjectId req st page limit Hpage Hlimit)
    in Hrun.
  destruct (Post_find castObjectId _ _ _ st) as [found|] eqn:Hfind; [|discriminate].
  inversion Hrun; subst found st'. clear Hrun.
  destruct (Post_find_Ok _ _ _ _ _ Hfind) as (topic & author & Htopic & Hauthor & _ & ->).
  assert (forall p,
            In p (apply_limit (posts_get_limit_sanitizer limit)
                    (skipn (Z.to_nat (skip_of MAX_DOCS_PER_FETCH
                                        (posts_get_page_sanitizer MAX_DOCS_PER_FETCH page st)))
                       (sort_date_desc (filter (matches_filter topic author) (Posts st))))) ->
            In p (Posts st) /\ matches_filter topic author p = true) as Hin.
  { intros p Hp. apply In_apply_limit, In_skipn, In_sort_date_desc, filter_In in Hp.
    exact Hp. }
  split; [reflexivity|]. split; [intros p Hp; apply (Hin p Hp)|].
  split; [apply newest_first_apply_limit, newest_first_skipn, sort_date_desc_sorted|].
  split; [|split].
  - intros limit' Hl' Hrange. rewrite Hlimit in Hl'. inversion Hl'; subst limit'.
    assert (posts_get_limit_sanitizer limit = limit) as ->.
    { unfold posts_get_limit_sanitizer.
      destruct (limit <? 0) eqn:E1; destruct (limit >? 20) eqn:E2; cbn [orb]; lia. }
    apply length_apply_limit. lia.
  - intros t Ht Hne p Hp. destruct (Hin p Hp) as [_ Hm].
    rewrite Ht in Htopic. unfold posts_get_queryOpts in Htopic. cbn [opts_topic] in Htopic.
    rewrite (truthy_Some t Hne) in Htopic. cbn [cast_filter] in Htopic.
    destruct (castObjectId t) as [i|]; [|discriminate]. inversion Htopic; subst topic.
    unfold matches_filter in Hm. apply andb_prop in Hm. destruct Hm as [Hm _].
    apply String.eqb_eq in Hm. congruence.
  - intros u Hu Hne p Hp. destruct (Hin p Hp) as [_ Hm].
    rewrite Hu in Hauthor. unfold posts_get_queryOpts in Hauthor.
    cbn [opts_author] in Hauthor.
    rewrite (truthy_Some u Hne) in Hauthor. cbn [cast_filter] in Hauthor.
    destruct (castObjectId u) as [i|]; [|discriminate]. inversion Hauthor; subst author.
    unfold matches_filter in Hm. apply andb_prop in Hm. destruct Hm as [_ Hm].
    apply String.eqb_eq in Hm. congruence.
Qed.

(** X8: no chain validates the [userid] of [GET /posts]: on an otherwise
    valid request a [userid] that does not cast to an ObjectId is not
    answered 400, the cast of the filter fails in the store query. *)
Theorem posts_get_userid_unchecked (req : Request) (st : Store) (u : string) :
  posts_get_errors MAX_DOCS_PER_FETCH req = [] ->
  req_query_userid req = Some u ->
  u <> "" ->
  castObjectId u = None ->
  exists value,
    posts_get MAX_DOCS_PER_FETCH castObjectId req st = (Unhandled (CastError value), st).
Proof.
  intros He Hu Hne Hcast.
  destruct (posts_get_errors_nil MAX_DOCS_PER_FETCH req He) as [[page Hpage] [limit Hlimit]].
  rewrite (posts_get_guarded MAX_DOCS_PER_FETCH castObjectId req st page limit Hpage Hlimit).
  unfold Post_find, posts_get_queryOpts. cbn [opts_topic opts_author].
  rewrite Hu, (truthy_Some u Hne).
  destruct (cast_filter castObjectId _) as [topic|e] eqn:Htopic.
  - cbn [cast_filter]. rewrite Hcast. eexists. reflexivity.
  - unfold cast_filter in Htopic.
    destruct (if truthy _ then _ else None) as [t|]; [|discriminate].
    destruct (castObjectId t); [discriminate|]. inversion Htopic. eexists. reflexivity.
Qed.

Lemma ceil_div_lower (docCount : Z) : docCount <= ceil_div docCount pageSize * pageSize.
Proof.
  unfold ceil_div.
  pose proof (Z.div_mod (docCount + pageSize - 1) pageSize ltac:(lia)).
  pose proof (Z.mod_pos_bound (docCount + pageSize - 1) pageSize ltac:(lia)).
  lia.
Qed.

Lemma length_filter_le {A : Type} (f : A -> bool) (l : list A) :
  (List.length (filter f l) <= List.length l)%nat.
Proof.
  induction l as [|x l IH]; cbn; [lia|]. destruct (f x); cbn; lia.
Qed.

(** X9: with a page size of at most 20, [GET /posts] with the default
    limit answers page [k], for [k] from 1 to [ceil(docCount / pageSize)],
    with the [k]-th run of [pageSize] posts of the matching posts taken
    newest first; putting the answers to these pages one after the other
    gives every matching post once, newest first. *)
Theorem posts_pages_cover (reqs : nat -> Request) (st : Store)
    (rawtopic userid : option string) (topic author : option ObjectId) :
  pageSize <= 20 ->
  cast_filter castObjectId
    (opts_topic (posts_get_queryOpts (posts_get_topic castObjectId rawtopic st) userid))
  = Ok topic ->
  cast_filter castObjectId
    (opts_author (posts_get_queryOpts (posts_get_topic castObjectId rawtopic st) userid))
  = Ok author ->
  (forall k,
     In k (seq 1 (Z.to_nat (ceil_div (Post_countDocuments st) pageSize))) ->
     req_query_topic (reqs k) = rawtopic
     /\ req_query_userid (reqs k) = userid
     /\ req_query_limit (reqs k) = None
     /\ fst (page_query (reqs k)) = Some (Z.of_nat k)) ->
  (forall k,
     In k (seq 1 (Z.to_nat (ceil_div (Post_countDocuments st) pageSize))) ->
     posts_get MAX_DOCS_PER_FETCH castObjectId (reqs k) st
     = (Responded
          (json (JPosts
                   (firstn (Pos.to_nat MAX_DOCS_PER_FETCH)
                      (skipn ((k - 1) * Pos.to_nat MAX_DOCS_PER_FETCH)
                         (sort_date_desc
                            (filter (matches_filter topic author) (Posts st))))))),
        st))
  /\ flat_map
       (fun k => listed_posts (fst (posts_get MAX_DOCS_PER_FETCH castObjectId (reqs k) st)))
       (seq 1 (Z.to_nat (ceil_div (Post_countDocuments st) pageSize)))
     = sort_date_desc (filter (matches_filter topic author) (Posts st)).
Proof.
  intros Hmax Htopic Hauthor Hreqs.
  set (L := sort_date_desc (filter (matches_filter topic author) (Posts st))).
  set (tp := ceil_div (Post_countDocuments st) pageSize) in *.
  assert (0 <= tp) as Htp
    by (apply ceil_div_nonneg, Post_countDocuments_nonneg).
  pose proof (ceil_div_lower (Post_countDocuments st)) as Hlow. fold tp in Hlow.
  assert (forall k,
            In k (seq 1 (Z.to_nat tp)) ->
            posts_get MAX_DOCS_PER_FETCH castObjectId (reqs k) st
            = (Responded
                 (json (JPosts
                          (firstn (Pos.to_nat MAX_DOCS_PER_FETCH)
                             (skipn ((k - 1) * Pos.to_nat MAX_DOCS_PER_FETCH) L)))),
               st)) as Hpages.
  { intros k Hk. destruct (Hreqs k Hk) as (Ht & Hu & Hl & Hp).
    apply in_seq in Hk.
    assert (fst (limit_query MAX_DOCS_PER_FETCH (reqs k)) = Some pageSize) as Hlim
      by (unfold limit_query, int_query; rewrite Hl; reflexivity).
    assert (Z.of_nat k <> 0) as Hne by lia.
    rewrite <- Ht, <- Hu in Htopic, Hauthor.
    rewrite (posts_get_answer MAX_DOCS_PER_FETCH castObjectId (reqs k) st (Z.of_nat k)
               pageSize topic author Hp Hlim Hne Htopic Hauthor).
    fold L.
    assert (posts_get_page_sanitizer MAX_DOCS_PER_FETCH (Z.of_nat k) st = Z.of_nat k - 1)
      as ->.
    { unfold posts_get_page_sanitizer. fold tp.
      destruct (Z.of_nat k <? 0) eqn:E1; destruct (Z.of_nat k >? tp) eqn:E2;
        cbn [orb]; lia. }
    assert (posts_get_limit_sanitizer pageSize = pageSize) as ->.
    { unfold posts_get_limit_sanitizer.
      destruct (pageSize <? 0) eqn:E1; destruct (pageSize >? 20) eqn:E2; cbn [orb]; lia. }
    replace (Z.to_nat (skip_of MAX_DOCS_PER_FETCH (Z.of_nat k - 1)))
      with ((k - 1) * Pos.to_nat MAX_DOCS_PER_FETCH)%nat.
    2: { unfold skip_of. rewrite Z2Nat.inj_mul, Z2Nat.inj_pos by lia. f_equal. lia. }
    unfold apply_limit. cbn [Z.eqb Z.abs]. rewrite Z2Nat.inj_pos. reflexivity. }
  split; [exact Hpages|].
  rewrite (flat_map_ext_in _
             (fun k => firstn (Pos.to_nat MAX_DOCS_PER_FETCH)
                         (skipn ((k - 1) * Pos.to_nat MAX_DOCS_PER_FETCH) L))).
  - apply pages_cover.
    assert (List.length L <= List.length (Posts st))%nat as Hlen
      by (unfold L; rewrite length_sort_date_desc; apply length_filter_le).
    unfold Post_countDocuments in Hlow.
    apply Nat2Z.inj_le. rewrite Nat2Z.inj_mul, Z2Nat.id, positive_nat_Z by exact Htp.
    lia.
  - intros k Hk. rewrite (Hpages k Hk). reflexivity.
Qed.

(** X10: [GET /posts?topic=] looks a Topic up under the escaped value, and
    [POST /posts] stores the name as it was sent: a Topic found by name in a
    listing has a name without any of the characters [escape] replaces, so
    a Topic created from a name that holds one of them is stored under that
    name and never found by it. *)
Theorem topic_found_by_name_is_plain (st : Store) (value : string) (topic : Topic) :
  Topic_findOne_name (escape (trim value)) st = Some topic ->
  posts_get_topic castObjectId (Some value) st = Some (topic_id topic)
  /\ plain (topic_name topic)
  /\ forall newId name st0,
       ~ plain name ->
       Topic_findOne_name name st0 = None ->
       In (mkTopic newId name) (Topics (snd (post_post_topic_sanitizer newId name st0)))
       /\ topic_name topic <> name.
Proof.
  intros Hfind. split; [|split].
  - unfold posts_get_topic, posts_get_topic_sanitizer. rewrite Hfind. reflexivity.
  - destruct (find_some _ _ Hfind) as [_ Hname]. apply String.eqb_eq in Hname.
    rewrite Hname. apply escape_plain.
  - intros newId name st0 Hplain Hnone. split.
    + unfold post_post_topic_sanitizer. rewrite Hnone. cbn [snd Topics set_Topics].
      apply in_or_app. right. left. reflexivity.
    + intros Heq. apply Hplain. rewrite <- Heq.
      destruct (find_some _ _ Hfind) as [_ Hname]. apply String.eqb_eq in Hname.
      rewrite Hname. apply escape_plain.
Qed.

End PostsListingMore.

Lemma find_none_intro {A : Type} (f : A -> bool) (l : list A) :
  (forall x, In x l -> f x = true -> False) -> find f l = None.
Proof.
  induction l as [|y l IH]; intros H; cbn; [reflexivity|].
  destruct (f y) eqn:E.
  - exfalso. exact (H y (or_introl eq_refl) E).
  - apply IH. intros x Hx. apply H. right. exact Hx.
Qed.

(** ** Further properties: the comments controller *)

Section CommentsControllerMore.

Variable castObjectId : string -> option ObjectId.
Variable isEmail : string -> bool.

Lemma comment_get_guarded (req : Request) (st : Store) :
  comment_get_errors castObjectId req = [] ->
  comment_get castObjectId req st
  = match Comment_findOne castObjectId (params_commentid req) (params_postid req) st with
    | Throw e => (Unhandled e, st)
    | Ok None => (Responded (sendStatus 404), st)
    | Ok (Some comment) => (Responded (json (JComment comment)), st)
    end.
Proof.
  intros He. unfold comment_get. rewrite He. reflexivity.
Qed.

Lemma comment_get_frame (req : Request) (st : Store) :
  snd (comment_get castObjectId req st) = st.
Proof.
  unfold comment_get.
  destruct (negb (isEmpty _)); [reflexivity|].
  destruct (Comment_findOne castObjectId _ _ st) as [[c|]|e]; reflexivity.
Qed.

(** X11: [GET /posts/:postid/comments/:commentid] reads only, and serves a
    comment only under its own post: on a validated request it answers with
    a stored comment that has the identifier asked for and refers to the
    post asked for, when there is one, and 404 when no comment of that
    identifier refers to that post. *)
Theorem comment_get_scoped (req : Request) (st : Store) :
  snd (comment_get castObjectId req st) = st
  /\ forall cid pid,
       comment_get_errors castObjectId req = [] ->
       castObjectId (params_commentid req) = Some cid ->
       castObjectId (params_postid req) = Some pid ->
       (forall c,
          fst (comment_get castObjectId req st) = Responded (json (JComment c)) ->
          In c (Comments st) /\ cmt_id c = cid /\ cmt_post c = pid)
       /\ ((forall c, In c (Comments st) -> cmt_id c = cid -> cmt_post c <> pid) ->
           fst (comment_get castObjectId req st) = Responded (sendStatus 404))
       /\ (forall c,
             In c (Comments st) -> cmt_id c = cid -> cmt_post c = pid ->
             exists c', fst (comment_get castObjectId req st) = Responded (json (JComment c'))).
Proof.
  split; [apply comment_get_frame|].
  intros cid pid He Hcid Hpid.
  rewrite (comment_get_guarded req st He). unfold Comment_findOne. rewrite Hcid, Hpid.
  destruct (find _ (Comments st)) as [found|] eqn:Hfind; cbn [fst].
  - destruct (find_some _ _ Hfind) as [Hin Hsel].
    apply andb_prop in Hsel. destruct Hsel as [Hi Hp].
    apply String.eqb_eq in Hi. apply String.eqb_eq in Hp.
    split; [|split].
    + intros c Hc. inversion Hc; subst c. auto.
    + intros Hnone. exfalso. exact (Hnone found Hin Hi Hp).
    + intros c _ _ _. exists found. reflexivity.
  - split; [|split].
    + intros c Hc. discriminate Hc.
    + intros _. reflexivity.
    + intros c Hin Hi Hp. exfalso.
      pose proof (find_none _ _ Hfind c Hin) as Hsel. cbn in Hsel.
      unfold has_comment_id, of_post in Hsel. rewrite Hi, Hp, !String.eqb_refl in Hsel.
      discriminate Hsel.
Qed.

(** X12: a comment that [POST /posts/:postid/comments] created under a fresh
    identifier is served by [GET /posts/:postid/comments/:commentid] for
    that post and that identifier, as it was answered on creation. *)
Theorem comment_post_then_get (newId : ObjectId) (now : Date) (req req' : Request)
    (st st' : Store) (c : Comment) :
  comment_post castObjectId isEmail newId now req st = (Responded (json (JComment c)), st') ->
  ~ In newId (map cmt_id (Comments st)) ->
  comment_get_errors castObjectId req' = [] ->
  castObjectId (params_commentid req') = Some (cmt_id c) ->
  castObjectId (params_postid req') = Some (cmt_post c) ->
  comment_get castObjectId req' st' = (Responded (json (JComment c)), st').
Proof.
  intros Hrun Hfresh He Hcid Hpid.
  destruct (comment_post_outcomes castObjectId isEmail newId now req st)
    as [[_ Hno] | (post & c0 & _ & _ & _ & Hid & _ & Heq)].
  - exfalso. apply (Hno c). rewrite Hrun. reflexivity.
  - rewrite Heq in Hrun. inversion Hrun; subst c0 st'. clear Hrun.
    rewrite (comment_get_guarded req' _ He). unfold Comment_findOne.
    rewrite Hcid, Hpid. cbn [Comments].
    rewrite find_app_none.
    + cbn [find]. unfold has_comment_id, of_post. rewrite !String.eqb_refl. reflexivity.
    + apply find_none_intro. intros x Hx Hsel.
      apply andb_prop in Hsel. destruct Hsel as [Hi _]. apply String.eqb_eq in Hi.
      apply Hfresh. rewrite <- Hid, <- Hi. apply in_map. exact Hx.
Qed.

(** X13: the chain of [body] in [comment_post] has no upper bound (its
    option is spelled [maxLength], which [isLength] does not read), the
    schema has one: a comment on an existing post whose trimmed body is
    longer than 280 characters passes validation, is refused by [save()],
    and the request ends in an unhandled failure with nothing stored,
    not in a 400. *)
Theorem comment_post_long_body (newId : ObjectId) (now : Date) (req : Request) (st : Store)
    (post : Post) :
  comment_post_errors castObjectId isEmail req = [] ->
  Post_findById castObjectId (params_postid req) st = Ok (Some post) ->
  (280 < N.of_nat (String.length (trim (toString (req_body_body req)))))%N ->
  comment_post castObjectId isEmail newId now req st = (Unhandled SchemaValidationError, st).
Proof.
  intros He Hfind Hlong.
  rewrite (comment_post_guarded castObjectId isEmail newId now req st He), Hfind.
  destruct (castObjectId (params_postid req)); [|reflexivity].
  cbv zeta. unfold CommentSchema_valid. cbn [cmt_email cmt_title cmt_body].
  assert (isLength 10 (Some 280%N) (trim (toString (req_body_body req))) = false) as ->.
  { unfold isLength. apply andb_false_intro2. apply N.leb_gt. exact Hlong. }
  rewrite !andb_false_r. reflexivity.
Qed.

(** X14: every comment [comment_post] stores passes the validators of the
    schema: a store whose comments all do stays so, whatever the request. *)
Theorem comment_post_keeps_comments_valid (newId : ObjectId) (now : Date) (req : Request)
    (st : Store) :
  comments_valid st ->
  comments_valid (snd (comment_post castObjectId isEmail newId now req st)).
Proof.
  intros Hvalid.
  destruct (comment_post_outcomes castObjectId isEmail newId now req st)
    as [[Hst _] | (post & c & _ & _ & _ & _ & Hc & Heq)].
  - rewrite Hst. exact Hvalid.
  - rewrite Heq. intros c0 Hin. cbn [snd Comments] in Hin.
    apply in_app_or in Hin. destruct Hin as [Hin | [<- | []]]; [apply Hvalid, Hin | exact Hc].
Qed.

Lemma Comment_findOneAndUpdate_frame (id post : string) (email title body : option string)
    (st : Store) (r : option Comment) (st' : Store) :
  Comment_findOneAndUpdate castObjectId id post email title body st = Ok (r, st') ->
  map comment_frame (Comments st') = map comment_frame (Comments st)
  /\ Posts st' = Posts st /\ Topics st' = Topics st /\ Users st' = Users st.
Proof.
  unfold Comment_findOneAndUpdate.
  destruct (castObjectId id) as [i|]; [|discriminate].
  destruct (castObjectId post) as [p|]; [|discriminate].
  destruct (find _ (Comments st)); intros H; inversion H; subst; cbn.
  - rewrite map_update_first by reflexivity. auto.
  - auto.
Qed.

(** X15: [PUT /posts/:postid/comments/:commentid] has no key for the post
    reference or the date: whatever the request and its outcome, the
    comments keep their number, their order, and each its identifier, post
    reference and date; posts, topics and users are left as they are. *)
Theorem comment_put_frame (req : Request) (st : Store) :
  map comment_frame (Comments (snd (comment_put castObjectId isEmail req st)))
  = map comment_frame (Comments st)
  /\ Posts (snd (comment_put castObjectId isEmail req st)) = Posts st
  /\ Topics (snd (comment_put castObjectId isEmail req st)) = Topics st
  /\ Users (snd (comment_put castObjectId isEmail req st)) = Users st.
Proof.
  rewrite comment_put_ungated.
  destruct (Comment_findOneAndUpdate castObjectId _ _ _ _ _ st) as [[[c|] st']|e] eqn:Hup;
    try (cbn; auto; fail);
    exact (Comment_findOneAndUpdate_frame _ _ _ _ _ _ _ _ Hup).
Qed.

(** X16: [PUT /posts/:postid/comments/:commentid] updates a comment only
    under its own post.  With identifiers that cast: when a stored comment
    has the identifier and refers to the post, the answer is that comment
    with each field of the body replaced by its trimmed value and the
    others kept, and it is stored so; when no comment of the identifier
    refers to the post, the answer is 404 and the store is as it was. *)
Theorem comment_put_scoped (req : Request) (st : Store) (cid pid : ObjectId) :
  castObjectId (params_commentid req) = Some cid ->
  castObjectId (params_postid req) = Some pid ->
  (forall c,
     find (fun c => (has_comment_id cid c && of_post pid c)%bool) (Comments st) = Some c ->
     exists updated st',
       comment_put castObjectId isEmail req st = (Responded (json (JComment updated)), st')
       /\ find (fun c => (has_comment_id cid c && of_post pid c)%bool) (Comments st')
          = Some updated
       /\ cmt_email updated
          = match req_body_email req with Some s => trim s | None => cmt_email c end
       /\ cmt_title updated
          = match req_body_title req with Some s => trim s | None => cmt_title c end
       /\ cmt_body updated
          = match req_body_body req with Some s => trim s | None => cmt_body c end
       /\ comment_frame updated = comment_frame c)
  /\ ((forall c, In c (Comments st) -> cmt_id c = cid -> cmt_post c <> pid) ->
      comment_put castObjectId isEmail req st = (Responded (sendStatus 404), st)).
Proof.
  intros Hcid Hpid. split.
  - intros c Hfind. rewrite comment_put_ungated. unfold Comment_findOneAndUpdate.
    rewrite Hcid, Hpid. cbv zeta. rewrite Hfind.
    eexists _, _. split; [reflexivity|]. cbn [Comments set_Comments].
    split; [apply find_update_first; [reflexivity | exact Hfind]|].
    split; [destruct (req_body_email req); reflexivity|].
    split; [destruct (req_body_title req); reflexivity|].
    split; [destruct (req_body_body req); reflexivity | reflexivity].
  - intros Hnone. rewrite comment_put_ungated. unfold Comment_findOneAndUpdate.
    rewrite Hcid, Hpid. cbv zeta.
    rewrite find_none_intro; [reflexivity|].
    intros x Hx Hsel. apply andb_prop in Hsel. destruct Hsel as [Hi Hp].
    apply String.eqb_eq in Hi. apply String.eqb_eq in Hp.
    exact (Hnone x Hx Hi Hp).
Qed.

End CommentsControllerMore.

(** ** Further properties: the first posts controller *)

Section FirstPostsController.

Variable castObjectId : string -> option ObjectId.

Lemma first_post_put_guarded (req : Request) (st : Store) :
  postController.post_put_errors castObjectId req = [] ->
  postController.post_put castObjectId req st
  = match
      Post_findByIdAndUpdate castObjectId (params_postid req)
        (option_map (fun s => escape (trim s)) (req_body_title req))
        (option_map (fun s => escape (trim s)) (req_body_body req)) None st
    with
    | Throw e => (Unhandled e, st)
    | Ok (None, st') => (Responded (sendStatus 404), st')
    | Ok (Some updatedPost, st') => (Responded (json (JPost updatedPost)), st')
    end.
Proof.
  intros He. unfold postController.post_put. rewrite He.
  destruct (req_body_title req); destruct (req_body_body req); reflexivity.
Qed.

Lemma first_post_get_guarded (req : Request) (st : Store) :
  postController.post_get_errors castObjectId req = [] ->
  postController.post_get castObjectId req st
  = match Post_findById castObjectId (params_postid req) st with
    | Throw e => (Unhandled e, st)
    | Ok None => (Responded (sendStatus 404), st)
    | Ok (Some post) => (Responded (json (JPost post)), st)
    end.
Proof.
  intros He. unfold postController.post_get. rewrite He. reflexivity.
Qed.

(** X17: the first [post_put] asks for no principal.  On a validated request
    it answers 404 and changes nothing when no post has the identifier;
    otherwise it stores and answers the post with each field of the body
    replaced by its trimmed and escaped value, which holds none of the
    characters [escape] replaces, and the others kept, and [post_get] of the
    same identifier then answers that post. *)
Theorem first_post_put_updates (req : Request) (st : Store) (i : ObjectId) :
  postController.post_put_errors castObjectId req = [] ->
  castObjectId (params_postid req) = Some i ->
  (find (has_post_id i) (Posts st) = None ->
   postController.post_put castObjectId req st = (Responded (sendStatus 404), st))
  /\ forall p,
       find (has_post_id i) (Posts st) = Some p ->
       exists updated st',
         postController.post_put castObjectId req st
         = (Responded (json (JPost updated)), st')
         /\ post_title updated
            = match req_body_title req with
              | Some s => escape (trim s)
              | None => post_title p
              end
         /\ post_body updated
            = match req_body_body req with
              | Some s => escape (trim s)
              | None => post_body p
              end
         /\ (req_body_title req <> None -> plain (post_title updated))
         /\ (req_body_body req <> None -> plain (post_body updated))
         /\ post_topic updated = post_topic p
         /\ post_frame updated = post_frame p
         /\ postController.post_get castObjectId req st'
            = (Responded (json (JPost updated)), st').
Proof.
  intros He Hcast.
  assert (postController.post_get_errors castObjectId req = []) as Hget.
  { unfold postController.post_put_errors in He. apply app_eq_nil in He.
    exact (proj1 He). }
  rewrite (first_post_put_guarded req st He).
  unfold Post_findByIdAndUpdate. rewrite Hcast. cbn [cast_filter]. split.
  - intros ->. reflexivity.
  - intros p Hfind. rewrite Hfind. eexists _, _. split; [reflexivity|].
    split; [destruct (req_body_title req); reflexivity|].
    split; [destruct (req_body_body req); reflexivity|].
    split; [|split; [|split; [reflexivity|split; [reflexivity|]]]].
    + destruct (req_body_title req) as [s|]; [intros _; apply escape_plain | congruence].
    + destruct (req_body_body req) as [s|]; [intros _; apply escape_plain | congruence].
    + rewrite (first_post_get_guarded req _ Hget). unfold Post_findById. rewrite Hcast.
      cbn [Posts set_Posts].
      erewrite find_update_first; [reflexivity | reflexivity | exact Hfind].
Qed.

(** X18: the first [post_delete], on a validated request, answers 404 and
    changes nothing when no post has the identifier; otherwise it answers
    the post and removes it alone, comments included in what stays; with
    distinct post identifiers [post_get] and a second [post_delete] of the
    identifier are then answered 404. *)
Theorem first_post_delete_removes (req : Request) (st : Store) (i : ObjectId) :
  postController.post_delete_errors castObjectId req = [] ->
  castObjectId (params_postid req) = Some i ->
  (find (has_post_id i) (Posts st) = None ->
   postController.post_delete castObjectId req st = (Responded (sendStatus 404), st))
  /\ forall p,
       find (has_post_id i) (Posts st) = Some p ->
       unique_post_ids st ->
       exists st',
         postController.post_delete castObjectId req st = (Responded (json (JPost p)), st')
         /\ (forall q, In q (Posts st) -> post_id q <> i -> In q (Posts st'))
         /\ Comments st' = Comments st /\ Users st' = Users st /\ Topics st' = Topics st
         /\ postController.post_get castObjectId req st' = (Responded (sendStatus 404), st')
         /\ postController.post_delete castObjectId req st'
            = (Responded (sendStatus 404), st').
Proof.
  intros He Hcast.
  assert (forall s,
            postController.post_delete castObjectId req s
            = match postController.Post_findByIdAndDelete castObjectId (params_postid req) s with
              | Throw e => (Unhandled e, s)
              | Ok (None, s') => (Responded (sendStatus 404), s')
              | Ok (Some deletedPost, s') => (Responded (json (JPost deletedPost)), s')
              end) as Hrun.
  { intros s. unfold postController.post_delete. rewrite He. reflexivity. }
  split.
  - intros Hnone. rewrite Hrun. unfold postController.Post_findByIdAndDelete.
    rewrite Hcast, Hnone. reflexivity.
  - intros p Hfind Hnd.
    pose proof (find_remove_first post_id i (Posts st) Hnd) as Hgone.
    change (find (has_post_id i) (remove_first (has_post_id i) (Posts st)) = None) in Hgone.
    eexists. split.
    { rewrite Hrun. unfold postController.Post_findByIdAndDelete.
      rewrite Hcast, Hfind. reflexivity. }
    cbn [Posts Comments Users Topics set_Posts].
    split; [|split; [reflexivity|split; [reflexivity|split; [reflexivity|split]]]].
    + intros q Hq Hne. apply In_remove_first; [exact Hq|].
      unfold has_post_id. destruct (String.eqb_spec (post_id q) i); [contradiction|reflexivity].
    + rewrite (first_post_get_guarded req _ He). unfold Post_findById.
      rewrite Hcast. cbn [Posts set_Posts]. rewrite Hgone. reflexivity.
    + rewrite Hrun. unfold postController.Post_findByIdAndDelete.
      rewrite Hcast. cbn [Posts set_Posts]. rewrite Hgone. reflexivity.
Qed.

End FirstPostsController.

(** ** Further properties: defaults and paging of the list endpoints *)

Section ListDefaults.

Local Open Scope Z_scope.

Variable MAX_DOCS_PER_FETCH : positive.
Variable castObjectId : string -> option ObjectId.

Local Abbreviation pageSize := (Z.pos MAX_DOCS_PER_FETCH).

(** X19: with a page size of at most 20, the comment listing of a post
    with the default limit answers page [k], for [k] from 1 to
    [ceil(docCount / pageSize)], with the [k]-th run of [pageSize] comments
    of the post in stored order; putting the answers to these pages one
    after the other gives every stored comment of the post once, in stored
    order. *)
Theorem comments_pages_cover (reqs : nat -> Request) (postid : string) (pid : ObjectId)
    (st : Store) :
  pageSize <= 20 ->
  isValid castObjectId (trim postid) = true ->
  castObjectId (escape (trim postid)) = Some pid ->
  (forall k,
     In k (seq 1
             (Z.to_nat
                (ceil_div (Z.of_nat (List.length (filter (of_post pid) (Comments st))))
                   pageSize))) ->
     req_params_postid (reqs k) = postid
     /\ req_query_limit (reqs k) = None
     /\ fst (page_query (reqs k)) = Some (Z.of_nat k)) ->
  (forall k,
     In k (seq 1
             (Z.to_nat
                (ceil_div (Z.of_nat (List.length (filter (of_post pid) (Comments st))))
                   pageSize))) ->
     comments_get MAX_DOCS_PER_FETCH castObjectId (reqs k) st
     = (Responded
          (json (JComments
                   (firstn (Pos.to_nat MAX_DOCS_PER_FETCH)
                      (skipn ((k - 1) * Pos.to_nat MAX_DOCS_PER_FETCH)
                         (filter (of_post pid) (Comments st)))))),
        st))
  /\ flat_map
       (fun k =>
          listed_comments (fst (comments_get MAX_DOCS_PER_FETCH castObjectId (reqs k) st)))
       (seq 1
          (Z.to_nat
             (ceil_div (Z.of_nat (List.length (filter (of_post pid) (Comments st))))
                pageSize)))
     = filter (of_post pid) (Comments st).
Proof.
  intros Hmax Hvalid Hcast Hreqs.
  set (L := filter (of_post pid) (Comments st)) in *.
  set (tp := ceil_div (Z.of_nat (List.length L)) pageSize) in *.
  assert (0 <= tp) as Htp by (apply ceil_div_nonneg; lia).
  pose proof (ceil_div_lower MAX_DOCS_PER_FETCH (Z.of_nat (List.length L))) as Hlow.
  fold tp in Hlow.
  assert (forall k,
            In k (seq 1 (Z.to_nat tp)) ->
            comments_get MAX_DOCS_PER_FETCH castObjectId (reqs k) st
            = (Responded
                 (json (JComments
                          (firstn (Pos.to_nat MAX_DOCS_PER_FETCH)
                             (skipn ((k - 1) * Pos.to_nat MAX_DOCS_PER_FETCH) L)))),
               st)) as Hpages.
  { intros k Hk. destruct (Hreqs k Hk) as (Hpost & Hl & Hp).
    apply in_seq in Hk.
    assert (fst (limit_query MAX_DOCS_PER_FETCH (reqs k)) = Some pageSize) as Hlim
      by (unfold limit_query, int_query; rewrite Hl; reflexivity).
    assert (Z.of_nat k <> 0) as Hne by lia.
    assert (isValid castObjectId (trim (req_params_postid (reqs k))) = true) as Hvalid'
      by (rewrite Hpost; exact Hvalid).
    assert (castObjectId (params_postid (reqs k)) = Some pid) as Hcast'
      by (unfold params_postid; rewrite Hpost; exact Hcast).
    rewrite (comments_get_answer MAX_DOCS_PER_FETCH castObjectId (reqs k) st pid (Z.of_nat k)
               pageSize Hvalid' Hcast' Hp Hlim Hne).
    fold L. fold tp.
    assert ((if (1 <=? Z.of_nat k) && (Z.of_nat k <=? tp) then Z.of_nat k - 1 else 0)
            = Z.of_nat k - 1) as ->.
    { destruct (1 <=? Z.of_nat k) eqn:E1; destruct (Z.of_nat k <=? tp) eqn:E2;
        cbn [andb]; lia. }
    assert (comments_get_limit_sanitizer pageSize = pageSize) as ->.
    { unfold comments_get_limit_sanitizer.
      destruct (pageSize <? 0) eqn:E1; destruct (pageSize >? 20) eqn:E2; cbn [orb]; lia. }
    replace (Z.to_nat (skip_of MAX_DOCS_PER_FETCH (Z.of_nat k - 1)))
      with ((k - 1) * Pos.to_nat MAX_DOCS_PER_FETCH)%nat.
    2: { unfold skip_of. rewrite Z2Nat.inj_mul, Z2Nat.inj_pos by lia. f_equal. lia. }
    unfold apply_limit. cbn [Z.eqb Z.abs]. rewrite Z2Nat.inj_pos. reflexivity. }
  split; [exact Hpages|].
  rewrite (flat_map_ext_in _
             (fun k => firstn (Pos.to_nat MAX_DOCS_PER_FETCH)
                         (skipn ((k - 1) * Pos.to_nat MAX_DOCS_PER_FETCH) L))).
  - apply pages_cover.
    apply Nat2Z.inj_le. rewrite Nat2Z.inj_mul, Z2Nat.id, positive_nat_Z by exact Htp.
    exact Hlow.
  - intros k Hk. rewrite (Hpages k Hk). reflexivity.
Qed.

(** X20: [GET /posts] without any query takes page 1 and the configured
    page size as limit, and the limit sanitizer clamps that default like any
    other value: with a page size of at most 20 the answer is the
    [pageSize] newest posts, with a larger one the limit becomes 0 and the
    answer is all posts. *)
Theorem posts_get_defaults (req : Request) (st : Store) :
  req_query_limit req = None ->
  req_query_page req = None ->
  req_query_topic req = None ->
  req_query_userid req = None ->
  posts_get MAX_DOCS_PER_FETCH castObjectId req st
  = (Responded
       (json (JPosts (if pageSize <=? 20
                      then firstn (Pos.to_nat MAX_DOCS_PER_FETCH) (sort_date_desc (Posts st))
                      else sort_date_desc (Posts st)))),
     st).
Proof.
  intros Hlimit Hpage Htopic Huser.
  assert (fst (page_query req) = Some 1) as Hp
    by (unfold page_query, int_query; rewrite Hpage; reflexivity).
  assert (fst (limit_query MAX_DOCS_PER_FETCH req) = Some pageSize) as Hl
    by (unfold limit_query, int_query; rewrite Hlimit; reflexivity).
  rewrite (posts_get_guarded MAX_DOCS_PER_FETCH castObjectId req st 1 pageSize Hp Hl).
  rewrite Htopic, Huser. unfold Post_find.
  change (posts_get_queryOpts (posts_get_topic castObjectId None st) None)
    with (mkQueryOpts None None).
  cbn [opts_topic opts_author cast_filter].
  rewrite filter_all by reflexivity.
  assert (posts_get_page_sanitizer MAX_DOCS_PER_FETCH 1 st = 0) as ->.
  { unfold posts_get_page_sanitizer.
    destruct (1 >? ceil_div (Post_countDocuments st) pageSize); reflexivity. }
  change (skip_of MAX_DOCS_PER_FETCH 0) with 0.
  rewrite paginate_nonneg by lia. change (Z.to_nat 0) with 0%nat. cbn [skipn].
  unfold posts_get_limit_sanitizer, apply_limit.
  destruct (pageSize <=? 20) eqn:E.
  - assert ((pageSize >? 20) = false) as -> by lia. cbn [Z.ltb Z.compare orb Z.eqb Z.abs].
    rewrite Z2Nat.inj_pos. reflexivity.
  - assert ((pageSize >? 20) = true) as -> by lia. reflexivity.
Qed.

End ListDefaults.

(** ** Further properties: what is stored is trimmed *)

Lemma rtrim_idempotent (s : string) : rtrim (rtrim s) = rtrim s.
Proof.
  induction s as [|c s IH]; [reflexivity|].
  cbn [rtrim]. destruct (rtrim s) as [|a r] eqn:E.
  - destruct (is_whitespace c) eqn:Ec; [reflexivity|]. cbn [rtrim]. rewrite Ec. reflexivity.
  - cbn [rtrim]. cbn [rtrim] in IH. rewrite IH. reflexivity.
Qed.

Lemma ltrim_head (s : string) :
  ltrim s = EmptyString \/ exists c r, ltrim s = String c r /\ is_whitespace c = false.
Proof.
  induction s as [|c s IH]; cbn; [left; reflexivity|].
  destruct (is_whitespace c) eqn:E; [exact IH|]. right. exists c, s. auto.
Qed.

Lemma ltrim_rtrim_head (c : ascii) (r : string) :
  is_whitespace c = false -> ltrim (rtrim (String c r)) = rtrim (String c r).
Proof.
  intros Hc. cbn [rtrim]. destruct (rtrim r); [rewrite Hc|]; cbn [ltrim]; rewrite Hc;
    reflexivity.
Qed.

(** [trim] leaves a trimmed string as it is. *)
Lemma trim_idempotent (s : string) : trim (trim s) = trim s.
Proof.
  unfold trim. destruct (ltrim_head s) as [E | (c & r & E & Hc)]; rewrite E.
  - reflexivity.
  - rewrite (ltrim_rtrim_head c r Hc). apply rtrim_idempotent.
Qed.

Section Normalisation.

Variable castObjectId : string -> option ObjectId.
Variable isEmail : string -> bool.

(** X21: the body chains trim before they validate and the handlers store
    the trimmed values: the email, title and body of every comment
    [comment_post] creates, and the title and body of every post [post_post]
    creates, are left as they are by [trim]. *)
Theorem stored_fields_are_trimmed (req : Request) (st st' : Store) :
  (forall newId now c,
     comment_post castObjectId isEmail newId now req st
     = (Responded (json (JComment c)), st') ->
     trim (cmt_email c) = cmt_email c
     /\ trim (cmt_title c) = cmt_title c
     /\ trim (cmt_body c) = cmt_body c)
  /\ (forall topicId postId now p,
        post_post castObjectId topicId postId now req st = (Responded (json (JPost p)), st') ->
        trim (post_title p) = post_title p /\ trim (post_body p) = post_body p).
Proof.
  split.
  - intros newId now c Hrun.
    destruct (comment_post_errors castObjectId isEmail req) as [|e es] eqn:He.
    + rewrite (comment_post_guarded castObjectId isEmail newId now req st He) in Hrun.
      destruct (Post_findById castObjectId (params_postid req) st) as [[post|]|err];
        try discriminate Hrun.
      destruct (castObjectId (params_postid req)); [|discriminate Hrun].
      cbv zeta in Hrun.
      destruct (negb (CommentSchema_valid _)); [discriminate Hrun|].
      inversion Hrun; subst c. cbn [cmt_email cmt_title cmt_body].
      repeat split; apply trim_idempotent.
    + unfold comment_post in Hrun. rewrite He in Hrun. discriminate Hrun.
  - intros topicId postId now p Hrun.
    destruct (req_user req) as [user|] eqn:Hu.
    + rewrite (post_post_run castObjectId topicId postId now req st user Hu) in Hrun.
      cbv zeta in Hrun.
      destruct (negb (isEmpty (post_post_errors req))); [discriminate Hrun|].
      destruct (castObjectId _); [|discriminate Hrun].
      destruct (find _ _); [|discriminate Hrun].
      inversion Hrun; subst p. cbn [post_title post_body].
      split; apply trim_idempotent.
    + unfold post_post in Hrun. rewrite Hu in Hrun. discriminate Hrun.
Qed.

(** X22: an update never creates a Topic.  [PUT /posts/:postid] by an
    authenticated principal with a [topic] that does not cast to an
    ObjectId, or that names no stored Topic, is answered 400 with the error
    of the topic, and the store is as it was. *)
Theorem post_put_unknown_topic (req : Request) (st : Store) (user : User) (t : string) :
  req_user req = Some user ->
  req_body_topic req = Some t ->
  (castObjectId (trim t) = None
   \/ exists i, castObjectId (trim t) = Some i /\ find (has_topic_id i) (Topics st) = None) ->
  exists errors,
    post_put castObjectId req st = (Responded (status_json 400 (JErrors errors)), st)
    /\ (In (mkError "topic" "Invalid topic id") errors
        \/ In (mkError "topic" "Invalid topic") errors).
Proof.
  intros Hu Ht Hbad.
  assert (In (mkError "topic" "Invalid topic id") (post_put_errors castObjectId req st)
          \/ In (mkError "topic" "Invalid topic") (post_put_errors castObjectId req st))
    as Hin.
  { unfold post_put_errors, post_put_topic, post_put_topic_validator, isValid,
      Topic_findOne_id.
    rewrite Ht. cbn [snd].
    destruct Hbad as [Hcast | (i & Hcast & Hnone)]; rewrite Hcast; cbn [negb].
    - left. repeat (apply in_or_app; right). left. reflexivity.
    - rewrite Hnone. right. repeat (apply in_or_app; right). left. reflexivity. }
  exists (post_put_errors castObjectId req st). split; [|exact Hin].
  apply (post_put_gate castObjectId req st user Hu).
  intros He. rewrite He in Hin. destruct Hin as [[] | []].
Qed.

(** X23: a post identifier that is not a valid ObjectId is answered 400 with
    the error of [postid] first in the list, and nothing is stored, by
    [comment_get], [comment_post], the authenticated [post_put] and
    [post_delete], and [post_get], [post_put] and [post_delete] of the first
    controller. *)
Theorem malformed_postid_is_rejected (req : Request) (st : Store) :
  isValid castObjectId (trim (req_params_postid req)) = false ->
  let rejected (run : Outcome * Store) :=
    exists rest,
      run = (Responded
               (status_json 400 (JErrors (mkError "postid" "Post id must be valid" :: rest))),
             st) in
  rejected (comment_get castObjectId req st)
  /\ (forall newId now, rejected (comment_post castObjectId isEmail newId now req st))
  /\ (req_user req <> None ->
      rejected (post_put castObjectId req st) /\ rejected (post_delete castObjectId req st))
  /\ rejected (postController.post_get castObjectId req st)
  /\ rejected (postController.post_put castObjectId req st)
  /\ rejected (postController.post_delete castObjectId req st).
Proof.
  intros Hbad rejected. subst rejected. cbv beta.
  split; [|split; [|split; [|split; [|split]]]].
  - unfold comment_get, comment_get_errors, objectid_param. cbn [fst snd].
    rewrite Hbad. cbn. eexists. reflexivity.
  - intros newId now. unfold comment_post, comment_post_errors, objectid_param.
    cbn [fst snd]. rewrite Hbad. cbn. eexists. reflexivity.
  - intros Hu. destruct (req_user req) as [user|] eqn:Huser; [|congruence]. split.
    + unfold post_put, post_put_errors, objectid_param. rewrite Huser. cbn [fst snd].
      rewrite Hbad. cbn. eexists. reflexivity.
    + unfold post_delete, post_delete_errors, objectid_param. rewrite Huser. cbn [fst snd].
      rewrite Hbad. cbn. eexists. reflexivity.
  - unfold postController.post_get, postController.post_get_errors, objectid_param.
    cbn [fst snd]. rewrite Hbad. cbn. eexists. reflexivity.
  - unfold postController.post_put, postController.post_put_errors, objectid_param.
    cbn [fst snd]. rewrite Hbad. cbn. eexists. reflexivity.
  - unfold postController.post_delete, postController.post_delete_errors, objectid_param.
    cbn [fst snd]. rewrite Hbad. cbn. eexists. reflexivity.
Qed.

End Normalisation.

(** ** The further properties on the concrete deployment *)

Lemma blog_unique_post_ids : unique_post_ids blog.
Proof.
  unfold unique_post_ids. cbn.
  repeat constructor; cbn; intuition discriminate.
Qed.

Lemma post_post_creates_witness :
  req_user bob_posts = Some bob
  /\ post_post_errors bob_posts = []
  /\ find (has_user_id (user_id bob)) (Users blog) = Some bob
  /\ user_posts bob = []
  /\ exists savedPost st',
       post_post example_cast sports_id post4_id 500%Z bob_posts blog
       = (Responded (json (JPost savedPost)), st')
       /\ post_author savedPost = bob_id
       /\ post_title savedPost = "Match report"
       /\ post_topic savedPost = sports_id
       /\ option_map user_posts (find (has_user_id bob_id) (Users st')) = Some [post4_id]
       /\ In alice (Users st').
Proof.
  split; [reflexivity|]. split; [reflexivity|]. split; [reflexivity|].
  split; [reflexivity|].
  destruct (post_post_creates example_cast sports_id post4_id 500%Z bob_posts blog bob bob
              sports_id eq_refl eq_refl eq_refl eq_refl)
    as (savedPost & st' & Hrun & _ & Hauthor & Htitle & _ & Htopic & _ & _ & _ & Huser
        & Hothers & _).
  exists savedPost, st'. split; [exact Hrun|]. split; [exact Hauthor|].
  split; [exact Htitle|]. split; [exact Htopic|].
  split; [exact (f_equal (option_map user_posts) Huser)|].
  apply Hothers; [left; reflexivity | discriminate].
Defined.

Lemma post_post_rejected_witness :
  req_user bob_posts_short_title = Some bob
  /\ post_post_errors bob_posts_short_title <> []
  /\ Topic_findOne_name "sports" blog = None
  /\ Topics (snd (post_post example_cast sports_id post4_id 500%Z bob_posts_short_title blog))
     = [mkTopic news_id "news"; mkTopic sports_id "sports"].
Proof.
  assert (post_post_errors bob_posts_short_title <> []) as He by discriminate.
  split; [reflexivity|]. split; [exact He|]. split; [reflexivity|].
  destruct (proj2 (post_post_rejected example_cast sports_id post4_id 500%Z
                     bob_posts_short_title blog) bob eq_refl He)
    as (st' & Hrun & _ & _ & _ & Hnew & _).
  rewrite Hrun. exact (Hnew eq_refl).
Defined.

Lemma post_post_keeps_topic_names_unique_witness :
  unique_topic_names blog
  /\ unique_topic_names (snd (post_post example_cast sports_id post4_id 500%Z bob_posts blog)).
Proof.
  assert (unique_topic_names blog) as H
    by (unfold unique_topic_names; cbn; repeat constructor; cbn; intuition discriminate).
  split; [exact H|].
  exact (post_post_keeps_topic_names_unique example_cast sports_id post4_id 500%Z bob_posts
           blog H).
Defined.

Lemma post_put_by_owner_witness :
  req_user alice_puts_post1 = Some alice
  /\ post_put_errors example_cast alice_puts_post1 blog = []
  /\ find (has_post_id post1_id) (Posts blog) = Some post1
  /\ exists updated,
       fst (post_put example_cast alice_puts_post1 blog) = Responded (json (JPost updated))
       /\ post_title updated = "New title"
       /\ post_body updated = "first body".
Proof.
  split; [reflexivity|]. split; [reflexivity|]. split; [reflexivity|].
  destruct (post_put_by_owner example_cast alice_puts_post1 blog alice post1 post1_id None
              eq_refl eq_refl eq_refl eq_refl eq_refl eq_refl)
    as (updated & st' & Hrun & _ & Htitle & Hbody & _).
  exists updated. rewrite Hrun. split; [reflexivity|]. split; assumption.
Defined.

Lemma post_delete_by_owner_witness :
  req_user alice_deletes_post1 = Some alice
  /\ post_delete_errors example_cast alice_deletes_post1 = []
  /\ find (has_post_id post1_id) (Posts blog) = Some post1
  /\ unique_post_ids blog
  /\ exists st',
       post_delete example_cast alice_deletes_post1 blog
       = (Responded (json (JDeleteResult true 1)), st')
       /\ Posts st' = [post2; post3]
       /\ post_delete example_cast alice_deletes_post1 st' = (Responded (sendStatus 404), st')
       /\ Comments st' = [comment1].
Proof.
  split; [reflexivity|]. split; [reflexivity|]. split; [reflexivity|].
  split; [exact blog_unique_post_ids|].
  destruct (post_delete_by_owner example_cast alice_deletes_post1 blog alice post1 post1_id
              eq_refl eq_refl eq_refl eq_refl eq_refl blog_unique_post_ids)
    as (st' & Hrun & Hposts & _ & Hagain & _ & _ & Hcomments & _).
  exists st'. split; [exact Hrun|]. split; [exact Hposts|].
  split; [exact Hagain | exact Hcomments].
Defined.

Lemma posts_get_listing_witness :
  posts_get 5 example_cast (with_userid (Some alice_id) empty_request) blog
  = (Responded (json (JPosts [post3; post2; post1])), blog)
  /\ newest_first [post3; post2; post1]
  /\ forall p, In p [post3; post2; post1] -> example_cast alice_id = Some (post_author p).
Proof.
  split; [reflexivity|].
  destruct (posts_get_listing 5 example_cast (with_userid (Some alice_id) empty_request)
              blog blog [post3; post2; post1] eq_refl)
    as (_ & _ & Hsorted & _ & _ & Hauthor).
  split; [exact Hsorted|].
  apply (Hauthor alice_id eq_refl). discriminate.
Defined.

Lemma posts_get_userid_unchecked_witness :
  posts_get_errors 5 (with_userid (Some "alice") empty_request) = []
  /\ example_cast "alice" = None
  /\ exists value,
       posts_get 5 example_cast (with_userid (Some "alice") empty_request) blog
       = (Unhandled (CastError value), blog).
Proof.
  split; [reflexivity|]. split; [reflexivity|].
  exact (posts_get_userid_unchecked 5 example_cast
           (with_userid (Some "alice") empty_request) blog "alice"
           eq_refl eq_refl ltac:(discriminate) eq_refl).
Defined.

Lemma posts_pages_cover_witness :
  (2 <= 20)%Z
  /\ posts_get 2 example_cast (page_1_or_2 empty_request 1) blog
     = (Responded (json (JPosts [post3; post2])), blog)
  /\ posts_get 2 example_cast (page_1_or_2 empty_request 2) blog
     = (Responded (json (JPosts [post1])), blog)
  /\ (listed_posts (fst (posts_get 2 example_cast (page_1_or_2 empty_request 1) blog))
      ++ listed_posts (fst (posts_get 2 example_cast (page_1_or_2 empty_request 2) blog)))%list
     = [post3; post2; post1].
Proof.
  assert (2 <= 20)%Z as H by lia.
  assert (forall k,
            In k (seq 1 (Z.to_nat (ceil_div (Post_countDocuments blog) 2))) ->
            req_query_topic (page_1_or_2 empty_request k) = None
            /\ req_query_userid (page_1_or_2 empty_request k) = None
            /\ req_query_limit (page_1_or_2 empty_request k) = None
            /\ fst (page_query (page_1_or_2 empty_request k)) = Some (Z.of_nat k)) as Hreqs.
  { intros k Hk. change (In k [1; 2]%nat) in Hk.
    destruct Hk as [<- | [<- | []]]; repeat split. }
  destruct (posts_pages_cover 2 example_cast (page_1_or_2 empty_request) blog None None
              None None H eq_refl eq_refl Hreqs) as [Hpages Hcover].
  split; [exact H|].
  split; [exact (Hpages 1%nat (or_introl eq_refl))|].
  split; [exact (Hpages 2%nat (or_intror (or_introl eq_refl)))|].
  exact Hcover.
Defined.

Lemma topic_found_by_name_is_plain_witness :
  Topic_findOne_name (escape (trim " news ")) blog = Some (mkTopic news_id "news")
  /\ posts_get_topic example_cast (Some " news ") blog = Some news_id
  /\ plain "news".
Proof.
  split; [reflexivity|].
  destruct (topic_found_by_name_is_plain example_cast blog " news " (mkTopic news_id "news")
              eq_refl) as (Hget & Hplain & _).
  split; [exact Hget | exact Hplain].
Defined.

Lemma comment_get_scoped_witness :
  comment_get_errors example_cast get_comment1 = []
  /\ comment_get example_cast get_comment1 blog = (Responded (json (JComment comment1)), blog)
  /\ comment_get_errors example_cast get_comment1_under_post2 = []
  /\ fst (comment_get example_cast get_comment1_under_post2 blog) = Responded (sendStatus 404).
Proof.
  split; [reflexivity|]. split; [reflexivity|]. split; [reflexivity|].
  apply (proj2 (comment_get_scoped example_cast get_comment1_under_post2 blog)
           comment1_id post2_id eq_refl eq_refl eq_refl).
  intros c [<- | []] _. discriminate.
Defined.

Lemma comment_post_then_get_witness :
  ~ In comment2_id (map cmt_id (Comments blog))
  /\ comment_get_errors example_cast get_comment2 = []
  /\ exists st',
       comment_post example_cast example_isEmail comment2_id 400%Z eve_comments_post2 blog
       = (Responded (json (JComment comment2)), st')
       /\ comment_get example_cast get_comment2 st' = (Responded (json (JComment comment2)), st').
Proof.
  assert (~ In comment2_id (map cmt_id (Comments blog))) as Hfresh
    by (cbn; intuition discriminate).
  split; [exact Hfresh|]. split; [reflexivity|].
  eexists. split; [reflexivity|].
  exact (comment_post_then_get example_cast example_isEmail comment2_id 400%Z
           eve_comments_post2 get_comment2 blog _ comment2 eq_refl Hfresh eq_refl eq_refl
           eq_refl).
Defined.

Lemma comment_post_long_body_witness :
  comment_post_errors example_cast example_isEmail eve_comments_at_length = []
  /\ Post_findById example_cast (params_postid eve_comments_at_length) blog = Ok (Some post2)
  /\ (280 < N.of_nat (String.length (trim (toString (req_body_body eve_comments_at_length)))))%N
  /\ comment_post example_cast example_isEmail comment2_id 400%Z eve_comments_at_length blog
     = (Unhandled SchemaValidationError, blog).
Proof.
  assert (280 < N.of_nat (String.length
                            (trim (toString (req_body_body eve_comments_at_length)))))%N
    as Hlong by reflexivity.
  split; [reflexivity|]. split; [reflexivity|]. split; [exact Hlong|].
  exact (comment_post_long_body example_cast example_isEmail comment2_id 400%Z
           eve_comments_at_length blog post2 eq_refl eq_refl Hlong).
Defined.

Lemma comment_post_keeps_comments_valid_witness :
  comments_valid blog
  /\ comments_valid
       (snd (comment_post example_cast example_isEmail comment2_id 400%Z
               eve_comments_post2 blog)).
Proof.
  assert (comments_valid blog) as H by (intros c [<- | []]; reflexivity).
  split; [exact H|].
  exact (comment_post_keeps_comments_valid example_cast example_isEmail comment2_id 400%Z
           eve_comments_post2 blog H).
Defined.

Lemma comment_put_scoped_witness :
  example_cast (params_commentid short_title_put) = Some comment1_id
  /\ example_cast (params_postid short_title_put) = Some post1_id
  /\ (exists updated,
        fst (comment_put example_cast example_isEmail short_title_put blog)
        = Responded (json (JComment updated))
        /\ cmt_title updated = "ab"
        /\ cmt_body updated = "a comment on the post")
  /\ comment_put example_cast example_isEmail
       (with_title (Some "ab") get_comment1_under_post2) blog
     = (Responded (sendStatus 404), blog).
Proof.
  split; [reflexivity|]. split; [reflexivity|]. split.
  - destruct (proj1 (comment_put_scoped example_cast example_isEmail short_title_put blog
                       comment1_id post1_id eq_refl eq_refl) comment1 eq_refl)
      as (updated & st' & Hrun & _ & _ & Htitle & Hbody & _).
    exists updated. rewrite Hrun. repeat split; assumption.
  - apply (proj2 (comment_put_scoped example_cast example_isEmail
                    (with_title (Some "ab") get_comment1_under_post2) blog
                    comment1_id post2_id eq_refl eq_refl)).
    intros c [<- | []] _. discriminate.
Defined.

Lemma first_post_put_updates_witness :
  postController.post_put_errors example_cast put_markup_title = []
  /\ example_cast (params_postid put_markup_title) = Some post1_id
  /\ exists updated,
       fst (postController.post_put example_cast put_markup_title blog)
       = Responded (json (JPost updated))
       /\ post_title updated = "&lt;b&gt;Hi&lt;&#x2F;b&gt;"
       /\ plain (post_title updated)
       /\ post_author updated = alice_id.
Proof.
  split; [reflexivity|]. split; [reflexivity|].
  destruct (proj2 (first_post_put_updates example_cast put_markup_title blog post1_id
                     eq_refl eq_refl) post1 eq_refl)
    as (updated & st' & Hrun & Htitle & _ & Hplain & _ & _ & Hframe & _).
  exists updated. rewrite Hrun. split; [reflexivity|]. split; [exact Htitle|].
  split; [apply Hplain; discriminate|].
  unfold post_frame in Hframe. inversion Hframe. reflexivity.
Defined.

Lemma first_post_delete_removes_witness :
  postController.post_delete_errors example_cast (with_postid post1_id empty_request) = []
  /\ unique_post_ids blog
  /\ exists st',
       postController.post_delete example_cast (with_postid post1_id empty_request) blog
       = (Responded (json (JPost post1)), st')
       /\ postController.post_get example_cast (with_postid post1_id empty_request) st'
          = (Responded (sendStatus 404), st').
Proof.
  split; [reflexivity|]. split; [exact blog_unique_post_ids|].
  destruct (proj2 (first_post_delete_removes example_cast (with_postid post1_id empty_request)
                     blog post1_id eq_refl eq_refl) post1 eq_refl blog_unique_post_ids)
    as (st' & Hrun & _ & _ & _ & _ & Hget & _).
  exists st'. split; assumption.
Defined.

Lemma comments_pages_cover_witness :
  (2 <= 20)%Z
  /\ isValid example_cast (trim post1_id) = true
  /\ example_cast (escape (trim post1_id)) = Some post1_id
  /\ comments_get 2 example_cast (page_1_or_2 (with_postid post1_id empty_request) 1)
       discussion
     = (Responded (json (JComments [comment1; comment3])), discussion)
  /\ comments_get 2 example_cast (page_1_or_2 (with_postid post1_id empty_request) 2)
       discussion
     = (Responded (json (JComments [comment4])), discussion)
  /\ (listed_comments
        (fst (comments_get 2 example_cast
                (page_1_or_2 (with_postid post1_id empty_request) 1) discussion))
      ++ listed_comments
           (fst (comments_get 2 example_cast
                   (page_1_or_2 (with_postid post1_id empty_request) 2) discussion)))%list
     = [comment1; comment3; comment4].
Proof.
  assert (2 <= 20)%Z as H by lia.
  assert (forall k,
            In k (seq 1
                    (Z.to_nat
                       (ceil_div
                          (Z.of_nat
                             (List.length (filter (of_post post1_id) (Comments discussion))))
                          2))) ->
            req_params_postid (page_1_or_2 (with_postid post1_id empty_request) k) = post1_id
            /\ req_query_limit (page_1_or_2 (with_postid post1_id empty_request) k) = None
            /\ fst (page_query (page_1_or_2 (with_postid post1_id empty_request) k))
               = Some (Z.of_nat k)) as Hreqs.
  { intros k Hk. change (In k [1; 2]%nat) in Hk.
    destruct Hk as [<- | [<- | []]]; repeat split. }
  destruct (comments_pages_cover 2 example_cast
              (page_1_or_2 (with_postid post1_id empty_request)) post1_id post1_id discussion
              H eq_refl eq_refl Hreqs) as [Hpages Hcover].
  split; [exact H|]. split; [reflexivity|]. split; [reflexivity|].
  split; [exact (Hpages 1%nat (or_introl eq_refl))|].
  split; [exact (Hpages 2%nat (or_intror (or_introl eq_refl)))|].
  exact Hcover.
Defined.

Lemma posts_get_defaults_witness :
  req_query_limit empty_request = None
  /\ posts_get 2 example_cast empty_request blog
     = (Responded (json (JPosts [post3; post2])), blog)
  /\ posts_get 25 example_cast empty_request blog
     = (Responded (json (JPosts [post3; post2; post1])), blog).
Proof.
  split; [reflexivity|]. split.
  - exact (posts_get_defaults 2 example_cast empty_request blog eq_refl eq_refl eq_refl
             eq_refl).
  - exact (posts_get_defaults 25 example_cast empty_request blog eq_refl eq_refl eq_refl
             eq_refl).
Defined.

Lemma stored_fields_are_trimmed_witness :
  req_body_title bob_posts = Some " Match report "
  /\ exists p,
       fst (post_post example_cast sports_id post4_id 500%Z bob_posts blog)
       = Responded (json (JPost p))
       /\ trim (post_title p) = post_title p.
Proof.
  split; [reflexivity|].
  eexists. split; [reflexivity|].
  exact (proj1 (proj2 (stored_fields_are_trimmed example_cast example_isEmail bob_posts blog _)
                  sports_id post4_id 500%Z _ eq_refl)).
Defined.

Lemma post_put_unknown_topic_witness :
  req_user alice_puts_topic_name = Some alice
  /\ req_body_topic alice_puts_topic_name = Some "sports"
  /\ example_cast (trim "sports") = None
  /\ exists errors,
       post_put example_cast alice_puts_topic_name blog
       = (Responded (status_json 400 (JErrors errors)), blog).
Proof.
  split; [reflexivity|]. split; [reflexivity|]. split; [reflexivity|].
  destruct (post_put_unknown_topic example_cast alice_puts_topic_name blog alice "sports"
              eq_refl eq_refl (or_introl eq_refl)) as (errors & Hrun & _).
  exists errors. exact Hrun.
Defined.

Lemma malformed_postid_is_rejected_witness :
  isValid example_cast (trim (req_params_postid (with_postid "abc" empty_request))) = false
  /\ exists rest,
       comment_get example_cast (with_postid "abc" empty_request) blog
       = (Responded
            (status_json 400 (JErrors (mkError "postid" "Post id must be valid" :: rest))),
          blog).
Proof.
  split; [reflexivity|].
  exact (proj1 (malformed_postid_is_rejected example_cast example_isEmail
                  (with_postid "abc" empty_request) blog eq_refl)).
Defined.
